(** * Health-Data-Sync: the synchronisation and aggregation engine

    A shallow embedding of [src/utils.py], [src/advanced_utils.py] and the
    policy layer of [src/main.py] (with the wiring of the two vendor
    handlers, the calendar handler and the configuration), followed by the
    properties of the specification and by further properties of the code.

    Conventions.
    - Python objects that are mutated ([RateLimiter.calls], the cache
      dictionaries, the fields of [HealthSync]) live in an explicit state
      that every operation threads through; an operation returns a
      [result] (a value or a raised exception) together with the state it
      leaves behind, so that mutations done before a [raise] persist.
    - [datetime] instants and [timedelta] spans are integers counting
      microseconds; [time.sleep] takes whole seconds.
    - A Python number is represented by its exact value, a rational [Q];
      every operation of [float] and of numpy's [float64] returns the
      binary64 number nearest to the exact result ([round64]).  The values
      [inf] and [nan], which an overflow or a division by zero gives, are
      outside this representation.
    - [logging] calls have no effect on the program and are left out. *)

From Stdlib Require Import ZArith QArith Qabs List String Ascii Sorted Lia Lqa.
From Stdlib Require OrderedTypeEx.
From stdpp Require Import base option list sorting gmap strings pretty.

Open Scope Z_scope.

(** ** Exceptions and the state-and-exception monad *)

Inductive exn : Type :=
| TypeError (msg : string)
| ValueError (msg : string)
| IndexError (msg : string)
| KeyError (key : string)
| RuntimeError (msg : string)
| ExternalError (msg : string).  (* failures raised by a vendor, Redis or transport library *)

(** [repr(s)] of a text: between single quotes, or between double quotes
    when the text has a single quote and no double quote; the quote in use
    and the backslash are escaped, a control character is written as its
    escape sequence.  Characters outside ASCII are copied, as Python copies
    the printable ones. *)
Definition single_quote : ascii := ascii_of_nat 39.
Definition double_quote_char : ascii := ascii_of_nat 34.
Definition backslash : ascii := ascii_of_nat 92.

Fixpoint has_char (c : ascii) (s : string) : bool :=
  match s with
  | EmptyString => false
  | String c' s' => Ascii.eqb c c' || has_char c s'
  end.

Definition hex_digit (n : nat) : ascii :=
  ascii_of_nat (if (n <? 10)%nat then 48 + n else 87 + n).

Definition repr_char (quote c : ascii) : string :=
  let n := nat_of_ascii c in
  if Ascii.eqb c quote || Ascii.eqb c backslash then String backslash (String c EmptyString)
  else if (n =? 9)%nat then String backslash "t"
  else if (n =? 10)%nat then String backslash "n"
  else if (n =? 13)%nat then String backslash "r"
  else if (n <? 32)%nat || (n =? 127)%nat
  then String backslash
         (String "x" (String (hex_digit (n / 16)) (String (hex_digit (n mod 16)) EmptyString)))
  else String c EmptyString.

Fixpoint repr_chars (quote : ascii) (s : string) : string :=
  match s with
  | EmptyString => EmptyString
  | String c s' => repr_char quote c +:+ repr_chars quote s'
  end.

Definition py_repr (s : string) : string :=
  let quote :=
    if has_char single_quote s && negb (has_char double_quote_char s)
    then double_quote_char else single_quote in
  String quote (repr_chars quote s +:+ String quote EmptyString).

(** [str(e)]: the message; for a [KeyError], the [repr] of the key. *)
Definition exn_str (e : exn) : string :=
  match e with
  | TypeError m | ValueError m | IndexError m | RuntimeError m | ExternalError m => m
  | KeyError key => py_repr key
  end.

Inductive result (A : Type) : Type :=
| Return (a : A)
| Raise (e : exn).
Arguments Return {A} a.
Arguments Raise {A} e.

Definition M (St A : Type) : Type := St -> result A * St.

Definition ret {St A} (a : A) : M St A := fun st => (Return a, st).

Definition raise {St A} (e : exn) : M St A := fun st => (Raise e, st).

Definition bind {St A B} (m : M St A) (k : A -> M St B) : M St B :=
  fun st =>
    match m st with
    | (Return a, st') => k a st'
    | (Raise e, st') => (Raise e, st')
    end.

(** [try: m  except Exception as e: h e] *)
Definition try_except {St A} (m : M St A) (h : exn -> M St A) : M St A :=
  fun st =>
    match m st with
    | (Return a, st') => (Return a, st')
    | (Raise e, st') => h e st'
    end.

Definition gets {St A} (f : St -> A) : M St A := fun st => (Return (f st), st).

Definition modify {St} (f : St -> St) : M St unit := fun st => (Return tt, f st).

(** Lifting of a computation that has no state. *)
Definition lift {St A} (r : result A) : M St A := fun st => (r, st).

Declare Scope py_scope.
Delimit Scope py_scope with py.
Notation "x <- m ;; k" := (bind m (fun x => k))
  (at level 100, m at next level, right associativity) : py_scope.
Notation "m ;;; k" := (bind m (fun _ => k))
  (at level 100, right associativity) : py_scope.
Open Scope py_scope.

(** ** Sequencing of computations that have no state *)

Definition and_then {A B} (r : result A) (k : A -> result B) : result B :=
  match r with
  | Return a => k a
  | Raise e => Raise e
  end.

Notation "'let*' x := r 'in' k" := (and_then r (fun x => k))
  (at level 100, x name, r at next level, k at level 200, right associativity) : py_scope.

(** [[f(x) for x in xs]] for an [f] that can raise *)
Fixpoint traverse {A B} (f : A -> result B) (xs : list A) : result (list B) :=
  match xs with
  | [] => Return []
  | x :: xs' =>
      let* y := f x in
      let* ys := traverse f xs' in
      Return (y :: ys)
  end.

(** [for x in xs: body] *)
Fixpoint for_each {St A} (xs : list A) (body : A -> M St unit) : M St unit :=
  match xs with
  | [] => ret tt
  | x :: xs' => body x ;;; for_each xs' body
  end.

(** [range(n)] *)
Definition range (n : Z) : list Z := map Z.of_nat (seq 0 (Z.to_nat n)).

(** ** The clock: [datetime.now], [timedelta], [time.sleep] *)

Definition second : Z := 1000000.
Definition minute : Z := 60 * second.

(** [timedelta.seconds]: the seconds field of the normalised span
    (days, seconds, microseconds), always within [0, 86400). *)
Definition td_seconds (d : Z) : Z := (d / second) mod 86400.

(** The integer nearest to [p / q], for a positive [q]; of two nearest
    integers, the even one. *)
Definition round_half_even (p q : Z) : Z :=
  let m := p / q in
  match 2 * (p mod q) ?= q with
  | Lt => m
  | Gt => m + 1
  | Eq => if Z.even m then m else m + 1
  end.

(** The exponent [k] with [2^k <= n/d < 2^(k+1)]. *)
Definition binade (n d : positive) : Z :=
  let k := Z.log2 (Zpos n) - Z.log2 (Zpos d) in
  if Zpos d * 2 ^ Z.max 0 k <=? Zpos n * 2 ^ Z.max 0 (- k) then k else k - 1.

(** The binary64 number nearest to [n/d]: a multiple [m * 2^e] of the unit
    in the last place, [2^e], which leaves 53 bits to [m] and is never
    below [2^-1074] (the subnormal numbers). *)
Definition round64_pos (n d : positive) : Q :=
  let e := Z.max (binade n d - 52) (-1074) in
  let m := round_half_even (Zpos n * 2 ^ Z.max 0 (- e)) (Zpos d * 2 ^ Z.max 0 e) in
  Qred (m * 2 ^ Z.max 0 e # Z.to_pos (2 ^ Z.max 0 (- e))).

(** [float(q)]: the binary64 number nearest to [q], ties to even, as a
    reduced fraction. *)
Definition round64 (q : Q) : Q :=
  let q' := Qred q in
  match Qnum q' with
  | 0 => 0%Q
  | Zpos n => round64_pos n (Qden q')
  | Zneg n => Qopp (round64_pos n (Qden q'))
  end.

(** The arithmetic of [float] and of [numpy.float64]. *)
Definition float_add (x y : Q) : Q := round64 (x + y).
Definition float_sub (x y : Q) : Q := round64 (x - y).
Definition float_mul (x y : Q) : Q := round64 (x * y).
Definition float_div (x y : Q) : Q := round64 (x / y).

(** [timedelta.total_seconds()]: the microseconds divided by [10**6]. *)
Definition td_total_seconds (d : Z) : Q := float_div (d # 1) (second # 1).

Definition day : Z := 86400 * second.

(** A state in which time can be spent: [time_sleep s] is what
    [time.sleep(s)] does to it, for a length [s] that is not negative. *)
Class Sleeper (St : Type) := time_sleep : Z -> St -> St.

(** [time.sleep(secs)]: a negative length is refused. *)
Definition sleep {St} `{Sleeper St} (secs : Z) : M St unit :=
  if secs <? 0 then raise (ValueError "sleep length must be non-negative")
  else modify (time_sleep secs).

(** ** Data model *)

(** A timestamp is a [datetime] when a handler built the record and a
    [str] (ISO-8601 text) when it was produced by [isoformat()] or read
    back from JSON.  [PyIsoStr t] stands for the text of the instant [t]. *)
Inductive pytime : Type :=
| PyDatetime (t : Z)
| PyIsoStr (t : Z).

(** [pd.to_datetime] and [datetime.fromisoformat(str(_))] accept both. *)
Definition instant (p : pytime) : Z :=
  match p with PyDatetime t | PyIsoStr t => t end.

(** [datetime.now() - other]: only another [datetime] can be subtracted. *)
Definition datetime_sub (now : Z) (other : pytime) : result Z :=
  match other with
  | PyDatetime t => Return (now - t)
  | PyIsoStr _ =>
      Raise (TypeError "unsupported operand type(s) for -: 'datetime.datetime' and 'str'")
  end.

(** The ['value'] of a metric: a number for weight and heart rate, a
    [{'systolic', 'diastolic'}] dictionary for blood pressure, a state
    label for sleep. *)
Inductive mvalue : Type :=
| Num (q : Q)
| BloodPressure (systolic diastolic : Q)
| Label (s : string).

(** The dictionary built by [HealthMetric.to_dict]; of the additional
    data only the sleep interval is ever read. *)
Record reading : Type := {
  r_value : mvalue;
  r_timestamp : pytime;
  r_type : string;
  r_unit : string;
  r_start : option pytime;
  r_end : option pytime
}.

(** A series in chronological order: no record is earlier than the one
    before it. *)
Definition chronological (series : list reading) : Prop :=
  Sorted (fun a b => instant (r_timestamp a) <= instant (r_timestamp b)) series.

(** A Python sequence passed as an argument: the code builds lists, the
    language also has tuples. *)
Inductive pyseq : Type :=
| PyList (items : list reading)
| PyTuple (items : list reading).

Definition items (s : pyseq) : list reading :=
  match s with PyList l | PyTuple l => l end.

(** [hash(_)]: lists and dictionaries define no hash; a tuple hashes its
    items, and the items here are dictionaries. *)
Definition py_hash_error (s : pyseq) : option exn :=
  match s with
  | PyList _ => Some (TypeError "unhashable type: 'list'")
  | PyTuple [] => None
  | PyTuple (_ :: _) => Some (TypeError "unhashable type: 'dict'")
  end.

(** [functools.lru_cache]: the wrapper hashes its arguments to build the
    key before the wrapped function can run.  The wrapped functions are
    deterministic in their arguments, so a hit returns what a call would
    return and the table itself is not represented. *)
Definition lru_cache {B} (f : pyseq -> result B) (arg : pyseq) : result B :=
  match py_hash_error arg with
  | Some e => Raise e
  | None => f arg
  end.

(** JSON text, represented by the document it decodes to. *)
Record json : Type := Json { json_loads : list reading }.

Definition is_str (t : pytime) : bool :=
  match t with PyIsoStr _ => true | PyDatetime _ => false end.

Definition json_serializable (r : reading) : bool :=
  is_str (r_timestamp r) && from_option is_str true (r_start r)
  && from_option is_str true (r_end r).

(** [json.dumps(value)]: a [datetime] inside the value is refused. *)
Definition json_dumps (value : list reading) : result json :=
  if forallb json_serializable value then Return (Json value)
  else Raise (TypeError "Object of type datetime is not JSON serializable").

(** ** Numbers *)

Definition Qgtb (x y : Q) : bool := negb (Qle_bool x y).   (* x > y *)
Definition Qltb (x y : Q) : bool := negb (Qle_bool y x).   (* x < y *)

(** [max(a, b)] and [min(a, b)] of Python: the first argument wins ties. *)
Definition py_max (a b : Q) : Q := if Qgtb b a then b else a.
Definition py_min (a b : Q) : Q := if Qltb b a then b else a.

(** [numpy.sum] of a short sequence (fewer than 8 items): the items are
    converted to [float64] and added from left to right. *)
Definition np_sum (xs : list Q) : Q := foldl float_add 0%Q (map round64 xs).

(** [numpy.mean] / [Series.mean]: the sum divided by the count. *)
Definition np_mean (xs : list Q) : Q :=
  float_div (np_sum xs) (inject_Z (Z.of_nat (length xs))).

(** [xs[:3]], [Series.head(3)] and [xs[-3:]], [Series.tail(3)] *)
Definition head3 {A} (xs : list A) : list A := take 3 xs.
Definition tail3 {A} (xs : list A) : list A := drop (length xs - 3) xs.

Definition py_list_min (x : Q) (xs : list Q) : Q := foldl py_min x xs.
Definition py_list_max (x : Q) (xs : list Q) : Q := foldl py_max x xs.

(** Arithmetic on the ['value'] of a weight or heart-rate record.  A value
    that is not a number is reported where the series is first used for
    arithmetic ([Series.mean], [numpy.std]). *)
Definition number (v : mvalue) : result Q :=
  match v with
  | Num q => Return q
  | BloodPressure _ _ => Raise (TypeError "unsupported operand type(s): 'dict'")
  | Label _ => Raise (TypeError "unsupported operand type(s): 'str'")
  end.

(** [d['systolic']] and [d['diastolic']] on the ['value'] of a record. *)
Definition systolic_of (v : mvalue) : result Q :=
  match v with
  | BloodPressure s _ => Return s
  | Num _ => Raise (TypeError "'float' object is not subscriptable")
  | Label _ => Raise (TypeError "string indices must be integers")
  end.

Definition diastolic_of (v : mvalue) : result Q :=
  match v with
  | BloodPressure _ d => Return d
  | Num _ => Raise (TypeError "'float' object is not subscriptable")
  | Label _ => Raise (TypeError "string indices must be integers")
  end.

(** ** Text helpers *)

Definition lower_ascii (c : ascii) : ascii :=
  let n := nat_of_ascii c in
  if (65 <=? n)%nat && (n <=? 90)%nat then ascii_of_nat (n + 32) else c.

(** [s.lower()] *)
Fixpoint lower (s : string) : string :=
  match s with
  | EmptyString => EmptyString
  | String c s' => String (lower_ascii c) (lower s')
  end.

(** [needle in s] *)
Fixpoint contains (needle s : string) : bool :=
  String.prefix needle s ||
  match s with
  | EmptyString => false
  | String _ s' => contains needle s'
  end.

Definition newline : string := String (ascii_of_nat 10) EmptyString.
Definition double_quote : string := String (ascii_of_nat 34) EmptyString.

Definition quoted (s : string) : string := double_quote +:+ s +:+ double_quote.

(** [dict] entries ordered by key, as [sort_keys=True] prints them. *)
Fixpoint insert_by_key (kv : string * string) (l : list (string * string))
    : list (string * string) :=
  match l with
  | [] => [kv]
  | x :: l' => if String.leb kv.1 x.1 then kv :: l else x :: insert_by_key kv l'
  end.

(** [json.dumps(data, sort_keys=True)] of a dictionary from text to text
    (texts that need no escaping). *)
Definition json_dumps_sorted (data : list (string * string)) : string :=
  "{" +:+ String.concat ", "
            (map (fun kv => quoted kv.1 +:+ ": " +:+ quoted kv.2)
                 (foldr insert_by_key [] data)) +:+ "}".

(** Library functions whose results are text or irrational numbers and
    that the program only passes around, and the sort of pandas. *)
Class PyRuntime : Type := {
  (** [hashlib.md5(s.encode()).hexdigest()] *)
  md5_hexdigest : string -> string;
  (** [date.isoformat()] of a day, counted from the epoch *)
  date_isoformat : Z -> string;
  (** [numpy.std] *)
  np_std : list Q -> Q;
  (** [format(x, spec)] for the specs [".1f"] and ["+.1f"], and [str(x)]
      for the empty spec *)
  format_float : string -> Q -> string;
  (** [df.sort_values('timestamp')]: the rows in ascending order of their
      timestamp.  The default algorithm is not stable: the order in which
      rows with equal timestamps come out is the library's. *)
  sort_values : list reading -> list reading;
  sort_values_permutation : forall rows, sort_values rows ≡ₚ rows;
  sort_values_chronological : forall rows, chronological (sort_values rows)
}.

(** ** utils.py: [retry_on_exception] and the state of a [RateLimiter] *)

(** The [for attempt in range(retries)] loop of [wrapper], by recursion on
    the attempts that remain.  The sleep is inside the [except] clause: an
    exception that it raises leaves the wrapper.  Leaving the loop reaches
    [raise last_exception]; with no exception recorded that statement is
    [raise None], itself a [TypeError]. *)
Fixpoint retry_loop {St A} `{Sleeper St} (retries delay : Z) (func : M St A)
    (attempts : list Z) (last_exception : option exn) : M St A :=
  match attempts with
  | [] =>
      match last_exception with
      | Some e => raise e
      | None => raise (TypeError "exceptions must derive from BaseException")
      end
  | attempt :: rest =>
      try_except func (fun e =>
        (if attempt <? retries - 1
         then sleep (delay * 2 ^ attempt)
         else ret tt) ;;;
        retry_loop retries delay func rest (Some e))
  end.

Definition retry_on_exception {St A} `{Sleeper St} (retries delay : Z)
    (func : M St A) : M St A :=
  retry_loop retries delay func (range retries) None.

(** utils.py: the state of one [RateLimiter] object. *)
Record RateLimiter : Type := {
  calls_per_minute : Z;
  calls : list Z
}.

(** ** The remote cache tier *)

(** Modelled from the spec: the remote cache tier, "a key/value store with
    get(key)->bytes|absent, setex(key, ttl, bytes)"; the Redis client and
    server are not part of the repository.  An entry written with a time to
    live of [ttl] seconds is absent from [ttl] seconds after the write;
    [reachable] tells whether a call to the server goes through. *)
Record redis : Type := {
  reachable : bool;
  entries : gmap string (Z * json)    (* expiry instant, payload *)
}.

Definition redis_get (r : redis) (now : Z) (key : string) : result (option json) :=
  if reachable r then
    Return (match entries r !! key with
            | Some (expires_at, payload) =>
                if now <? expires_at then Some payload else None
            | None => None
            end)
  else Raise (ExternalError "Error connecting to redis").

Definition redis_setex (r : redis) (now : Z) (key : string) (ttl : Z) (payload : json)
    : result redis :=
  if reachable r then
    Return {| reachable := reachable r;
              entries := <[key := (now + ttl * second, payload)]> (entries r) |}
  else Raise (ExternalError "Error connecting to redis").

(** ** The state of the process *)

(** The four logical sources and the name under which [HealthSync] tracks
    each of them. *)
Inductive source : Type := withings_weight | withings_sleep | omron_bp | omron_hr.

#[export] Instance source_eq_dec : EqDecision source.
Proof. solve_decision. Defined.

Definition data_type (s : source) : string :=
  match s with
  | withings_weight => "withings_weight"
  | withings_sleep => "withings_sleep"
  | omron_bp => "omron_bp"
  | omron_hr => "omron_hr"
  end.

(** The [RateLimiter] objects of the program, one per decoration:
    [WithingsHandler.get_weight_data], [WithingsHandler.get_sleep_data] and
    [OmronHandler._make_request]. *)
Inductive limiter : Type := L_get_weight_data | L_get_sleep_data | L_make_request.

#[export] Instance limiter_eq_dec : EqDecision limiter.
Proof. solve_decision. Defined.

(** An entry of [HealthSync.last_sync_status]. *)
Record sync_status : Type := {
  status : string;
  status_timestamp : Z;
  error : option string
}.

Record HealthTrend : Type := {
  metric_type : string;
  trend : string;
  change_percentage : Q;
  analysis : string
}.

(** The per-family dictionaries stored under [summary['metrics']]. *)
Inductive family_entry : Type :=
| TrendEntry (trend analysis : string) (latest : option mvalue)
| HeartRateEntry (latest : mvalue) (variability : Q) (min max : mvalue)
| SleepEntry (average_duration : Q) (quality : mvalue) (consistency : Q).

(** The dictionary returned by the aggregator.  ['timestamp'] holds the
    text returned by [datetime.now().isoformat()]. *)
Record summary : Type := {
  s_timestamp : pytime;
  s_metrics : gmap string family_entry
}.

Record world : Type := {
  (* the environment *)
  clock : Z;                              (* datetime.now() *)
  slept : list Z;                         (* every time.sleep so far, oldest first *)
  requests : source -> nat;               (* vendor requests issued so far *)
  delivered : list string;                (* messages handed to Google Home *)
  calendar_events : list reading;         (* events inserted in the calendar *)
  (* utils.py *)
  limiters : limiter -> RateLimiter;
  (* CacheManager *)
  redis_client : option redis;
  local_cache : gmap string (list reading);
  (* HealthSync *)
  last_sync_status : gmap string sync_status;
  latest_metrics : gmap string reading;
  cached_summary : option summary;
  active_alerts : list string;
  has_google_home : bool;                 (* hasattr(self, 'google_home') *)
  has_bot : bool                          (* hasattr(self, 'bot') *)
}.

Definition set_clock (f : Z -> Z) (w : world) : world :=
  let '(Build_world a b c d e f0 g h i j k l m n) := w in
  Build_world (f a) b c d e f0 g h i j k l m n.
Definition set_slept (f : list Z -> list Z) (w : world) : world :=
  let '(Build_world a b c d e f0 g h i j k l m n) := w in
  Build_world a (f b) c d e f0 g h i j k l m n.
Definition set_requests (f : (source -> nat) -> source -> nat) (w : world) : world :=
  let '(Build_world a b c d e f0 g h i j k l m n) := w in
  Build_world a b (f c) d e f0 g h i j k l m n.
Definition set_delivered (f : list string -> list string) (w : world) : world :=
  let '(Build_world a b c d e f0 g h i j k l m n) := w in
  Build_world a b c (f d) e f0 g h i j k l m n.
Definition set_calendar_events (f : list reading -> list reading) (w : world) : world :=
  let '(Build_world a b c d e f0 g h i j k l m n) := w in
  Build_world a b c d (f e) f0 g h i j k l m n.
Definition set_limiters (f : (limiter -> RateLimiter) -> limiter -> RateLimiter)
    (w : world) : world :=
  let '(Build_world a b c d e f0 g h i j k l m n) := w in
  Build_world a b c d e (f f0) g h i j k l m n.
Definition set_redis_client (f : option redis -> option redis) (w : world) : world :=
  let '(Build_world a b c d e f0 g h i j k l m n) := w in
  Build_world a b c d e f0 (f g) h i j k l m n.
Definition set_local_cache
    (f : gmap string (list reading) -> gmap string (list reading)) (w : world) : world :=
  let '(Build_world a b c d e f0 g h i j k l m n) := w in
  Build_world a b c d e f0 g (f h) i j k l m n.
Definition set_last_sync_status
    (f : gmap string sync_status -> gmap string sync_status) (w : world) : world :=
  let '(Build_world a b c d e f0 g h i j k l m n) := w in
  Build_world a b c d e f0 g h (f i) j k l m n.
Definition set_latest_metrics
    (f : gmap string reading -> gmap string reading) (w : world) : world :=
  let '(Build_world a b c d e f0 g h i j k l m n) := w in
  Build_world a b c d e f0 g h i (f j) k l m n.
Definition set_cached_summary (f : option summary -> option summary) (w : world) : world :=
  let '(Build_world a b c d e f0 g h i j k l m n) := w in
  Build_world a b c d e f0 g h i j (f k) l m n.
Definition set_active_alerts (f : list string -> list string) (w : world) : world :=
  let '(Build_world a b c d e f0 g h i j k l m n) := w in
  Build_world a b c d e f0 g h i j k (f l) m n.

(** [time.sleep(s)]: [s] seconds go by. *)
#[export] Instance world_sleeper : Sleeper world :=
  fun s w => set_slept (fun log => log ++ [s]) (set_clock (fun t => t + s * second) w).

(** Update of a function at one point, for the per-object and per-source
    fields. *)
Definition fn_update {K V} `{EqDecision K} (k : K) (f : V -> V) (m : K -> V) : K -> V :=
  fun k' => if decide (k' = k) then f (m k') else m k'.

(** [HealthSync.__init__]: the state of a process that has just started at
    the instant [now], with or without a Redis URL and with the configured
    notification channels. *)
Definition initial_world (now : Z) (remote : option redis) (google_home bot : bool)
    : world :=
  {| clock := now;
     slept := [];
     requests := fun _ => 0%nat;
     delivered := [];
     calendar_events := [];
     limiters := fun _ => {| calls_per_minute := 30; calls := [] |};
     redis_client := remote;
     local_cache := ∅;
     last_sync_status := ∅;
     latest_metrics := ∅;
     cached_summary := None;
     active_alerts := [];
     has_google_home := google_home;
     has_bot := bot |}.

(** ** utils.py: [RateLimiter.__call__]

    [l] names the [RateLimiter] object ([self]); [func] is the decorated
    function. *)
Definition rate_limited {A} (l : limiter) (func : M world A) : M world A :=
  now <- gets clock ;;
  (* Remove calls older than 1 minute *)
  modify (set_limiters (fn_update l (fun self =>
    {| calls_per_minute := calls_per_minute self;
       calls := filter (fun call_time => now - call_time < minute) (calls self) |}))) ;;;
  self <- gets (fun w => limiters w l) ;;
  (if calls_per_minute self <=? Z.of_nat (length (calls self))
   then
     match calls self with
     | [] => raise (IndexError "list index out of range")
     | oldest :: _ =>
         let sleep_time := 60 - td_seconds (now - oldest) in
         (* [time.sleep] of a positive length *)
         if 0 <? sleep_time then modify (time_sleep sleep_time) else ret tt
     end
   else ret tt) ;;;
  modify (set_limiters (fn_update l (fun self =>
    {| calls_per_minute := calls_per_minute self;
       calls := calls self ++ [now] |}))) ;;;
  func.

(** ** advanced_utils.py: [DataAnalyzer] *)

(** A sort by insertion, for the sample runtime; rows with equal
    timestamps keep their relative order. *)
Fixpoint insert_by_timestamp (r : reading) (rows : list reading) : list reading :=
  match rows with
  | [] => [r]
  | x :: rows' =>
      if instant (r_timestamp r) <=? instant (r_timestamp x)
      then r :: rows
      else x :: insert_by_timestamp r rows'
  end.

Definition insertion_sort (rows : list reading) : list reading :=
  foldr insert_by_timestamp [] rows.

Definition weight_trend_of (change : Q) : string :=
  if Qgtb change 1 then "increasing"
  else if Qltb change (-1) then "decreasing"
  else "stable".

Definition bp_trend_of (sys_change dia_change : Q) : string :=
  if Qgtb (Qabs sys_change) 10 || Qgtb (Qabs dia_change) 10 then "concerning"
  else if Qgtb (Qabs sys_change) 5 || Qgtb (Qabs dia_change) 5 then "notable"
  else "stable".

(** [sleep['start']], [sleep['end']] *)
Definition field (name : string) (o : option pytime) : result pytime :=
  match o with
  | Some t => Return t
  | None => Raise (KeyError name)
  end.

(** [(end - start).total_seconds() / 3600] of one sleep record *)
Definition sleep_duration (sleep : reading) : result Q :=
  let* start := field "start" (r_start sleep) in
  let* end_ := field "end" (r_end sleep) in
  Return (float_div (td_total_seconds (instant end_ - instant start)) 3600).

(** ** Alert texts *)

(** [asyncio.create_task(coro)] needs the event loop that is running in
    the calling thread; the cycle runs in the main thread, where there is
    none. *)
Definition asyncio_create_task {St A} (coro : A) : M St unit :=
  raise (RuntimeError "no running event loop").

(** main.py: [HealthSync._get_subscribed_chats] *)
Definition _get_subscribed_chats : list Z := [123456789].

(** main.py: [HealthSync._parse_alert], as the pair (message, type). *)
Definition _parse_alert (alert : string) : string * string :=
  let a := lower alert in
  (alert,
   if contains "blood pressure" a then "blood_pressure"
   else if contains "heart rate" a then "heart_rate"
   else if contains "weight" a then "weight"
   else if contains "sleep" a then "sleep"
   else "health").

(** google_home_handler.py: [GoogleHomeHandler.format_health_alert] *)
Definition format_health_alert (alert_data : string * string) : string :=
  let '(message, alert_type) := alert_data in
  if decide (alert_type = "blood_pressure")
  then "Health Alert: Your blood pressure reading is " +:+ message
  else if decide (alert_type = "heart_rate")
  then "Health Alert: Your heart rate is " +:+ message
  else if decide (alert_type = "weight")
  then "Health Alert: Your weight measurement is " +:+ message
  else "Health Alert: " +:+ message.

(** [self.latest_metrics[key] = data[-1]] when [data] is not empty *)
Definition record_latest (key : string) (data : list reading) (w : world) : world :=
  match last data with
  | Some r => set_latest_metrics (insert key r) w
  | None => w
  end.

Section Engine.

Context {rt : PyRuntime}.

(** The function [analyze_weight_trend] as written, before decoration. *)
Definition analyze_weight_trend_body (weight_data : pyseq) : result HealthTrend :=
  match items weight_data with
  | [] => Return {| metric_type := "weight"; trend := "neutral";
                    change_percentage := 0; analysis := "Insufficient data" |}
  | _ :: _ =>
      let df := sort_values (items weight_data) in
      if (Z.of_nat (length df) <? 2)
      then Return {| metric_type := "weight"; trend := "neutral";
                     change_percentage := 0; analysis := "Need more data points" |}
      else
        let* recent := traverse number (map r_value (tail3 df)) in
        let* past := traverse number (map r_value (head3 df)) in
        let recent_avg := np_mean recent in
        let past_avg := np_mean past in
        let change := float_mul (float_div (float_sub recent_avg past_avg) past_avg) 100 in
        let trend := weight_trend_of change in
        Return {| metric_type := "weight"; trend := trend;
                  change_percentage := change;
                  analysis := "Weight has " +:+ trend +:+ " by " +:+
                              format_float ".1f" (Qabs change) +:+
                              "% over the period" |}
  end.

(** [@lru_cache(maxsize=100) def analyze_weight_trend(self, weight_data)] *)
Definition analyze_weight_trend : pyseq -> result HealthTrend :=
  lru_cache analyze_weight_trend_body.

Definition analyze_blood_pressure_trend (bp_data : pyseq) : result HealthTrend :=
  match items bp_data with
  | [] => Return {| metric_type := "blood_pressure"; trend := "neutral";
                    change_percentage := 0; analysis := "Insufficient data" |}
  | _ :: _ =>
      let df := sort_values (items bp_data) in
      if (Z.of_nat (length df) <? 2)
      then Return {| metric_type := "blood_pressure"; trend := "neutral";
                     change_percentage := 0; analysis := "Need more data points" |}
      else
        let* systolic_data := traverse systolic_of (map r_value df) in
        let* diastolic_data := traverse diastolic_of (map r_value df) in
        let sys_change :=
          float_sub (np_mean (tail3 systolic_data)) (np_mean (head3 systolic_data)) in
        let dia_change :=
          float_sub (np_mean (tail3 diastolic_data)) (np_mean (head3 diastolic_data)) in
        Return {| metric_type := "blood_pressure";
                  trend := bp_trend_of sys_change dia_change;
                  change_percentage := py_max (Qabs sys_change) (Qabs dia_change);
                  analysis := "BP trend: Systolic " +:+ format_float "+.1f" sys_change +:+
                              ", Diastolic " +:+ format_float "+.1f" dia_change |}
  end.

(** ** advanced_utils.py: [HealthMetricsAggregator]

    [now] is the value read by [datetime.now()]. *)
Definition generate_health_summary (now : Z)
    (weight_data bp_data hr_data sleep_data : pyseq) : result summary :=
  let metrics : gmap string family_entry := ∅ in
  (* Analyze weight trends *)
  let* weight_trend := analyze_weight_trend weight_data in
  let metrics :=
    <["weight" := TrendEntry (trend weight_trend) (analysis weight_trend)
                    (r_value <$> last (items weight_data))]> metrics in
  (* Analyze blood pressure *)
  let* bp_trend := analyze_blood_pressure_trend bp_data in
  let metrics :=
    <["blood_pressure" := TrendEntry (trend bp_trend) (analysis bp_trend)
                            (r_value <$> last (items bp_data))]> metrics in
  (* Analyze heart rate variability *)
  let* metrics :=
    match last (items hr_data) with
    | None => Return metrics
    | Some latest =>
        let hr_values := map r_value (items hr_data) in
        match hr_values with
        | [] => Return metrics
        | [v] =>
            (* one value: [np.std] is not called, [min] and [max] compare nothing *)
            Return (<["heart_rate" := HeartRateEntry (r_value latest) 0 v v]> metrics)
        | _ :: _ :: _ =>
            let* numbers := traverse number hr_values in
            let hr_variability := np_std numbers in
            match numbers with
            | [] => Return metrics
            | x :: xs =>
                Return (<["heart_rate" :=
                            HeartRateEntry (r_value latest) hr_variability
                              (Num (py_list_min x xs)) (Num (py_list_max x xs))]> metrics)
            end
        end
    end in
  (* Analyze sleep patterns *)
  let* metrics :=
    match last (items sleep_data) with
    | None => Return metrics
    | Some latest =>
        let* sleep_durations := traverse sleep_duration (items sleep_data) in
        Return (<["sleep" := SleepEntry (np_mean sleep_durations) (r_value latest)
                               (np_std sleep_durations)]> metrics)
    end in
  Return {| s_timestamp := PyIsoStr now; s_metrics := metrics |}.

(** ** advanced_utils.py: [NotificationManager] *)

Definition bp_alerts (entry : option family_entry) : list string :=
  match entry with
  | Some (TrendEntry trend analysis _) =>
      if decide (trend = "concerning")
      then ["⚠️ Concerning blood pressure trend: " +:+ analysis]
      else []
  | _ => []
  end.

(** The heart-rate check.  [hr['max'] > 100] compares a number; an object
    of another type is not ordered against an [int]. *)
Definition hr_alerts (entry : option family_entry) : result (list string) :=
  match entry with
  | None => Return []
  | Some (HeartRateEntry _ variability _ (Num max)) =>
      if Qgtb max 100
      then Return ["⚠️ High heart rate detected: " +:+ format_float EmptyString max +:+ " bpm"]
      else if Qgtb variability 20
      then Return ["ℹ️ High heart rate variability: " +:+ format_float ".1f" variability]
      else Return []
  | Some (HeartRateEntry _ _ _ (BloodPressure _ _)) =>
      Raise (TypeError "'>' not supported between instances of 'dict' and 'int'")
  | Some (HeartRateEntry _ _ _ (Label _)) =>
      Raise (TypeError "'>' not supported between instances of 'str' and 'int'")
  | Some _ => Raise (KeyError "max")
  end.

Definition sleep_alerts (entry : option family_entry) : result (list string) :=
  match entry with
  | None => Return []
  | Some (SleepEntry average_duration _ consistency) =>
      Return ((if Qltb average_duration 6
               then ["⚠️ Low sleep duration: " +:+
                     format_float ".1f" average_duration +:+ " hours"]
               else []) ++
              (if Qgtb consistency 2
               then ["ℹ️ Inconsistent sleep schedule detected"]
               else []))
  | Some _ => Raise (KeyError "average_duration")
  end.

Definition check_health_metrics (summary : summary) : result (list string) :=
  let alerts := bp_alerts (s_metrics summary !! "blood_pressure") in
  let* hr := hr_alerts (s_metrics summary !! "heart_rate") in
  let* sleep := sleep_alerts (s_metrics summary !! "sleep") in
  Return (alerts ++ hr ++ sleep).

(** ** advanced_utils.py: [CacheManager] *)

Definition _generate_key (data : list (string * string)) : string :=
  md5_hexdigest (json_dumps_sorted data).

Definition get_cached_data (key_data : list (string * string))
    : M world (option (list reading)) :=
  let cache_key := _generate_key key_data in
  client <- gets redis_client ;;
  now <- gets clock ;;
  (* Try Redis first *)
  cached <- match client with
            | Some r => lift (redis_get r now cache_key)
            | None => ret None
            end ;;
  match cached with
  | Some payload => ret (Some (json_loads payload))
  | None =>
      (* Fall back to local cache *)
      gets (fun w => local_cache w !! cache_key)
  end.

Definition cache_data (key_data : list (string * string)) (value : list reading)
    (expire_seconds : Z) : M world unit :=
  let cache_key := _generate_key key_data in
  client <- gets redis_client ;;
  (* Cache in Redis if available *)
  match client with
  | Some r =>
      payload <- lift (json_dumps value) ;;
      now <- gets clock ;;
      r' <- lift (redis_setex r now cache_key expire_seconds payload) ;;
      modify (set_redis_client (fun _ => Some r'))
  | None => ret tt
  end ;;;
  (* Also cache locally *)
  modify (set_local_cache (insert cache_key value)).

(** ** The vendor handlers

    [vendor s n] is what the vendor of source [s] answers to the request
    number [n] (from 0), already converted to [HealthMetric] dictionaries;
    a failure of the transport or of the client is a raised exception. *)
Variable vendor : source -> nat -> result (list reading).

Definition request (s : source) : M world (list reading) :=
  fun w => (vendor s (requests w s), set_requests (fn_update s S) w).

(** withings_handler.py *)
Definition get_weight_data : M world (list reading) :=
  retry_on_exception 3 1 (rate_limited L_get_weight_data (request withings_weight)).

Definition get_sleep_data : M world (list reading) :=
  retry_on_exception 3 1 (rate_limited L_get_sleep_data (request withings_sleep)).

(** omron_handler.py: both getters go through the one decorated
    [_make_request]. *)
Definition _make_request (endpoint : source) : M world (list reading) :=
  retry_on_exception 3 1 (rate_limited L_make_request (request endpoint)).

Definition get_blood_pressure_data : M world (list reading) :=
  retry_on_exception 3 1 (_make_request omron_bp).

Definition get_heart_rate_data : M world (list reading) :=
  retry_on_exception 3 1 (_make_request omron_hr).

(** The bound method that [HealthSync] passes to [_safe_sync] for each
    source. *)
Definition fetch_of (s : source) : M world (list reading) :=
  match s with
  | withings_weight => get_weight_data
  | withings_sleep => get_sleep_data
  | omron_bp => get_blood_pressure_data
  | omron_hr => get_heart_rate_data
  end.

(** The [RateLimiter] object that governs each source. *)
Definition limiter_of (s : source) : limiter :=
  match s with
  | withings_weight => L_get_weight_data
  | withings_sleep => L_get_sleep_data
  | omron_bp | omron_hr => L_make_request
  end.

(** ** main.py: [HealthSync] *)

Definition _safe_sync (sync_func : M world (list reading)) (data_type : string)
    : M world (list reading) :=
  try_except
    ((* Check cache first *)
     now <- gets clock ;;
     let cache_key := [("function", data_type); ("date", date_isoformat (now / day))] in
     cached_data <- get_cached_data cache_key ;;
     match cached_data with
     | Some ((_ :: _) as cached) => ret cached
     | _ =>
         (* Fetch new data *)
         data <- sync_func ;;
         modify (fun w => set_last_sync_status (insert data_type
                   {| status := "success"; status_timestamp := clock w; error := None |}) w) ;;;
         (* Cache the result *)
         cache_data cache_key data 3600 ;;;
         ret data
     end)
    (fun e =>
       modify (fun w => set_last_sync_status (insert data_type
                 {| status := "error"; status_timestamp := clock w;
                    error := Some (exn_str e) |}) w) ;;;
       ret []).

(** [HealthSync.generate_health_summary] (the aggregator's method of the
    same name is [generate_health_summary] above). *)
Definition HealthSync_generate_health_summary : M world summary :=
  cached <- gets cached_summary ;;
  fresh_enough <-
    match cached with
    | Some cached =>
        now <- gets clock ;;
        age <- lift (datetime_sub now (s_timestamp cached)) ;;
        (* Use cache if less than 1 hour old *)
        ret (if Qltb (td_total_seconds age) 3600 then Some cached else None)
    | None => ret None
    end ;;
  match fresh_enough with
  | Some cached => ret cached
  | None =>
      weight_data <- _safe_sync get_weight_data "withings_weight" ;;
      bp_data <- _safe_sync get_blood_pressure_data "omron_bp" ;;
      hr_data <- _safe_sync get_heart_rate_data "omron_hr" ;;
      sleep_data <- _safe_sync get_sleep_data "withings_sleep" ;;
      now <- gets clock ;;
      summary <- lift (generate_health_summary now (PyList weight_data) (PyList bp_data)
                         (PyList hr_data) (PyList sleep_data)) ;;
      modify (set_cached_summary (fun _ => Some summary)) ;;;
      ret summary
  end.

(** [HealthSync._send_alert_notifications].  Google Home receives one
    message per alert ([send_notification] reports failures as [False],
    which the caller ignores); Telegram is handed the whole text through
    [asyncio.create_task(self.bot.send_alert(chat_id, alert_text))]. *)
Definition _send_alert_notifications : M world unit :=
  alerts <- gets active_alerts ;;
  match alerts with
  | [] => ret tt
  | _ :: _ =>
      let alert_text :=
        "New Health Alerts:" +:+ newline +:+ newline +:+ String.concat newline alerts in
      (* Send to Google Home *)
      google <- gets has_google_home ;;
      (if google : bool
       then for_each alerts (fun alert =>
              modify (set_delivered (fun sent =>
                sent ++ [format_health_alert (_parse_alert alert)])))
       else ret tt) ;;;
      (* Send to Telegram (if enabled) *)
      bot <- gets has_bot ;;
      if bot : bool
      then for_each _get_subscribed_chats (fun chat_id =>
             asyncio_create_task (chat_id, alert_text))
      else ret tt
  end.

(** The step "Generate health summary and check for alerts / Update alerts
    and notify if needed" of [sync_health_data], from the summary on. *)
Definition check_and_notify (summary : summary) : M world unit :=
  new_alerts <- lift (check_health_metrics summary) ;;
  active <- gets active_alerts ;;
  if decide (new_alerts ≠ active)
  then modify (set_active_alerts (fun _ => new_alerts)) ;;;
       _send_alert_notifications
  else ret tt.

(** calendar_handler.py: [create_health_event] catches every exception and
    answers [False].  The blood-pressure and sleep branches read keys
    (['systolic'], ['state']) that the records do not have at top level;
    the other two need a [datetime] timestamp and the Calendar API, whose
    verdict on an event is [calendar_insert]. *)
Variable calendar_insert : reading -> bool.

Definition create_health_event (data : reading) : M world bool :=
  if (bool_decide (r_type data = "weight") || bool_decide (r_type data = "heart_rate"))
     && negb (is_str (r_timestamp data)) && calendar_insert data
  then modify (set_calendar_events (fun events => events ++ [data])) ;;; ret true
  else ret false.

(** The body of [sync_health_data]; its own [except] clause logs and
    re-raises, and [_check_sync_health] only logs. *)
Definition sync_health_data_body : M world unit :=
  (* Get all health data *)
  weight_data <- _safe_sync get_weight_data "withings_weight" ;;
  sleep_data <- _safe_sync get_sleep_data "withings_sleep" ;;
  bp_data <- _safe_sync get_blood_pressure_data "omron_bp" ;;
  hr_data <- _safe_sync get_heart_rate_data "omron_hr" ;;
  (* Update latest metrics *)
  modify (record_latest "weight" weight_data) ;;;
  modify (record_latest "blood_pressure" bp_data) ;;;
  modify (record_latest "heart_rate" hr_data) ;;;
  modify (record_latest "sleep" sleep_data) ;;;
  (* Generate health summary and check for alerts *)
  now <- gets clock ;;
  summary <- lift (generate_health_summary now (PyList weight_data) (PyList bp_data)
                     (PyList hr_data) (PyList sleep_data)) ;;
  check_and_notify summary ;;;
  (* Create calendar events *)
  for_each (weight_data ++ sleep_data ++ bp_data ++ hr_data) (fun data =>
    _ <- create_health_event data ;; ret tt).

(** [@retry_on_exception(retries=3, delay=1) def sync_health_data(self)] *)
Definition sync_health_data : M world unit :=
  retry_on_exception 3 1 sync_health_data_body.

End Engine.

(** ** main.py: [HealthSync.run]

    The dashboard and the bot are started in daemon threads of their own and
    the cycle is registered with the scheduler; then the first cycle runs in
    the calling thread.  [serve_forever] stands for the loop
    [while True: schedule.run_pending(); time.sleep(1)] that follows it.  The
    [except Exception] clause logs and re-raises; the [KeyboardInterrupt]
    clause answers a signal from outside the program and has no part here. *)
Definition run `{PyRuntime} (vendor : source -> nat -> result (list reading))
    (calendar_insert : reading -> bool) (serve_forever : M world unit) : M world unit :=
  try_except
    (sync_health_data vendor calendar_insert ;;;
     serve_forever)
    (fun e => raise e).

(** The [__main__] block around [run], for a [HealthSync] that has been
    constructed: [sys.exit(1)] when an exception arrives, the status 0 of a
    script that ends otherwise. *)
Definition exit_status `{PyRuntime} (vendor : source -> nat -> result (list reading))
    (calendar_insert : reading -> bool) (serve_forever : M world unit) (w : world) : Z :=
  match (run vendor calendar_insert serve_forever w).1 with
  | Raise _ => 1
  | Return _ => 0
  end.

(** ** utils.py: [HealthMetric]

    [V] is the type of the Python objects that a metric holds; a dictionary
    with text keys is a finite map. *)
Section HealthMetric.

Context {V : Type}.

Record HealthMetric : Type := {
  hm_value : V;
  hm_timestamp : V;
  hm_type : V;
  hm_unit : V;
  hm_additional_data : gmap string V
}.

(** [HealthMetric(value, timestamp, metric_type, unit, additional_data=None)]:
    [additional_data or {}] replaces [None], and the empty dictionary, by
    an empty dictionary. *)
Definition HealthMetric_init (value timestamp metric_type unit : V)
    (additional_data : option (gmap string V)) : HealthMetric :=
  {| hm_value := value;
     hm_timestamp := timestamp;
     hm_type := metric_type;
     hm_unit := unit;
     hm_additional_data := default ∅ additional_data |}.

(** [{'value': ..., 'timestamp': ..., 'type': ..., 'unit': ...,
    **self.additional_data}]: the entries of [additional_data] are written
    last and win over the four fields. *)
Definition to_dict (self : HealthMetric) : gmap string V :=
  hm_additional_data self ∪
  <["unit" := hm_unit self]>
    (<["type" := hm_type self]>
       (<["timestamp" := hm_timestamp self]>
          (<["value" := hm_value self]> ∅))).

(** [data[key]] *)
Definition getitem (data : gmap string V) (key : string) : result V :=
  match data !! key with
  | Some v => Return v
  | None => Raise (KeyError key)
  end.

Definition from_dict (data : gmap string V) : result HealthMetric :=
  let additional_data :=
    foldl (fun d key => delete key d) data ["value"; "timestamp"; "type"; "unit"] in
  let* value := getitem data "value" in
  let* timestamp := getitem data "timestamp" in
  let* metric_type := getitem data "type" in
  let* unit := getitem data "unit" in
  Return (HealthMetric_init value timestamp metric_type unit (Some additional_data)).

End HealthMetric.

Arguments HealthMetric : clear implicits.

(** ** config.py: [Config]

    Each setting is what [os.getenv] returned: a text, or [None]. *)
Record Config : Type := {
  withings_client_id : option string;
  withings_client_secret : option string;
  withings_callback_uri : option string;
  omron_client_id : option string;
  omron_client_secret : option string;
  google_calendar_id : option string
}.

(** The names in [required_vars], each with [getattr(self, var)]. *)
Definition required_vars (self : Config) : list (string * option string) :=
  [("withings_client_id", withings_client_id self);
   ("withings_client_secret", withings_client_secret self);
   ("withings_callback_uri", withings_callback_uri self);
   ("omron_client_id", omron_client_id self);
   ("omron_client_secret", omron_client_secret self);
   ("google_calendar_id", google_calendar_id self)].

(** [not value] for a setting: [None] and the empty text are falsy. *)
Definition unset (value : option string) : bool :=
  match value with
  | None | Some EmptyString => true
  | Some (String _ _) => false
  end.

Definition validate (self : Config) : result bool :=
  let missing := (filter (fun var => unset var.2 = true) (required_vars self)).*1 in
  match missing with
  | [] => Return true
  | _ :: _ =>
      Raise (ValueError ("Missing required configuration: " +:+ String.concat ", " missing))
  end.

(** * The vocabulary of the properties *)

(** ** Observing the retry wrapper *)

(** The operation used to observe the wrapper: a probe counts the
    invocations of the wrapped operation and records, in order, every
    invocation and every [time.sleep]. *)
Inductive event : Type :=
| Invoked (n : nat)      (* the operation was entered for the n-th time (from 0) *)
| Slept (seconds : Z).

Record probe : Type := { invocations : nat; trace : list event }.

#[export] Instance probe_sleeper : Sleeper probe :=
  fun s p => {| invocations := invocations p; trace := trace p ++ [Slept s] |}.

(** An operation whose n-th invocation has the outcome [behaviour n]. *)
Definition scripted {A} (behaviour : nat -> result A) : M probe A :=
  fun p =>
    (behaviour (invocations p),
     {| invocations := S (invocations p);
        trace := trace p ++ [Invoked (invocations p)] |}).



(** ** Relations between the state before and after an operation *)

(** [preserves R m]: the state after [m] is related by [R] to the state
    before it, whether [m] returns or raises. *)
Definition preserves {St A} (R : relation St) (m : M St A) : Prop :=
  forall st, R st (m st).2.

(** The limiter objects other than [l] keep their state. *)
Definition other_limiters_kept (l : limiter) : relation world :=
  fun w w' => forall l', l' <> l -> limiters w' l' = limiters w l'.

(** The fields of [HealthSync] other than the status table, the caches and
    the clock: what a fetch and the cache never touch. *)
Definition summary_state_kept : relation world :=
  fun w w' =>
    cached_summary w' = cached_summary w /\
    active_alerts w' = active_alerts w /\
    delivered w' = delivered w.

(** The two cache tiers are as they were. *)
Definition cache_kept : relation world :=
  fun w w' => local_cache w' = local_cache w /\ redis_client w' = redis_client w.

(** What the local cache holds under [key] is as it was. *)
Definition local_entry_kept (key : string) : relation world :=
  fun w w' => local_cache w' !! key = local_cache w !! key.

(** ** Series, alerts and cache entries *)

(** A series in strictly chronological order: every record is later than
    the one before it. *)
Definition strictly_chronological (series : list reading) : Prop :=
  Sorted (fun a b => instant (r_timestamp a) < instant (r_timestamp b)) series.




(** What Google Home is asked to say for an alert. *)
Definition announce (alert : string) : string := format_health_alert (_parse_alert alert).

(** The descriptor that [_safe_sync] builds for a source at a given
    instant, and its fingerprint. *)
Definition cache_key `{PyRuntime} (data_type : string) (now : Z) : list (string * string) :=
  [("function", data_type); ("date", date_isoformat (now / day))].

(** The remote tier, when there is one, answers... *)
Definition remote_answers (w : world) : Prop :=
  match redis_client w with
  | None => True
  | Some r => reachable r = true
  end.

(** ... and what it holds under [key], if anything live, decodes to [data]. *)
Definition remote_agrees (w : world) (key : string) (data : list reading) : Prop :=
  match redis_client w with
  | None => True
  | Some r =>
      forall expires_at payload,
        entries r !! key = Some (expires_at, payload) ->
        clock w < expires_at -> json_loads payload = data
  end.

(** ** Sample data *)

(** A runtime to compute with: the fingerprint is the canonical text
    itself, a day prints as its number, the standard deviation is the
    square root of the variance truncated to six decimals, a number
    prints as a reduced fraction, and the sort is by insertion. *)
Definition variance (xs : list Q) : Q :=
  np_mean (map (fun x => (x - np_mean xs) * (x - np_mean xs))%Q xs).

Definition sample_runtime : PyRuntime.
Proof.
  refine {|
    md5_hexdigest := fun s => s;
    date_isoformat := fun d => pretty d;
    np_std := fun xs =>
      let v := Qred (variance xs * 1000000000000) in
      (Z.sqrt (Qnum v / Zpos (Qden v)) # 1000000)%Q;
    format_float := fun _ q =>
      pretty (Qnum (Qred q)) +:+ "/" +:+ pretty (Zpos (Qden (Qred q)));
    sort_values := insertion_sort;
    sort_values_permutation := _;
    sort_values_chronological := _
  |}.
  - assert (Hinsert : forall r rows, insert_by_timestamp r rows ≡ₚ r :: rows).
    { intros r rows. induction rows as [|x rows IH]; [done|]. cbn.
      destruct (_ <=? _); [done|]. rewrite IH. apply Permutation_swap. }
    intros rows. induction rows as [|r rows IH]; [done|].
    unfold insertion_sort in *. cbn. by rewrite Hinsert, IH.
  - assert (Hinsert : forall r rows,
              chronological rows -> chronological (insert_by_timestamp r rows)).
    { intros r rows. unfold chronological.
      induction 1 as [|x rows Hrows IH Hhd]; [by repeat constructor|].
      cbn. destruct (Z.leb_spec (instant (r_timestamp r)) (instant (r_timestamp x))).
      - by repeat constructor.
      - constructor; [done|]. destruct Hhd as [|y rows Hxy]; cbn.
        + constructor. lia.
        + destruct (_ <=? _); constructor; [lia|done]. }
    intros rows. induction rows as [|r rows IH]; [constructor|].
    unfold insertion_sort in *. cbn. by apply Hinsert.
Defined.

(** The records the handlers build, with [t] in seconds. *)
Definition weight_metric (t : Z) (kg : Q) : reading :=
  {| r_value := Num kg; r_timestamp := PyDatetime (t * second);
     r_type := "weight"; r_unit := "kg"; r_start := None; r_end := None |}.

Definition bp_metric (t : Z) (systolic diastolic : Q) : reading :=
  {| r_value := BloodPressure systolic diastolic; r_timestamp := PyDatetime (t * second);
     r_type := "blood_pressure"; r_unit := "mmHg"; r_start := None; r_end := None |}.

Definition hr_metric (t : Z) (bpm : Q) : reading :=
  {| r_value := Num bpm; r_timestamp := PyDatetime (t * second);
     r_type := "heart_rate"; r_unit := "bpm"; r_start := None; r_end := None |}.

Definition sleep_metric (t_start t_end : Z) (state : string) : reading :=
  {| r_value := Label state; r_timestamp := PyDatetime (t_start * second);
     r_type := "sleep"; r_unit := "state";
     r_start := Some (PyDatetime (t_start * second));
     r_end := Some (PyDatetime (t_end * second)) |}.

Definition six_weights : list reading :=
  [weight_metric 1 70; weight_metric 2 70; weight_metric 3 70;
   weight_metric 4 77; weight_metric 5 77; weight_metric 6 77].

Definition six_pressures : list reading :=
  [bp_metric 1 120 80; bp_metric 2 120 80; bp_metric 3 120 80;
   bp_metric 4 140 80; bp_metric 5 140 80; bp_metric 6 140 80].


(** A weight record as it comes back from JSON. *)
Definition stored_weight : reading :=
  {| r_value := Num 70; r_timestamp := PyIsoStr second;
     r_type := "weight"; r_unit := "kg"; r_start := None; r_end := None |}.

Definition two_heart_rates : list reading := [hr_metric 1 72; hr_metric 2 75].

(** A heart-rate record whose value is a text. *)
Definition unreadable_heart_rate : reading :=
  {| r_value := Label "n/a"; r_timestamp := PyDatetime second;
     r_type := "heart_rate"; r_unit := "bpm"; r_start := None; r_end := None |}.

(** A vendor side on which the weight feed is down and the other three
    feeds answer. *)
Definition weight_feed_down (s : source) (n : nat) : result (list reading) :=
  match s with
  | withings_weight => Raise (ExternalError "503 Service Unavailable")
  | withings_sleep => Return [sleep_metric 0 27000 "deep"]
  | omron_bp => Return six_pressures
  | omron_hr => Return two_heart_rates
  end.

(** A vendor side that has no measurement yet. *)
Definition nothing_measured (s : source) (n : nat) : result (list reading) := Return [].

(** An operation that times out twice and then answers, and one that never
    answers. *)
Definition flaky (n : nat) : result Z :=
  match n with
  | 0%nat | 1%nat => Raise (ExternalError "timeout")
  | _ => Return 7
  end.


Definition redis_down : redis := {| reachable := false; entries := ∅ |}.
Definition redis_up : redis := {| reachable := true; entries := ∅ |}.

Definition fresh_process : world := initial_world 0 None true false.

(** A limiter for two calls per minute that has seen two calls, 20.5 and
    10.5 seconds ago. *)
Definition two_recent_calls : world :=
  set_limiters (fun _ _ => {| calls_per_minute := 2; calls := [100 * second; 110 * second] |})
    (initial_world (120 * second + 500000) None true false).

(** The summary of a call at the epoch with nothing measured. *)
Definition empty_summary : summary :=
  {| s_timestamp := PyIsoStr 0;
     s_metrics :=
       <["blood_pressure" := TrendEntry "neutral" "Insufficient data" None]>
         (<["weight" := TrendEntry "neutral" "Insufficient data" None]> ∅) |}.

(** A summary with a heart rate of 105 bpm. *)
Definition racing_summary : summary :=
  {| s_timestamp := PyIsoStr 0;
     s_metrics :=
       <["heart_rate" := HeartRateEntry (Num 105) 0 (Num 105) (Num 105)]>
         (s_metrics empty_summary) |}.

Definition racing_alert : string := "⚠️ High heart rate detected: 105/1 bpm".

(** ** Time spent, limiters, frames *)


(** The timestamps of a limiter at the instant [now]: recorded in
    chronological order, none of them in the future, for a positive
    limit. *)
Definition timestamps_ok (now : Z) (self : RateLimiter) : Prop :=
  0 < calls_per_minute self /\
  Sorted Z.le (calls self) /\
  Forall (fun t => t <= now) (calls self).

Definition limiters_ok (w : world) : Prop :=
  forall l, timestamps_ok (clock w) (limiters w l).

(** Time does not go back, and well-formed limiters stay so. *)
Definition limiters_stay_ok : relation world :=
  fun w w' => clock w <= clock w' /\ (limiters_ok w -> limiters_ok w').

(** What a synchronisation of the source [s] may touch: the clock and the
    log of sleeps, the request counter and the limiter of [s], the caches
    and the status entry of [s].  Everything else is as it was. *)
Definition only_source_touched (s : source) : relation world :=
  fun w w' =>
    (forall s', s' <> s -> requests w' s' = requests w s') /\
    (forall l, l <> limiter_of s -> limiters w' l = limiters w l) /\
    (forall key, key <> data_type s ->
       last_sync_status w' !! key = last_sync_status w !! key) /\
    latest_metrics w' = latest_metrics w /\
    cached_summary w' = cached_summary w /\
    active_alerts w' = active_alerts w /\
    delivered w' = delivered w /\
    calendar_events w' = calendar_events w.

(** What the program hands to the outside or keeps for its readers. *)
Definition outputs_kept : relation world :=
  fun w w' =>
    calendar_events w' = calendar_events w /\
    delivered w' = delivered w /\
    active_alerts w' = active_alerts w /\
    cached_summary w' = cached_summary w.

(** ** A source that is down *)

(** The requests that one fetch issues when every request fails, and the
    seconds it spends at least in backoff sleeps: three attempts for a
    Withings getter; for an Omron getter three attempts, each of them the
    three attempts of [_make_request]. *)
Definition requests_when_down (s : source) : nat :=
  match s with
  | withings_weight | withings_sleep => 3
  | omron_bp | omron_hr => 9
  end.

Definition backoff_when_down (s : source) : Z :=
  match s with
  | withings_weight | withings_sleep => 3
  | omron_bp | omron_hr => 12
  end.

(** [spent s n d w w']: between [w] and [w'] the source [s] was requested
    [n] more times and no other source was, at least [d] seconds went by
    and the limits are as they were. *)
Definition spent (s : source) (n : nat) (d : Z) : relation world :=
  fun w w' =>
    requests w' s = (requests w s + n)%nat /\
    (forall s', s' <> s -> requests w' s' = requests w s') /\
    (forall l, calls_per_minute (limiters w' l) = calls_per_minute (limiters w l)) /\
    clock w + d * second <= clock w'.

Definition limits_positive (w : world) : Prop :=
  forall l, 0 < calls_per_minute (limiters w l).

(** An operation that, from a state with positive limits, fails with the
    answer to the last of [n] requests to [s], after [d] seconds. *)
Definition fails_after (vendor : source -> nat -> result (list reading)) (s : source)
    (n : nat) (d : Z) (func : M world (list reading)) : Prop :=
  forall w, limits_positive w ->
    exists w', func w = (vendor s (requests w s + n - 1)%nat, w') /\ spent s n d w w'.

(** ** Dictionaries of a metric, texts of numbers *)

(** The four keys that [to_dict] writes for every metric. *)
Definition field_keys : list string := ["value"; "timestamp"; "type"; "unit"].

(** The first of the four keys that a dictionary lacks. *)
Definition first_missing {V} (data : gmap string V) : option string :=
  head (filter (fun key => data !! key = None) field_keys).

(** A text made of digits, signs and punctuation only (characters below
    ['A']), as the text of a finite number is. *)
Fixpoint no_letters (t : string) : bool :=
  match t with
  | EmptyString => true
  | String c t' => (nat_of_ascii c <? 65)%nat && no_letters t'
  end.

(** * Properties *)

(** ** Retry with exponential backoff *)

Section RetrySpec.

Context {A : Type} (behaviour : nat -> result A) (retries delay : Z).
Hypothesis delay_nonneg : 0 <= delay.





End RetrySpec.




(** ** The sliding-window rate limiter *)

Lemma td_seconds_recent (d : Z) :
  0 <= d < minute -> td_seconds d = d / second /\ 0 <= d / second < 60.
Proof.
  intros [Hlo Hhi]. unfold td_seconds, minute, second in *.
  assert (0 <= d / 1000000 < 60).
  { split; [apply Z.div_pos; lia | apply Z.div_lt_upper_bound; lia]. }
  split; [apply Z.mod_small; lia | done].
Qed.

Lemma fn_update_eq {K V} `{EqDecision K} (k : K) (f : V -> V) (m : K -> V) :
  fn_update k f m k = f (m k).
Proof. unfold fn_update. by case_decide. Qed.

Lemma fn_update_ne {K V} `{EqDecision K} (k k' : K) (f : V -> V) (m : K -> V) :
  k' <> k -> fn_update k f m k' = m k'.
Proof. unfold fn_update. by case_decide. Qed.

(** One acquisition, in terms of the state [w'] in which the wrapped
    function is entered. *)
Lemma rate_limited_acquire {A} (l : limiter) (func : M world A) (w : world) :
  let now := clock w in
  let self := limiters w l in
  let remaining := filter (fun t => now - t < minute) (calls self) in
  0 < calls_per_minute self ->
  Forall (fun t => t <= now) (calls self) ->
  exists w',
    rate_limited l func w = func w' /\
    calls (limiters w' l) = remaining ++ [now] /\
    calls_per_minute (limiters w' l) = calls_per_minute self /\
    (forall l', l' <> l -> limiters w' l' = limiters w l') /\
    (Z.of_nat (length remaining) < calls_per_minute self ->
       slept w' = slept w /\ clock w' = now) /\
    (calls_per_minute self <= Z.of_nat (length remaining) ->
       exists oldest,
         head remaining = Some oldest /\
         0 < 60 - (now - oldest) / second /\
         slept w' = slept w ++ [60 - (now - oldest) / second] /\
         clock w' = now + (60 - (now - oldest) / second) * second).
Proof.
  intros now self remaining Hcpm Hpast. subst now self remaining.
  unfold rate_limited, bind, gets, modify. destruct w; cbn in *.
  rewrite !fn_update_eq. cbn.
  set (now := clock0) in *. set (self := limiters0 l) in *.
  set (remaining := filter _ _) in *.
  destruct (Z.leb_spec (calls_per_minute self) (Z.of_nat (length remaining))) as [Hfull|Hroom].
  - destruct remaining as [|oldest rest] eqn:Hrem; [cbn in Hfull; lia|].
    assert (Hin : oldest ∈ remaining) by (rewrite Hrem; left).
    subst remaining. apply list_elem_of_filter in Hin as [Hnew Hin].
    rewrite Forall_forall in Hpast. specialize (Hpast _ Hin).
    destruct (td_seconds_recent (now - oldest)) as [Hsec Hrange]; [lia|].
    rewrite Hsec.
    destruct (Z.ltb_spec 0 (60 - (now - oldest) / second)) as [Hpos|]; [|lia].
    eexists. split; [reflexivity|]. cbn. rewrite !fn_update_eq. cbn.
    fold self. rewrite Hrem.
    repeat split; try done; try (cbn in *; lia).
    + intros l' Hl'. by rewrite !fn_update_ne.
    + exists oldest. by repeat split.
  - eexists. split; [reflexivity|]. cbn. rewrite !fn_update_eq. cbn.
    repeat split; try done; try lia.
    intros l' Hl'. by rewrite !fn_update_ne.
Qed.

(** ** What an operation leaves alone *)

Section Preserves.

Context {St : Type} (R : relation St) `{!PreOrder R}.

Lemma preserves_ret {A} (a : A) : preserves R (ret a).
Proof. intros st. reflexivity. Qed.

Lemma preserves_raise {A} (e : exn) : preserves R (raise (A := A) e).
Proof. intros st. reflexivity. Qed.

Lemma preserves_lift {A} (r : result A) : preserves R (lift r).
Proof. intros st. reflexivity. Qed.

Lemma preserves_gets {A} (f : St -> A) : preserves R (gets f).
Proof. intros st. reflexivity. Qed.

Lemma preserves_modify (f : St -> St) :
  (forall st, R st (f st)) -> preserves R (modify f).
Proof. intros Hf st. apply Hf. Qed.

Lemma preserves_bind {A B} (m : M St A) (k : A -> M St B) :
  preserves R m -> (forall a, preserves R (k a)) -> preserves R (bind m k).
Proof.
  intros Hm Hk st. unfold bind. specialize (Hm st).
  destruct (m st) as [[a|e] st']; cbn in *; [|done].
  etrans; [exact Hm | apply Hk].
Qed.

Lemma preserves_try_except {A} (m : M St A) (h : exn -> M St A) :
  preserves R m -> (forall e, preserves R (h e)) -> preserves R (try_except m h).
Proof.
  intros Hm Hh st. unfold try_except. specialize (Hm st).
  destruct (m st) as [[a|e] st']; cbn in *; [done|].
  etrans; [exact Hm | apply Hh].
Qed.

Lemma preserves_for_each {A} (xs : list A) (body : A -> M St unit) :
  (forall x, preserves R (body x)) -> preserves R (for_each xs body).
Proof.
  intros Hbody. induction xs as [|x xs IH]; cbn [for_each].
  - apply preserves_ret.
  - apply preserves_bind; [apply Hbody | intros _; apply IH].
Qed.

Lemma preserves_sleep `{Sleeper St} (secs : Z) :
  (forall s st, 0 <= s -> R st (time_sleep s st)) -> preserves R (sleep secs).
Proof.
  intros Hsleep. unfold sleep. destruct (Z.ltb_spec secs 0).
  - apply preserves_raise.
  - apply preserves_modify. intros st. by apply Hsleep.
Qed.

Lemma preserves_retry_loop {A} `{Sleeper St} (retries delay : Z) (func : M St A)
    (attempts : list Z) (last : option exn) :
  (forall s st, 0 <= s -> R st (time_sleep s st)) ->
  preserves R func ->
  preserves R (retry_loop retries delay func attempts last).
Proof.
  intros Hsleep Hfunc. revert last.
  induction attempts as [|attempt rest IH]; intros last; cbn [retry_loop].
  - destruct last; apply preserves_raise.
  - apply preserves_try_except; [done|]. intros e.
    apply preserves_bind; [|intros _; apply IH].
    destruct (attempt <? retries - 1);
      [by apply preserves_sleep | apply preserves_ret].
Qed.

Lemma preserves_retry_on_exception {A} `{Sleeper St} (retries delay : Z) (func : M St A) :
  (forall s st, 0 <= s -> R st (time_sleep s st)) ->
  preserves R func ->
  preserves R (retry_on_exception retries delay func).
Proof. apply preserves_retry_loop. Qed.

End Preserves.

#[export] Instance other_limiters_kept_preorder l : PreOrder (other_limiters_kept l).
Proof.
  split.
  - by intros w l' _.
  - intros w1 w2 w3 H12 H23 l' Hl'. by rewrite H23, H12.
Qed.

Lemma sleep_keeps_limiters l s w : other_limiters_kept l w (time_sleep s w).
Proof. by destruct w. Qed.

Lemma rate_limited_keeps_other_limiters {A} l (func : M world A) :
  preserves (other_limiters_kept l) func ->
  preserves (other_limiters_kept l) (rate_limited l func).
Proof.
  intros Hfunc. unfold rate_limited. set (R := other_limiters_kept l).
  assert (Hupd : forall f w, R w (set_limiters (fn_update l f) w)).
  { intros f [] l' Hl'. cbn. by rewrite fn_update_ne. }
  apply (preserves_bind R); [apply (preserves_gets R)|]. intros now.
  apply (preserves_bind R); [by apply (preserves_modify R)|]. intros _.
  apply (preserves_bind R); [apply (preserves_gets R)|]. intros self.
  apply (preserves_bind R).
  { destruct (_ <=? _); [|apply (preserves_ret R)].
    destruct (calls self); [apply (preserves_raise R)|].
    destruct (0 <? _); [|apply (preserves_ret R)].
    apply (preserves_modify R). apply sleep_keeps_limiters. }
  intros _. apply (preserves_bind R); [by apply (preserves_modify R) | done].
Qed.

Lemma fetch_of_keeps_other_limiters vendor (s : source) :
  preserves (other_limiters_kept (limiter_of s)) (fetch_of vendor s).
Proof.
  assert (Hreq : forall l s', preserves (other_limiters_kept l) (request vendor s')).
  { intros l s' [] l' Hl'. done. }
  destruct s; cbn [fetch_of limiter_of];
    unfold get_weight_data, get_sleep_data, get_blood_pressure_data,
           get_heart_rate_data, _make_request;
    repeat (apply (preserves_retry_on_exception (other_limiters_kept _));
            [intros; apply sleep_keeps_limiters |]);
    by apply rate_limited_keeps_other_limiters.
Qed.

(** C10 (amended).  On every acquisition through a [RateLimiter] wrapper
    (for a positive limit and timestamps that are not in the future):
    the timestamps that are 60 seconds old or older are first dropped
    from the sequence of that limiter; if the number of remaining
    timestamps has reached [calls_per_minute], the caller sleeps
    [60 - e] seconds, [e] being the whole seconds elapsed since the oldest
    remaining timestamp, and otherwise does not wait; then the instant
    of the acquisition is recorded and the wrapped function is entered.
    The sequence belongs to the limiter object: a fetch for one source
    leaves the sequence of a source with another limiter untouched, and
    the two Omron sources go through the same limiter. *)
Theorem C10_rate_limiter_acquisition :
  (forall (A : Type) (l : limiter) (func : M world A) (w : world),
     let now := clock w in
     let self := limiters w l in
     let remaining := filter (fun t => now - t < minute) (calls self) in
     0 < calls_per_minute self ->
     Forall (fun t => t <= now) (calls self) ->
     exists w',
       rate_limited l func w = func w' /\
       calls (limiters w' l) = remaining ++ [now] /\
       calls_per_minute (limiters w' l) = calls_per_minute self /\
       (forall l', l' <> l -> limiters w' l' = limiters w l') /\
       (Z.of_nat (length remaining) < calls_per_minute self ->
          slept w' = slept w /\ clock w' = now) /\
       (calls_per_minute self <= Z.of_nat (length remaining) ->
          exists oldest,
            head remaining = Some oldest /\
            0 < 60 - (now - oldest) / second /\
            slept w' = slept w ++ [60 - (now - oldest) / second] /\
            clock w' = now + (60 - (now - oldest) / second) * second))
  /\
  (forall vendor (s s' : source) (w : world),
     limiter_of s' <> limiter_of s ->
     limiters (fetch_of vendor s w).2 (limiter_of s') = limiters w (limiter_of s'))
  /\
  limiter_of omron_bp = limiter_of omron_hr.
Proof.
  split; [|split].
  - intros A l func w. apply rate_limited_acquire.
  - intros vendor s s' w Hne. by apply fetch_of_keeps_other_limiters.
  - reflexivity.
Qed.

Lemma C10_rate_limiter_acquisition_witness :
  exists w',
    rate_limited L_make_request (ret tt) two_recent_calls = (Return tt, w') /\
    calls (limiters w' L_make_request) =
      [100 * second; 110 * second; 120 * second + 500000] /\
    slept w' = [40].
Proof.
  destruct (proj1 C10_rate_limiter_acquisition unit L_make_request (ret tt)
              two_recent_calls) as (w' & Hrun & Hcalls & _ & _ & _ & Hfull).
  - vm_compute. reflexivity.
  - repeat constructor; vm_compute; discriminate.
  - destruct Hfull as (oldest & Hold & _ & Hslept & _).
    + vm_compute. discriminate.
    + exists w'. split; [exact Hrun|]. split; [exact Hcalls|].
      injection Hold as <-. exact Hslept.
Defined.

(** C10, as stated, fails between the two Omron sources: a fetch of the
    blood-pressure readings adds a timestamp to the sequence that limits
    the heart-rate source. *)
Lemma C10_omron_sources_share_a_limiter :
  calls (limiters (fetch_of weight_feed_down omron_bp
                     fresh_process).2 (limiter_of omron_hr))
  <> calls (limiters fresh_process (limiter_of omron_hr)).
Proof. vm_compute. discriminate. Qed.

(** ** Trend analysis *)

Lemma Qgtb_spec (x y : Q) : reflect (y < x)%Q (Qgtb x y).
Proof.
  unfold Qgtb. destruct (Qle_bool x y) eqn:E; constructor.
  - apply Qle_not_lt. by apply Qle_bool_iff.
  - apply Qnot_le_lt. intros Hle. apply Qle_bool_iff in Hle. congruence.
Qed.

Lemma Qltb_spec (x y : Q) : reflect (x < y)%Q (Qltb x y).
Proof. apply (Qgtb_spec y x). Qed.

Lemma NoDup_fmap_elem_of {A B} (f : A -> B) (l : list A) (x y : A) :
  NoDup (f <$> l) -> x ∈ l -> y ∈ l -> f x = f y -> x = y.
Proof.
  induction l as [|a l IH]; [by intros _ ?%elem_of_nil|].
  rewrite fmap_cons, NoDup_cons, !elem_of_cons.
  intros [Ha Hl] [->|Hx] [->|Hy] Hf; [done| | |by apply IH].
  - exfalso. apply Ha. rewrite Hf. by apply list_elem_of_fmap_2.
  - exfalso. apply Ha. rewrite <- Hf. by apply list_elem_of_fmap_2.
Qed.

(** Two chronological arrangements of the same rows are equal when no two
    rows share a timestamp. *)
Lemma chronological_unique (rows1 rows2 : list reading) :
  rows1 ≡ₚ rows2 ->
  NoDup ((fun r => instant (r_timestamp r)) <$> rows1) ->
  chronological rows1 -> chronological rows2 -> rows1 = rows2.
Proof.
  intros Hperm Hdistinct H1 H2.
  apply (StronglySorted_unique_strong
           (fun a b => instant (r_timestamp a) <= instant (r_timestamp b))); [| | |done].
  - intros x y Hx Hy Hxy Hyx. rewrite <- Hperm in Hy.
    apply (NoDup_fmap_elem_of _ _ _ _ Hdistinct Hx Hy). lia.
  - apply Sorted_StronglySorted; [intros ? ? ?; lia | done].
  - apply Sorted_StronglySorted; [intros ? ? ?; lia | done].
Qed.

Lemma strictly_chronological_spec (series : list reading) :
  strictly_chronological series ->
  chronological series /\ NoDup ((fun r => instant (r_timestamp r)) <$> series).
Proof.
  intros Hs. apply Sorted_StronglySorted in Hs; [|intros ? ? ?; lia].
  induction Hs as [|r rest Hs [IH1 IH2] Hall]; [split; constructor|]. split.
  - constructor; [done|]. destruct Hall as [|x rest' Hx _]; constructor. lia.
  - rewrite fmap_cons. constructor; [|done].
    intros (x & Heq & Hx)%list_elem_of_fmap.
    rewrite Forall_forall in Hall. specialize (Hall x Hx). lia.
Qed.

Lemma sort_values_sorted_input `{PyRuntime} (series : list reading) :
  strictly_chronological series -> sort_values series = series.
Proof.
  intros [Hsorted Hdistinct]%strictly_chronological_spec. symmetry.
  apply chronological_unique; [|done|done|apply sort_values_chronological].
  symmetry. apply sort_values_permutation.
Qed.

Lemma sort_values_length `{PyRuntime} (rows : list reading) :
  length (sort_values rows) = length rows.
Proof. apply Permutation_length, sort_values_permutation. Qed.

Lemma traverse_number (values : list Q) :
  traverse number (map Num values) = Return values.
Proof. induction values as [|v values IH]; [done|]. cbn. by rewrite IH. Qed.



Lemma head3_map {A B} (f : A -> B) (xs : list A) : head3 (map f xs) = map f (head3 xs).
Proof. unfold head3. by rewrite <- fmap_take. Qed.

Lemma tail3_map {A B} (f : A -> B) (xs : list A) : tail3 (map f xs) = map f (tail3 xs).
Proof. unfold tail3. by rewrite length_map, <- fmap_drop. Qed.

Lemma weight_trend_of_cases (change : Q) :
  ((1 < change)%Q -> weight_trend_of change = "increasing") /\
  ((change < -1)%Q -> weight_trend_of change = "decreasing") /\
  ((-1 <= change)%Q -> (change <= 1)%Q -> weight_trend_of change = "stable").
Proof.
  unfold weight_trend_of.
  destruct (Qgtb_spec change 1), (Qltb_spec change (-1));
    repeat split; intros; first [done | exfalso; lra].
Qed.



(** *** Rounding: integers below [2^53] are binary64 numbers *)








(** *** The blood-pressure trend *)







(** The weight analysis as written (the function under the decorator):
    fewer than two points give 'neutral' with magnitude 0; from two
    points on, [change_percent] compares the mean of the last three values
    with the mean of the first three, and the trend is 'increasing' above
    1, 'decreasing' below -1 and 'stable' in between. *)
Lemma analyze_weight_trend_body_spec `{PyRuntime} :
  (forall series : pyseq,
     (length (items series) < 2)%nat ->
     exists t, analyze_weight_trend_body series = Return t /\
               trend t = "neutral" /\ change_percentage t = 0%Q)
  /\
  (forall (series : pyseq) (values : list Q),
     strictly_chronological (items series) ->
     map r_value (items series) = map Num values ->
     (2 <= length (items series))%nat ->
     let recent_avg := np_mean (tail3 values) in
     let past_avg := np_mean (head3 values) in
     let change_percent :=
       float_mul (float_div (float_sub recent_avg past_avg) past_avg) 100 in
     ~ (past_avg == 0)%Q ->
     exists t,
       analyze_weight_trend_body series = Return t /\
       change_percentage t = change_percent /\
       ((1 < change_percent)%Q -> trend t = "increasing") /\
       ((change_percent < -1)%Q -> trend t = "decreasing") /\
       ((-1 <= change_percent)%Q -> (change_percent <= 1)%Q -> trend t = "stable")).
Proof.
  split.
  - intros series Hlen. unfold analyze_weight_trend_body.
    rewrite sort_values_length.
    destruct (items series) as [|r [|r' rest]]; cbn in Hlen; [| |lia];
      eexists; (split; [reflexivity|done]).
  - intros series values Hsorted Hvalues Hlen recent_avg past_avg change_percent _.
    unfold analyze_weight_trend_body.
    destruct (items series) as [|r rest] eqn:Hitems; [cbn in Hlen; lia|].
    rewrite <- Hitems in *. clear r rest Hitems.
    rewrite (sort_values_sorted_input _ Hsorted).
    destruct (Z.ltb_spec (Z.of_nat (length (items series))) 2) as [|_]; [lia|].
    rewrite <- tail3_map, <- head3_map, Hvalues, tail3_map, head3_map.
    rewrite !traverse_number. cbn [and_then].
    eexists. split; [reflexivity|]. cbn [trend change_percentage].
    fold recent_avg past_avg change_percent.
    destruct (weight_trend_of_cases change_percent) as (Hup & Hdown & Hflat).
    repeat split; assumption.
Qed.

(** C3 — what the code does with the series of the claim.  Under
    [@lru_cache] the argument is hashed before the function runs, and a
    list has no hash: [analyze_weight_trend] raises [TypeError] on every
    list, including the six-point series 70, 70, 70, 77, 77, 77, for which
    the function as written gives a change of 10 percent and the trend
    'increasing'. *)
Theorem C3_analyze_weight_trend_rejects_lists :
  forall (rt : PyRuntime),
    (forall series : list reading,
       analyze_weight_trend (PyList series) = Raise (TypeError "unhashable type: 'list'"))
    /\
    analyze_weight_trend (PyList six_weights) = Raise (TypeError "unhashable type: 'list'")
    /\
    (exists t,
       analyze_weight_trend_body (PyList six_weights) = Return t /\
       trend t = "increasing" /\ (change_percentage t == 10)%Q).
Proof.
  intros rt. split; [done|]. split; [done|].
  destruct (proj2 analyze_weight_trend_body_spec (PyList six_weights)
              [70; 70; 70; 77; 77; 77]%Q) as (t & Hrun & Hchange & Hup & _).
  - repeat constructor; vm_compute; reflexivity.
  - reflexivity.
  - cbn. lia.
  - vm_compute. discriminate.
  - exists t. split; [exact Hrun|]. split.
    + apply Hup. vm_compute. reflexivity.
    + rewrite Hchange. vm_compute. reflexivity.
Qed.

(** ** The aggregator *)

Lemma traverse_number_total (rows : list reading) :
  Forall (fun r => exists q, r_value r = Num q) rows ->
  exists values, traverse number (map r_value rows) = Return values /\
                 length values = length rows.
Proof.
  induction 1 as [|r rows [q Hq] _ (values & IH & Hlen)]; [by exists []|].
  exists (q :: values). cbn. rewrite Hq. cbn. rewrite IH. cbn. by rewrite Hlen.
Qed.

Lemma traverse_sleep_duration_total (rows : list reading) :
  Forall (fun r => is_Some (r_start r) /\ is_Some (r_end r)) rows ->
  exists durations, traverse sleep_duration rows = Return durations.
Proof.
  induction 1 as [|r rows [[t0 Ht0] [t1 Ht1]] _ (durations & IH)]; [by exists []|].
  eexists. cbn [traverse]. unfold sleep_duration at 1. rewrite Ht0, Ht1.
  cbn [field and_then]. rewrite IH. reflexivity.
Qed.

(** C9 (amended).  Whenever the two trend analyses return and the
    heart-rate values are numbers and the sleep records carry their
    interval, [generate_health_summary] returns a summary in which
    - the keys 'weight' and 'blood_pressure' are always present; for an
      empty series the entry has the trend 'neutral' and no latest value;
    - the key 'heart_rate' is present exactly when the heart-rate series
      is not empty, and the key 'sleep' exactly when the sleep series is
      not empty. *)
Theorem C9_generate_health_summary_keys :
  forall (rt : PyRuntime) (now : Z) (weight_data bp_data hr_data sleep_data : pyseq)
         (weight_trend bp_trend : HealthTrend),
    analyze_weight_trend weight_data = Return weight_trend ->
    analyze_blood_pressure_trend bp_data = Return bp_trend ->
    Forall (fun r => exists q, r_value r = Num q) (items hr_data) ->
    Forall (fun r => is_Some (r_start r) /\ is_Some (r_end r)) (items sleep_data) ->
    exists s,
      generate_health_summary now weight_data bp_data hr_data sleep_data = Return s /\
      s_metrics s !! "weight" =
        Some (TrendEntry (trend weight_trend) (analysis weight_trend)
                (r_value <$> last (items weight_data))) /\
      s_metrics s !! "blood_pressure" =
        Some (TrendEntry (trend bp_trend) (analysis bp_trend)
                (r_value <$> last (items bp_data))) /\
      (items weight_data = [] ->
         s_metrics s !! "weight" = Some (TrendEntry "neutral" "Insufficient data" None)) /\
      (items bp_data = [] ->
         s_metrics s !! "blood_pressure" =
           Some (TrendEntry "neutral" "Insufficient data" None)) /\
      (items hr_data = [] <-> s_metrics s !! "heart_rate" = None) /\
      (items sleep_data = [] <-> s_metrics s !! "sleep" = None).
Proof.
  intros rt now weight_data bp_data hr_data sleep_data weight_trend bp_trend
         Hweight Hbp Hhr Hsleep.
  destruct (traverse_number_total _ Hhr) as (hr_values & Hvalues & Hlen).
  destruct (traverse_sleep_duration_total _ Hsleep) as (durations & Hdurations).
  assert (Hw0 : items weight_data = [] ->
                trend weight_trend = "neutral" /\
                analysis weight_trend = "Insufficient data").
  { intros Hnil. unfold analyze_weight_trend, lru_cache in Hweight.
    destruct (py_hash_error weight_data); [done|].
    unfold analyze_weight_trend_body in Hweight. rewrite Hnil in Hweight.
    by injection Hweight as <-. }
  assert (Hb0 : items bp_data = [] ->
                trend bp_trend = "neutral" /\ analysis bp_trend = "Insufficient data").
  { intros Hnil. unfold analyze_blood_pressure_trend in Hbp. rewrite Hnil in Hbp.
    by injection Hbp as <-. }
  unfold generate_health_summary. rewrite Hweight, Hbp. cbn [and_then].
  rewrite Hdurations.
  destruct (items hr_data) as [|h [|h2 hs]] eqn:Hhs;
    destruct (items sleep_data) as [|sl sls] eqn:Hsls.
  all: cbn [map] in *; try rewrite Hvalues.
  all: try (destruct hr_values as [|v vs]; [cbn in Hlen; lia|]).
  all: try (destruct (last_is_Some (h :: h2 :: hs)) as [_ [h' ->]]; [done|]).
  all: try (destruct (last_is_Some (sl :: sls)) as [_ [sl' ->]]; [done|]).
  all: cbn [last and_then]; eexists; (split; [reflexivity|]); cbn [s_metrics].
  all: repeat split; intros; simplify_map_eq; try done.
  all: try (destruct Hw0 as [-> ->]; [done|]); try (destruct Hb0 as [-> ->]; [done|]).
  all: try match goal with H : items _ = [] |- _ => rewrite H end; done.
Qed.

Lemma C9_generate_health_summary_keys_witness :
  exists s,
    @generate_health_summary sample_runtime 0 (PyTuple []) (PyList six_pressures)
      (PyList [hr_metric 1 72; hr_metric 2 75]) (PyList []) = Return s /\
    s_metrics s !! "weight" = Some (TrendEntry "neutral" "Insufficient data" None) /\
    is_Some (s_metrics s !! "blood_pressure") /\
    is_Some (s_metrics s !! "heart_rate") /\
    s_metrics s !! "sleep" = None.
Proof.
  destruct (C9_generate_health_summary_keys sample_runtime 0 (PyTuple [])
              (PyList six_pressures) (PyList [hr_metric 1 72; hr_metric 2 75]) (PyList [])
              {| metric_type := "weight"; trend := "neutral"; change_percentage := 0;
                 analysis := "Insufficient data" |}
              {| metric_type := "blood_pressure"; trend := "concerning";
                 change_percentage := 20;
                 analysis := "BP trend: Systolic 20/1, Diastolic 0/1" |})
    as (s & Hrun & Hw & Hbp & Hw0 & _ & Hhr & Hsl).
  - reflexivity.
  - vm_compute. reflexivity.
  - repeat constructor; by eexists.
  - constructor.
  - exists s. split; [exact Hrun|]. split; [by apply Hw0|].
    split; [by rewrite Hbp|]. split; [|by apply Hsl].
    destruct (s_metrics s !! "heart_rate"); [done|].
    destruct Hhr as [_ Hhr]. discriminate (Hhr eq_refl).
Defined.

(** C9, as stated, fails for the weight and blood-pressure families: with
    every series empty the summary still has both keys. *)
Lemma C9_empty_series_keep_two_keys :
  exists s,
    @generate_health_summary sample_runtime 0 (PyTuple []) (PyList []) (PyList [])
      (PyList []) = Return s /\
    s_metrics s !! "weight" = Some (TrendEntry "neutral" "Insufficient data" None) /\
    s_metrics s !! "blood_pressure" =
      Some (TrendEntry "neutral" "Insufficient data" None) /\
    s_metrics s !! "heart_rate" = None /\
    s_metrics s !! "sleep" = None.
Proof. eexists. split; [reflexivity|]. by vm_compute. Qed.

(** ** The two-tier cache *)

Lemma cache_data_spec `{PyRuntime} (key_data : list (string * string))
    (value : list reading) (expire_seconds : Z) (w : world) :
  (redis_client w = None ->
     cache_data key_data value expire_seconds w =
       (Return tt, set_local_cache (insert (_generate_key key_data) value) w))
  /\
  (forall r,
     redis_client w = Some r ->
     forallb json_serializable value = true ->
     reachable r = true ->
     cache_data key_data value expire_seconds w =
       (Return tt,
        set_local_cache (insert (_generate_key key_data) value)
          (set_redis_client (fun _ =>
             Some {| reachable := true;
                     entries := <[_generate_key key_data :=
                                    (clock w + expire_seconds * second, Json value)]>
                                  (entries r) |}) w)))
  /\
  (forall r,
     redis_client w = Some r ->
     forallb json_serializable value = false \/ reachable r = false ->
     exists e, cache_data key_data value expire_seconds w = (Raise e, w)).
Proof.
  unfold cache_data, bind, gets, modify, lift, ret, json_dumps, redis_setex.
  destruct w; cbn. repeat split.
  - by intros ->.
  - intros r -> -> Hup. by rewrite Hup.
  - intros r -> [-> | Hdown]; [by eexists|].
    rewrite Hdown. destruct (forallb json_serializable value); by eexists.
Qed.

(** C6 (amended).  [cache_data] stores the value in the local cache and
    returns normally when no remote tier is configured, and when the value
    serialises and the remote [setex] succeeds (the remote tier then holds
    the entry until its expiry).  When the remote write fails, the
    exception reaches the caller and neither tier is written. *)
Theorem C6_cache_data_tiers :
  forall (rt : PyRuntime) (key_data : list (string * string)) (value : list reading)
         (expire_seconds : Z) (w : world),
    (redis_client w = None ->
       cache_data key_data value expire_seconds w =
         (Return tt, set_local_cache (insert (_generate_key key_data) value) w))
    /\
    (forall r,
       redis_client w = Some r ->
       forallb json_serializable value = true ->
       reachable r = true ->
       exists w',
         cache_data key_data value expire_seconds w = (Return tt, w') /\
         local_cache w' = <[_generate_key key_data := value]> (local_cache w) /\
         redis_client w' =
           Some {| reachable := true;
                   entries := <[_generate_key key_data :=
                                  (clock w + expire_seconds * second, Json value)]>
                                (entries r) |})
    /\
    (forall r,
       redis_client w = Some r ->
       forallb json_serializable value = false \/ reachable r = false ->
       exists e, cache_data key_data value expire_seconds w = (Raise e, w)).
Proof.
  intros rt key_data value expire_seconds w.
  destruct (cache_data_spec key_data value expire_seconds w) as (Hnone & Hsome & Hfail).
  split; [done|]. split; [|done].
  intros r Hr Hser Hup. eexists. split; [by apply Hsome|]. by destruct w.
Qed.

Lemma C6_cache_data_tiers_witness :
  exists w',
    @cache_data sample_runtime [("function", "withings_weight"); ("date", "19000")]
      [stored_weight] 3600 (initial_world 0 (Some redis_up) true false) = (Return tt, w') /\
    local_cache w' !! @_generate_key sample_runtime
                        [("function", "withings_weight"); ("date", "19000")]
      = Some [stored_weight].
Proof.
  destruct (proj1 (proj2 (C6_cache_data_tiers sample_runtime
              [("function", "withings_weight"); ("date", "19000")]
              [stored_weight] 3600 (initial_world 0 (Some redis_up) true false))) redis_up)
    as (w' & Hrun & Hlocal & _).
  - reflexivity.
  - reflexivity.
  - reflexivity.
  - exists w'. split; [exact Hrun|]. rewrite Hlocal. apply lookup_insert_eq.
Defined.

(** C6, as stated, fails: with the remote tier unreachable the call raises
    and the local cache is left as it was. *)
Lemma C6_remote_failure_reaches_the_caller :
  @cache_data sample_runtime [("function", "withings_weight"); ("date", "19000")]
    [stored_weight] 3600 (initial_world 0 (Some redis_down) true false)
  = (Raise (ExternalError "Error connecting to redis"),
     initial_world 0 (Some redis_down) true false)
  /\ local_cache (initial_world 0 (Some redis_down) true false) = ∅.
Proof. split; reflexivity. Qed.

(** ** The orchestrator *)

(** [_safe_sync] never raises. *)
Lemma _safe_sync_returns `{PyRuntime} (fetch : M world (list reading)) (data_type : string)
    (w : world) :
  exists data w', _safe_sync fetch data_type w = (Return data, w').
Proof.
  unfold _safe_sync, try_except.
  match goal with |- context [let (_, _) := ?m w in _] => destruct (m w) as [[data|e] w'] end.
  - by exists data, w'.
  - by eexists [], _.
Qed.

#[export] Instance summary_state_kept_preorder : PreOrder summary_state_kept.
Proof.
  split.
  - by intros w.
  - intros w1 w2 w3 (? & ? & ?) (? & ? & ?). repeat split; congruence.
Qed.

(** Preservation goals are taken apart along the structure of the
    program; what is left are the state updates and the calls. *)
Ltac kept :=
  repeat lazymatch goal with
  | |- preserves ?R (ret _) => apply (preserves_ret R)
  | |- preserves ?R (raise _) => apply (preserves_raise R)
  | |- preserves ?R (gets _) => apply (preserves_gets R)
  | |- preserves ?R (lift _) => apply (preserves_lift R)
  | |- preserves ?R (bind _ _) => apply (preserves_bind R); [|intros ?]
  | |- preserves ?R (try_except _ _) => apply (preserves_try_except R); [|intros ?]
  | |- preserves ?R (for_each _ _) => apply (preserves_for_each R); intros ?
  | |- preserves ?R (retry_on_exception _ _ _) =>
      apply (preserves_retry_on_exception R); [by intros ? []|]
  | |- preserves ?R (modify _) => apply (preserves_modify R)
  | |- preserves _ (let _ := _ in _) => cbv zeta
  | |- preserves _ (match ?x with _ => _ end) => destruct x
  end.

Lemma rate_limited_keeps_summary_state {A} l (func : M world A) :
  preserves summary_state_kept func ->
  preserves summary_state_kept (rate_limited l func).
Proof. intros Hfunc. unfold rate_limited. kept; by try intros []. Qed.

Lemma fetch_of_keeps_summary_state vendor (s : source) :
  preserves summary_state_kept (fetch_of vendor s).
Proof.
  assert (Hreq : forall s', preserves summary_state_kept (request vendor s')).
  { by intros s' []. }
  destruct s; cbn [fetch_of];
    unfold get_weight_data, get_sleep_data, get_blood_pressure_data,
           get_heart_rate_data, _make_request; kept;
    by apply rate_limited_keeps_summary_state.
Qed.

Lemma _safe_sync_keeps_summary_state `{PyRuntime} (fetch : M world (list reading))
    (data_type : string) :
  preserves summary_state_kept fetch ->
  preserves summary_state_kept (_safe_sync fetch data_type).
Proof.
  intros Hfetch. unfold _safe_sync, get_cached_data, cache_data. kept; by try intros [].
Qed.

Lemma and_then_Return {A B} (r : result A) (k : A -> result B) (b : B) :
  and_then r k = Return b -> exists a, r = Return a /\ k a = Return b.
Proof. destruct r as [a|e]; [by exists a | done]. Qed.

Lemma generate_health_summary_timestamp `{PyRuntime} now weight_data bp_data hr_data
    sleep_data (s : summary) :
  generate_health_summary now weight_data bp_data hr_data sleep_data = Return s ->
  s_timestamp s = PyIsoStr now.
Proof.
  unfold generate_health_summary. intros Hrun.
  repeat (apply and_then_Return in Hrun as (? & _ & Hrun)).
  by injection Hrun as <-.
Qed.

Lemma generate_health_summary_rejects_lists `{PyRuntime} now weight_data bp_data hr_data
    sleep_data :
  generate_health_summary now (PyList weight_data) bp_data hr_data sleep_data =
  Raise (TypeError "unhashable type: 'list'").
Proof. reflexivity. Qed.

(** One step of a cycle: the state and the data after a [_safe_sync] for
    one of the four sources. *)
Lemma _safe_sync_step `{PyRuntime} vendor (s : source) (w : world) :
  exists data w',
    _safe_sync (fetch_of vendor s) (data_type s) w = (Return data, w') /\
    summary_state_kept w w'.
Proof.
  destruct (_safe_sync_returns (fetch_of vendor s) (data_type s) w) as (data & w' & Hrun).
  exists data, w'. split; [done|].
  pose proof (_safe_sync_keeps_summary_state (fetch_of vendor s) (data_type s)
                (fetch_of_keeps_summary_state vendor s) w) as Hkept.
  by rewrite Hrun in Hkept.
Qed.

(** C7 — what [HealthSync.generate_health_summary] does.  The summary
    stores its instant as the text returned by [isoformat()]; the age
    computation subtracts that text from a [datetime].  Whenever a summary
    produced by the aggregator is cached, whatever its age, the call
    raises [TypeError] and leaves the state as it was, instead of
    returning the cached summary.  With no cached summary the four
    sources are synchronised and the aggregator is called with lists, so
    the call raises as well and no summary is stored. *)
Theorem C7_cached_summary_is_never_served :
  forall (rt : PyRuntime) (vendor : source -> nat -> result (list reading)) (w : world),
    (forall now weight_data bp_data hr_data sleep_data cached,
       generate_health_summary now weight_data bp_data hr_data sleep_data = Return cached ->
       cached_summary w = Some cached ->
       HealthSync_generate_health_summary vendor w =
         (Raise (TypeError
                   "unsupported operand type(s) for -: 'datetime.datetime' and 'str'"),
          w))
    /\
    (cached_summary w = None ->
     exists w',
       HealthSync_generate_health_summary vendor w =
         (Raise (TypeError "unhashable type: 'list'"), w') /\
       cached_summary w' = None).
Proof.
  intros rt vendor w. split.
  - intros now weight_data bp_data hr_data sleep_data cached Hgen Hcached.
    apply generate_health_summary_timestamp in Hgen.
    unfold HealthSync_generate_health_summary, bind, gets, lift.
    by rewrite Hcached, Hgen.
  - intros Hnone.
    unfold HealthSync_generate_health_summary.
    unfold bind at 1, gets at 1. rewrite Hnone. unfold bind at 1, ret at 1.
    destruct (_safe_sync_step vendor withings_weight w) as (d1 & w1 & H1 & K1 & _).
    unfold bind at 1. cbn [fetch_of data_type] in H1. rewrite H1.
    destruct (_safe_sync_step vendor omron_bp w1) as (d2 & w2 & H2 & K2 & _).
    unfold bind at 1. cbn [fetch_of data_type] in H2. rewrite H2.
    destruct (_safe_sync_step vendor omron_hr w2) as (d3 & w3 & H3 & K3 & _).
    unfold bind at 1. cbn [fetch_of data_type] in H3. rewrite H3.
    destruct (_safe_sync_step vendor withings_sleep w3) as (d4 & w4 & H4 & K4 & _).
    unfold bind at 1. cbn [fetch_of data_type] in H4. rewrite H4.
    exists w4. split; [reflexivity | congruence].
Qed.

Lemma C7_cached_summary_is_never_served_witness :
  @HealthSync_generate_health_summary sample_runtime weight_feed_down
    (set_cached_summary (fun _ => Some empty_summary)
       (initial_world (600 * second) None true false))
  = (Raise (TypeError "unsupported operand type(s) for -: 'datetime.datetime' and 'str'"),
     set_cached_summary (fun _ => Some empty_summary)
       (initial_world (600 * second) None true false)).
Proof.
  apply (proj1 (C7_cached_summary_is_never_served sample_runtime weight_feed_down _)
           0 (PyTuple []) (PyList []) (PyList []) (PyList []) empty_summary).
  - reflexivity.
  - reflexivity.
Defined.

(** ** Alerts *)

Lemma for_each_deliver (f : string -> string) (alerts : list string) (w : world) :
  for_each alerts (fun alert => modify (set_delivered (fun sent => sent ++ [f alert]))) w
  = (Return tt, set_delivered (fun sent => sent ++ map f alerts) w).
Proof.
  revert w. induction alerts as [|alert alerts IH]; intros w.
  - destruct w. cbn. by rewrite app_nil_r.
  - cbn [for_each]. unfold bind, modify at 1. rewrite IH. destruct w. cbn.
    by rewrite <- app_assoc.
Qed.

Lemma _send_alert_notifications_run (w : world) :
  _send_alert_notifications w =
    match active_alerts w with
    | [] => (Return tt, w)
    | _ :: _ =>
        (if has_bot w then Raise (RuntimeError "no running event loop") else Return tt,
         if has_google_home w
         then set_delivered (fun sent => sent ++ map announce (active_alerts w)) w
         else w)
    end.
Proof.
  unfold _send_alert_notifications.
  destruct w as [? ? ? sent ? ? ? ? ? ? ? alerts google bot].
  destruct alerts as [|alert alerts]; [done|].
  destruct google; cbn -[for_each format_health_alert _parse_alert].
  - unfold bind at 1.
    rewrite (for_each_deliver (fun alert => format_health_alert (_parse_alert alert))).
    by destruct bot.
  - by destruct bot.
Qed.

Lemma _send_alert_notifications_spec (w : world) :
  active_alerts (_send_alert_notifications w).2 = active_alerts w /\
  delivered (_send_alert_notifications w).2 =
    delivered w ++ (if has_google_home w then map announce (active_alerts w) else []) /\
  (has_bot w = false -> (_send_alert_notifications w).1 = Return tt).
Proof.
  rewrite _send_alert_notifications_run.
  destruct w as [? ? ? sent ? ? ? ? ? ? ? alerts google bot].
  destruct alerts, google, bot; cbn -[announce]; rewrite ?app_nil_r; done.
Qed.

Lemma check_and_notify_run `{PyRuntime} (summary : summary) (new_alerts : list string)
    (w : world) :
  check_health_metrics summary = Return new_alerts ->
  check_and_notify summary w =
    if decide (new_alerts ≠ active_alerts w)
    then _send_alert_notifications (set_active_alerts (fun _ => new_alerts) w)
    else (Return tt, w).
Proof.
  intros Hcheck. unfold check_and_notify, bind, lift, gets, modify. rewrite Hcheck.
  by destruct (decide (new_alerts ≠ active_alerts w)).
Qed.

(** C8 (amended).  In the alert step of a cycle, with [new_alerts] the
    list derived from the summary:
    - if it is equal (same alerts in the same order) to the active list,
      the step changes nothing and sends nothing;
    - if it differs in any way, it replaces the active list and the
      notification routine runs on it: each alert of the new list, in
      order, is announced on Google Home when that channel is configured,
      so an empty new list is stored without anything being sent;
    - without a Telegram bot the step returns normally. *)
Theorem C8_alerts_notified_on_change :
  forall (rt : PyRuntime) (summary : summary) (new_alerts : list string) (w : world),
    check_health_metrics summary = Return new_alerts ->
    (new_alerts = active_alerts w -> check_and_notify summary w = (Return tt, w))
    /\
    (new_alerts <> active_alerts w ->
       active_alerts (check_and_notify summary w).2 = new_alerts /\
       delivered (check_and_notify summary w).2 =
         delivered w ++ (if has_google_home w then map announce new_alerts else []) /\
       (has_bot w = false -> (check_and_notify summary w).1 = Return tt)).
Proof.
  intros rt summary new_alerts w Hcheck.
  rewrite (check_and_notify_run summary new_alerts w Hcheck). split.
  - intros Heq. by destruct (decide (new_alerts ≠ active_alerts w)).
  - intros Hne. destruct (decide (new_alerts ≠ active_alerts w)); [|done].
    destruct (_send_alert_notifications_spec
                (set_active_alerts (fun _ => new_alerts) w)) as (Hactive & Hsent & Hret).
    rewrite Hactive, Hsent. by destruct w.
Qed.

Lemma C8_alerts_notified_on_change_witness :
  active_alerts (@check_and_notify sample_runtime racing_summary
                   fresh_process).2 = [racing_alert] /\
  delivered (@check_and_notify sample_runtime racing_summary
               fresh_process).2 =
    ["Health Alert: Your heart rate is " +:+ racing_alert].
Proof.
  destruct (proj2 (C8_alerts_notified_on_change sample_runtime racing_summary
                     [racing_alert] fresh_process eq_refl))
    as (Hactive & Hsent & _).
  - discriminate.
  - split; [exact Hactive | exact Hsent].
Defined.

(** C8, as stated, fails when the alerts clear: the list changes from one
    alert to none, the active list is replaced, and nothing is sent. *)
Lemma C8_cleared_alerts_send_nothing :
  @check_and_notify sample_runtime empty_summary
    (set_active_alerts (fun _ => [racing_alert]) fresh_process)
  = (Return tt, fresh_process)
  /\ delivered fresh_process = [].
Proof. split; reflexivity. Qed.

(** ** Same-day lookups *)

#[export] Instance cache_kept_preorder : PreOrder cache_kept.
Proof.
  split.
  - by intros w.
  - intros w1 w2 w3 (? & ?) (? & ?). split; congruence.
Qed.

Lemma rate_limited_keeps_cache {A} l (func : M world A) :
  preserves cache_kept func -> preserves cache_kept (rate_limited l func).
Proof. intros Hfunc. unfold rate_limited. kept; by try intros []. Qed.

Lemma fetch_of_keeps_cache vendor (s : source) :
  preserves cache_kept (fetch_of vendor s).
Proof.
  assert (Hreq : forall s', preserves cache_kept (request vendor s')).
  { by intros s' []. }
  destruct s; cbn [fetch_of];
    unfold get_weight_data, get_sleep_data, get_blood_pressure_data,
           get_heart_rate_data, _make_request; kept;
    by apply rate_limited_keeps_cache.
Qed.

Lemma get_cached_data_state `{PyRuntime} key_data (w : world) :
  (get_cached_data key_data w).2 = w.
Proof.
  unfold get_cached_data, bind, gets, lift, ret.
  destruct (redis_client w) as [r|]; [|done].
  destruct (redis_get r (clock w) (_generate_key key_data)) as [[payload|]|e]; done.
Qed.

Lemma get_cached_data_hit `{PyRuntime} key_data (data : list reading) (w : world) :
  local_cache w !! _generate_key key_data = Some data ->
  remote_answers w ->
  remote_agrees w (_generate_key key_data) data ->
  get_cached_data key_data w = (Return (Some data), w).
Proof.
  unfold remote_answers, remote_agrees, get_cached_data, bind, gets, lift, ret, redis_get.
  intros Hlocal Hup Hagree. destruct (redis_client w) as [r|]; [|by rewrite Hlocal].
  rewrite Hup. destruct (entries r !! _generate_key key_data) as [[expires_at payload]|] eqn:E;
    [|by rewrite Hlocal].
  destruct (Z.ltb_spec (clock w) expires_at); [|by rewrite Hlocal].
  by rewrite (Hagree _ _ eq_refl).
Qed.

(** A hit: the cached data is returned, the fetch function is not run and
    the state is not touched. *)
Lemma _safe_sync_hit `{PyRuntime} (fetch : M world (list reading)) (data_type : string)
    (data : list reading) (w : world) :
  data <> [] ->
  local_cache w !! _generate_key (cache_key data_type (clock w)) = Some data ->
  remote_answers w ->
  remote_agrees w (_generate_key (cache_key data_type (clock w))) data ->
  _safe_sync fetch data_type w = (Return data, w).
Proof.
  intros Hne Hlocal Hup Hagree.
  unfold _safe_sync, try_except. unfold bind at 1, gets at 1. unfold bind at 1.
  fold (cache_key data_type (clock w)).
  rewrite (get_cached_data_hit _ data w Hlocal Hup Hagree).
  by destruct data.
Qed.

#[export] Instance local_entry_kept_preorder key : PreOrder (local_entry_kept key).
Proof.
  split.
  - by intros w.
  - intros w1 w2 w3 H12 H23. unfold local_entry_kept in *. congruence.
Qed.

Lemma cache_kept_local_entry {A} key (m : M world A) :
  preserves cache_kept m -> preserves (local_entry_kept key) m.
Proof. intros Hm w. destruct (Hm w) as [Hlocal _]. unfold local_entry_kept. by rewrite Hlocal. Qed.

Lemma bind_gets {St A B} (f : St -> A) (k : A -> M St B) (st : St) :
  bind (gets f) k st = k (f st) st.
Proof. reflexivity. Qed.

(** A call under another fingerprint leaves the entry alone. *)
Lemma _safe_sync_keeps_other_entries `{PyRuntime} vendor (s : source) (key : string)
    (w : world) :
  _generate_key (cache_key (data_type s) (clock w)) <> key ->
  local_entry_kept key w (_safe_sync (fetch_of vendor s) (data_type s) w).2.
Proof.
  intros Hkey. unfold _safe_sync, try_except.
  rewrite bind_gets. cbv beta zeta. fold (cache_key (data_type s) (clock w)).
  match goal with |- context [let (_, _) := ?b w in _] => set (body := b) end.
  assert (Hbody : preserves (local_entry_kept key) body).
  { subst body. unfold get_cached_data, cache_data. kept; try by intros [].
    all: try apply cache_kept_local_entry, fetch_of_keeps_cache.
    all: intros []; unfold local_entry_kept; cbn; by rewrite lookup_insert_ne. }
  specialize (Hbody w). destruct (body w) as [[data|e] w']; [done|]. cbn in Hbody.
  etrans; [exact Hbody|].
  by destruct w'.
Qed.

(** A miss followed by a fetch and a write. *)
Lemma _safe_sync_fetch_and_write `{PyRuntime} vendor (s : source) (w wf : world)
    (data : list reading) :
  (get_cached_data (cache_key (data_type s) (clock w)) w).1 = Return None \/
  (get_cached_data (cache_key (data_type s) (clock w)) w).1 = Return (Some []) ->
  fetch_of vendor s w = (Return data, wf) ->
  (redis_client w = None \/
   exists r, redis_client w = Some r /\ reachable r = true /\
             forallb json_serializable data = true) ->
  exists w1,
    _safe_sync (fetch_of vendor s) (data_type s) w = (Return data, w1) /\
    local_cache w1 !! _generate_key (cache_key (data_type s) (clock w)) = Some data /\
    last_sync_status w1 !! data_type s =
      Some {| status := "success"; status_timestamp := clock wf; error := None |}.
Proof.
  intros Hmiss Hfetch Hwrite.
  pose proof (fetch_of_keeps_cache vendor s w) as [_ Hredis].
  rewrite Hfetch in Hredis. cbn in Hredis.
  unfold _safe_sync, try_except.
  rewrite bind_gets. cbv beta zeta. fold (cache_key (data_type s) (clock w)).
  unfold bind at 1.
  pose proof (get_cached_data_state (cache_key (data_type s) (clock w)) w) as Hstate.
  destruct (get_cached_data (cache_key (data_type s) (clock w)) w) as [cached w0].
  cbn in Hmiss, Hstate. subst w0.
  set (key_data := cache_key (data_type s) (clock w)) in *.
  set (w' := set_last_sync_status
               (insert (data_type s)
                  {| status := "success"; status_timestamp := clock wf; error := None |}) wf).
  assert (Hstored : exists w1,
            cache_data key_data data 3600 w' = (Return tt, w1) /\
            local_cache w1 !! _generate_key key_data = Some data /\
            last_sync_status w1 = last_sync_status w').
  { destruct (cache_data_spec key_data data 3600 w') as (Hnone & Hsome & _).
    assert (Hredis' : redis_client w' = redis_client w) by (by destruct wf).
    destruct Hwrite as [Hno | (r & Hr & Hup & Hser)].
    - eexists. split; [apply Hnone; by rewrite Hredis'|].
      destruct wf. cbn. split; [apply lookup_insert_eq | done].
    - eexists. split; [apply (Hsome r); by rewrite ?Hredis'|].
      destruct wf. cbn. split; [apply lookup_insert_eq | done]. }
  destruct Hstored as (w1 & Hrun & Hlocal & Hstatus).
  exists w1.
  assert (Hw' : last_sync_status w' !! data_type s =
                Some {| status := "success"; status_timestamp := clock wf;
                        error := None |}).
  { subst w'. destruct wf. cbn. apply lookup_insert_eq. }
  destruct Hmiss as [-> | ->]; unfold bind, modify, ret; rewrite Hfetch;
    fold w'; rewrite Hrun; by rewrite Hstatus.
Qed.

(** C5 (amended).  When a [_safe_sync] call for a source finds nothing
    usable in the cache, fetches a result that is not empty and writes it
    (no remote tier, or a remote tier that takes the write), then
    - the result is in the local cache under the fingerprint of (source
      name, date);
    - every later [_safe_sync] call for that source on that date which finds
      this entry in place (and a remote tier, if configured, that answers
      and holds no other live payload under the fingerprint) returns the
      cached result and leaves the whole state, request counters included,
      as it was: the fetch function is not run, whatever it would have
      answered;
    - the entry stays in place through every [_safe_sync] call made under
      another fingerprint. *)
Theorem C5_same_day_lookup_is_served_from_cache :
  forall (rt : PyRuntime) vendor (s : source) (w wf : world) (data : list reading),
    let key := _generate_key (cache_key (data_type s) (clock w)) in
    (get_cached_data (cache_key (data_type s) (clock w)) w).1 = Return None \/
    (get_cached_data (cache_key (data_type s) (clock w)) w).1 = Return (Some []) ->
    fetch_of vendor s w = (Return data, wf) ->
    data <> [] ->
    (redis_client w = None \/
     exists r, redis_client w = Some r /\ reachable r = true /\
               forallb json_serializable data = true) ->
    exists w1,
      _safe_sync (fetch_of vendor s) (data_type s) w = (Return data, w1) /\
      local_cache w1 !! key = Some data /\
      (forall vendor' (w2 : world),
         clock w2 / day = clock w / day ->
         local_cache w2 !! key = Some data ->
         remote_answers w2 ->
         remote_agrees w2 key data ->
         _safe_sync (fetch_of vendor' s) (data_type s) w2 = (Return data, w2)) /\
      (forall vendor' (s' : source) (w2 : world),
         local_cache w2 !! key = Some data ->
         _generate_key (cache_key (data_type s') (clock w2)) <> key ->
         local_cache (_safe_sync (fetch_of vendor' s') (data_type s') w2).2 !! key =
           Some data).
Proof.
  intros rt vendor s w wf data key Hmiss Hfetch Hne Hwrite.
  destruct (_safe_sync_fetch_and_write vendor s w wf data Hmiss Hfetch Hwrite)
    as (w1 & Hrun & Hlocal & _).
  exists w1. split; [done|]. split; [done|]. split.
  - intros vendor' w2 Hday Hlocal2 Hup Hagree.
    assert (Hkey : cache_key (data_type s) (clock w2) = cache_key (data_type s) (clock w))
      by (unfold cache_key; by rewrite Hday).
    apply _safe_sync_hit; rewrite ?Hkey; done.
  - intros vendor' s' w2 Hlocal2 Hother.
    by rewrite (_safe_sync_keeps_other_entries vendor' s' key w2 Hother).
Qed.

Lemma C5_same_day_lookup_is_served_from_cache_witness :
  exists w1,
    @_safe_sync sample_runtime (fetch_of weight_feed_down omron_hr) "omron_hr"
      fresh_process = (Return two_heart_rates, w1) /\
    requests w1 omron_hr = 1%nat /\
    @_safe_sync sample_runtime (fetch_of nothing_measured omron_hr) "omron_hr" w1
      = (Return two_heart_rates, w1).
Proof.
  destruct (C5_same_day_lookup_is_served_from_cache sample_runtime weight_feed_down
              omron_hr fresh_process (fetch_of weight_feed_down omron_hr fresh_process).2
              two_heart_rates)
    as (w1 & Hrun & Hlocal & Hhit & _).
  - left. vm_compute. reflexivity.
  - vm_compute. reflexivity.
  - discriminate.
  - left. reflexivity.
  - assert (Hw1 : w1 = (@_safe_sync sample_runtime (fetch_of weight_feed_down omron_hr)
                          (data_type omron_hr) fresh_process).2) by (by rewrite Hrun).
    exists w1. split; [exact Hrun|]. split; [by rewrite Hw1|].
    apply Hhit.
    + rewrite Hw1. vm_compute. reflexivity.
    + exact Hlocal.
    + rewrite Hw1. vm_compute. exact I.
    + rewrite Hw1. vm_compute. exact I.
Defined.

(** C5, as stated, fails for an empty result: the source answers with no
    reading, the empty list is written to the cache, and the next call on
    the same day sends another request. *)
Lemma C5_empty_result_is_fetched_again :
  (@_safe_sync sample_runtime (fetch_of nothing_measured omron_hr) "omron_hr"
     fresh_process).1 = Return []
  /\ local_cache
       (@_safe_sync sample_runtime (fetch_of nothing_measured omron_hr) "omron_hr"
          fresh_process).2
     !! @_generate_key sample_runtime (@cache_key sample_runtime "omron_hr" 0) = Some []
  /\ requests
       (@_safe_sync sample_runtime (fetch_of nothing_measured omron_hr) "omron_hr"
          fresh_process).2 omron_hr = 1%nat
  /\ requests
       (@_safe_sync sample_runtime (fetch_of nothing_measured omron_hr) "omron_hr"
          (@_safe_sync sample_runtime (fetch_of nothing_measured omron_hr) "omron_hr"
             fresh_process).2).2 omron_hr = 2%nat.
Proof. vm_compute. by repeat split. Qed.

(** ** A whole cycle *)

Lemma sleep_nonneg {St} `{Sleeper St} (secs : Z) (st : St) :
  0 <= secs -> sleep secs st = (Return tt, time_sleep secs st).
Proof. intros Hs. unfold sleep. by destruct (Z.ltb_spec secs 0); [lia|]. Qed.

Lemma backoff_delay_nonneg (delay attempt : Z) : 0 <= delay -> 0 <= delay * 2 ^ attempt.
Proof. intros Hd. apply Z.mul_nonneg_nonneg; [done|]. by apply Z.pow_nonneg. Qed.

Lemma retry_loop_always_raises {St A} `{Sleeper St} (retries delay : Z) (func : M St A)
    (e : exn) :
  0 <= delay ->
  (forall st, (func st).1 = Raise e) ->
  forall attempts last st,
    last = Some e \/ attempts <> [] ->
    (retry_loop retries delay func attempts last st).1 = Raise e.
Proof.
  intros Hdelay Hfunc attempts.
  induction attempts as [|attempt rest IH]; intros last st Hlast.
  - by destruct Hlast as [-> | ?].
  - cbn [retry_loop]. unfold try_except. specialize (Hfunc st).
    destruct (func st) as [[a|e'] st']; cbn in Hfunc; [done|]. injection Hfunc as ->.
    unfold bind. destruct (attempt <? retries - 1).
    + rewrite sleep_nonneg by by apply backoff_delay_nonneg. apply IH. by left.
    + cbn. apply IH. by left.
Qed.

Lemma sync_health_data_body_raises `{PyRuntime} vendor calendar_insert (w : world) :
  (sync_health_data_body vendor calendar_insert w).1 =
  Raise (TypeError "unhashable type: 'list'").
Proof.
  unfold sync_health_data_body.
  destruct (_safe_sync_returns (get_weight_data vendor) "withings_weight" w)
    as (d1 & w1 & H1).
  unfold bind at 1. rewrite H1.
  destruct (_safe_sync_returns (get_sleep_data vendor) "withings_sleep" w1)
    as (d2 & w2 & H2).
  unfold bind at 1. rewrite H2.
  destruct (_safe_sync_returns (get_blood_pressure_data vendor) "omron_bp" w2)
    as (d3 & w3 & H3).
  unfold bind at 1. rewrite H3.
  destruct (_safe_sync_returns (get_heart_rate_data vendor) "omron_hr" w3)
    as (d4 & w4 & H4).
  unfold bind at 1. rewrite H4.
  reflexivity.
Qed.

(** With a remote tier configured, the write of a fetched series fails in
    [json.dumps] on the [datetime] of its records: the sources that
    answered are recorded as failed too, and nothing is cached. *)
Lemma remote_tier_refuses_handler_records :
  let after :=
    (@sync_health_data_body sample_runtime weight_feed_down (fun _ => true)
       (initial_world 0 (Some redis_up) true false)).2 in
  last_sync_status after !! "omron_bp" =
    Some {| status := "error"; status_timestamp := 3 * second;
            error := Some "Object of type datetime is not JSON serializable" |} /\
  local_cache after = ∅.
Proof. vm_compute. by split. Qed.

(** A miss followed by a fetch that raises: the exception stays inside
    [_safe_sync], which answers with the empty list and records the
    failure. *)
Lemma _safe_sync_failed_fetch `{PyRuntime} (fetch : M world (list reading))
    (data_type : string) (w wf : world) (e : exn) :
  (get_cached_data (cache_key data_type (clock w)) w).1 = Return None \/
  (get_cached_data (cache_key data_type (clock w)) w).1 = Return (Some []) ->
  fetch w = (Raise e, wf) ->
  _safe_sync fetch data_type w =
    (Return [],
     set_last_sync_status
       (insert data_type {| status := "error"; status_timestamp := clock wf;
                            error := Some (exn_str e) |}) wf).
Proof.
  intros Hmiss Hfetch. unfold _safe_sync, try_except.
  rewrite bind_gets. cbv beta zeta. unfold bind at 1.
  fold (cache_key data_type (clock w)).
  set (key_data := cache_key data_type (clock w)) in *.
  pose proof (get_cached_data_state key_data w) as Hstate.
  destruct (get_cached_data key_data w) as [cached w0]. cbn in Hmiss, Hstate. subst w0.
  destruct Hmiss as [-> | ->]; unfold bind at 1; by rewrite Hfetch.
Qed.

(** C1 — what a cycle does.  [_safe_sync] itself behaves as described: a
    fetch that fails after its retries leaves no exception behind, the
    call answers with the empty list and the source is recorded with
    status 'error' and the error text; in the first cycle of a fresh
    process in which the weight feed fails every attempt and the three
    other feeds answer, the weight source ends with status 'error' and
    the three others with status 'success'.  But the cycle then hands the
    weight series, a list, to [analyze_weight_trend]: every run of the
    body of [sync_health_data] raises [TypeError], from any state and
    whatever the sources answer, and so does [sync_health_data] after its
    three attempts.  No summary is produced. *)
Theorem C1_cycle_raises_in_the_aggregator :
  (forall (rt : PyRuntime) vendor calendar_insert (w : world),
     (sync_health_data_body vendor calendar_insert w).1 =
       Raise (TypeError "unhashable type: 'list'") /\
     (sync_health_data vendor calendar_insert w).1 =
       Raise (TypeError "unhashable type: 'list'"))
  /\
  (forall (rt : PyRuntime) vendor (s : source) (w : world) (e : exn),
     local_cache w = ∅ ->
     redis_client w = None ->
     (fetch_of vendor s w).1 = Raise e ->
     let wf := (fetch_of vendor s w).2 in
     _safe_sync (fetch_of vendor s) (data_type s) w =
       (Return [],
        set_last_sync_status
          (insert (data_type s) {| status := "error"; status_timestamp := clock wf;
                                   error := Some (exn_str e) |}) wf))
  /\
  (let after :=
     (@sync_health_data_body sample_runtime weight_feed_down (fun _ => true)
        fresh_process).2 in
   last_sync_status after !! "withings_weight" =
     Some {| status := "error"; status_timestamp := 3 * second;
             error := Some "503 Service Unavailable" |} /\
   last_sync_status after !! "withings_sleep" =
     Some {| status := "success"; status_timestamp := 3 * second; error := None |} /\
   last_sync_status after !! "omron_bp" =
     Some {| status := "success"; status_timestamp := 3 * second; error := None |} /\
   last_sync_status after !! "omron_hr" =
     Some {| status := "success"; status_timestamp := 3 * second; error := None |} /\
   map (requests after) [withings_weight; withings_sleep; omron_bp; omron_hr] =
     [3; 1; 1; 1]%nat /\
   cached_summary after = None).
Proof.
  split; [|split].
  - intros rt vendor calendar_insert w. split.
    + apply sync_health_data_body_raises.
    + unfold sync_health_data, retry_on_exception.
      apply retry_loop_always_raises; [lia| |by right].
      intros st. apply sync_health_data_body_raises.
  - intros rt vendor s w e Hlocal Hredis Hfetch wf.
    apply _safe_sync_failed_fetch.
    + left. unfold get_cached_data, bind, gets, ret. by rewrite Hredis, Hlocal.
    + subst wf. destruct (fetch_of vendor s w) as [r w']. cbn in Hfetch. by subst r.
  - vm_compute. by repeat split.
Qed.

Lemma C1_cycle_raises_in_the_aggregator_witness :
  (@_safe_sync sample_runtime (fetch_of weight_feed_down withings_weight)
     (data_type withings_weight) fresh_process).1 = Return [] /\
  last_sync_status
    (@_safe_sync sample_runtime (fetch_of weight_feed_down withings_weight)
       (data_type withings_weight) fresh_process).2 !! "withings_weight" =
    Some {| status := "error"; status_timestamp := 3 * second;
            error := Some "503 Service Unavailable" |}.
Proof.
  assert ((fetch_of weight_feed_down withings_weight fresh_process).1 =
          Raise (ExternalError "503 Service Unavailable")) as Hfetch
    by (vm_compute; reflexivity).
  pose proof (proj1 (proj2 C1_cycle_raises_in_the_aggregator) sample_runtime
                weight_feed_down withings_weight fresh_process
                (ExternalError "503 Service Unavailable") eq_refl eq_refl Hfetch) as Hrun.
  cbv zeta in Hrun. rewrite Hrun. split; [reflexivity|].
  vm_compute. reflexivity.
Defined.

(** * Further properties of the code *)

Lemma Return_inj {A} (a b : A) : Return a = Return b -> a = b.
Proof. by intros [= ->]. Qed.

Lemma traverse_length {A B} (f : A -> result B) (xs : list A) (ys : list B) :
  traverse f xs = Return ys -> length ys = length xs.
Proof.
  revert ys. induction xs as [|x xs IH]; intros ys; cbn.
  - by intros <-%Return_inj.
  - intros Hrun. apply and_then_Return in Hrun as (y & _ & Hrun).
    apply and_then_Return in Hrun as (ys' & Hys & Hrun).
    apply Return_inj in Hrun as <-. cbn. by rewrite (IH ys').
Qed.

(** ** [retry_on_exception]: no attempt, and the time spent waiting *)

(** X1 — [retry_on_exception] with [retries <= 0].  The loop has no
    attempt: the wrapped function is not invoked, nothing is slept, and the
    final [raise last_exception] finds [None], which Python turns into a
    [TypeError]. *)
Theorem X1_retry_without_attempts :
  forall (St A : Type) (sl : Sleeper St) (retries delay : Z) (func : M St A) (st : St),
    retries <= 0 ->
    retry_on_exception retries delay func st =
      (Raise (TypeError "exceptions must derive from BaseException"), st).
Proof.
  intros St A sl retries delay func st Hretries.
  unfold retry_on_exception, range.
  replace (Z.to_nat retries) with 0%nat by lia. reflexivity.
Qed.

Lemma X1_retry_without_attempts_witness :
  retry_on_exception 0 1 (scripted flaky) {| invocations := 0; trace := [] |} =
    (Raise (TypeError "exceptions must derive from BaseException"),
     {| invocations := 0; trace := [] |}).
Proof. apply X1_retry_without_attempts. lia. Defined.





(** ** [RateLimiter]: a limit that admits nothing, and the timestamps *)

(** X3 — a [RateLimiter] whose limit is zero or negative.  When no
    recorded call is younger than a minute (in particular on the first
    call), the wrapper finds the limit reached with an empty list, reads
    [self.calls[0]] and raises [IndexError]: the wrapped function is not
    invoked and no timestamp is recorded; the state is the one left by the
    pruning. *)
Theorem X3_rate_limiter_without_budget :
  forall (A : Type) (l : limiter) (func : M world A) (w : world),
    calls_per_minute (limiters w l) <= 0 ->
    filter (fun t => clock w - t < minute) (calls (limiters w l)) = [] ->
    rate_limited l func w =
      (Raise (IndexError "list index out of range"),
       set_limiters (fn_update l (fun self =>
         {| calls_per_minute := calls_per_minute self;
            calls := filter (fun t => clock w - t < minute) (calls self) |})) w).
Proof.
  intros A l func w Hcpm Hnone.
  unfold rate_limited, bind, gets, modify.
  destruct w as [now sl rq dl ce lim rc lc ls lm cs aa gh bt]; cbn in *.
  rewrite !fn_update_eq. cbn. rewrite Hnone. cbn.
  change (Z.of_nat 0) with 0.
  destruct (Z.leb_spec (calls_per_minute (lim l)) 0); [reflexivity|lia].
Qed.

Lemma X3_rate_limiter_without_budget_witness :
  (rate_limited L_make_request (request weight_feed_down omron_hr)
     (set_limiters (fun _ _ => {| calls_per_minute := 0; calls := [] |}) fresh_process)).1
  = Raise (IndexError "list index out of range").
Proof.
  rewrite (X3_rate_limiter_without_budget (list reading) L_make_request
             (request weight_feed_down omron_hr)
             (set_limiters (fun _ _ => {| calls_per_minute := 0; calls := [] |}) fresh_process)).
  - reflexivity.
  - cbn. lia.
  - reflexivity.
Defined.

#[export] Instance limiters_stay_ok_preorder : PreOrder limiters_stay_ok.
Proof.
  split.
  - by intros w.
  - intros w1 w2 w3 [? ?] [? ?]. split; [lia | auto].
Qed.
















(** ** [HealthMetric]: dictionaries and back *)

Section HealthMetricFacts.

Context {V : Type}.
Implicit Types (m : HealthMetric V) (data : gmap string V).

Lemma to_dict_lookup m (key : string) :
  to_dict m !! key =
    match hm_additional_data m !! key with
    | Some v => Some v
    | None =>
        if decide (key = "unit") then Some (hm_unit m)
        else if decide (key = "type") then Some (hm_type m)
        else if decide (key = "timestamp") then Some (hm_timestamp m)
        else if decide (key = "value") then Some (hm_value m)
        else None
    end.
Proof.
  unfold to_dict. rewrite lookup_union.
  destruct (hm_additional_data m !! key) as [v|]; cbn.
  - by destruct (_ !! key).
  - rewrite (left_id None _).
    repeat (case_decide; [subst; by simplify_map_eq|]). by simplify_map_eq.
Qed.

Lemma additional_data_lookup data (key : string) :
  foldl (fun d key => delete key d) data ["value"; "timestamp"; "type"; "unit"] !! key =
    if decide (key ∈ field_keys) then None else data !! key.
Proof.
  cbn [foldl]. unfold field_keys.
  destruct (decide (key ∈ ["value"; "timestamp"; "type"; "unit"])) as [Hin|Hout].
  - rewrite !elem_of_cons, elem_of_nil in Hin.
    destruct Hin as [->|[->|[->|[->|[]]]]]; by simplify_map_eq.
  - rewrite !not_elem_of_cons in Hout. destruct Hout as (? & ? & ? & ? & _).
    by rewrite !lookup_delete_ne.
Qed.

Lemma from_dict_to_dict_run m :
  from_dict (to_dict m) =
    Return {| hm_value := default (hm_value m) (hm_additional_data m !! "value");
              hm_timestamp := default (hm_timestamp m) (hm_additional_data m !! "timestamp");
              hm_type := default (hm_type m) (hm_additional_data m !! "type");
              hm_unit := default (hm_unit m) (hm_additional_data m !! "unit");
              hm_additional_data :=
                foldl (fun d key => delete key d) (to_dict m)
                  ["value"; "timestamp"; "type"; "unit"] |}.
Proof.
  unfold from_dict, getitem, HealthMetric_init. rewrite !to_dict_lookup.
  repeat (destruct (hm_additional_data m !! _)); reflexivity.
Qed.

(** X5 — [from_dict(to_dict(m))].  The metric comes back exactly when its
    additional data uses none of the keys 'value', 'timestamp', 'type',
    'unit'.  An additional entry under such a key replaces the field: with
    an additional 'value', the metric that comes back has that value, and
    the entry is gone from its additional data. *)
Theorem X5_health_metric_round_trip :
  forall m,
    (from_dict (to_dict m) = Return m <->
     forall key, key ∈ field_keys -> hm_additional_data m !! key = None)
    /\
    (forall v, hm_additional_data m !! "value" = Some v ->
       exists m', from_dict (to_dict m) = Return m' /\ hm_value m' = v /\
                  hm_additional_data m' !! "value" = None).
Proof.
  intros m. rewrite from_dict_to_dict_run. split; [split|].
  - intros Hback key Hkey. injection Hback as Hback.
    apply (f_equal hm_additional_data) in Hback. cbn [hm_additional_data] in Hback.
    rewrite <- Hback. etrans; [apply (additional_data_lookup (to_dict m) key)|].
    by case_decide.
  - intros Hfree.
    assert (Hextra : foldl (fun d key => delete key d) (to_dict m)
                       ["value"; "timestamp"; "type"; "unit"] = hm_additional_data m).
    { apply map_eq. intros key.
      rewrite (additional_data_lookup _ key), to_dict_lookup.
      destruct (decide (key ∈ field_keys)) as [Hin|Hout]; [by rewrite Hfree|].
      destruct (hm_additional_data m !! key); [done|].
      unfold field_keys in Hout. rewrite !not_elem_of_cons in Hout.
      destruct Hout as (? & ? & ? & ? & _). by repeat (case_decide; [done|]). }
    rewrite Hextra, !Hfree by (unfold field_keys; set_solver). by destruct m.
  - intros v Hv. eexists. split; [reflexivity|]. cbn [hm_value hm_additional_data].
    rewrite Hv. split; [done|].
    rewrite additional_data_lookup. case_decide as Hin; [done|].
    exfalso. apply Hin. unfold field_keys. set_solver.
Qed.

(** X6 — [from_dict] on any dictionary.  If one of the four keys is
    missing, [KeyError] is raised for the first missing one in the order
    'value', 'timestamp', 'type', 'unit'; otherwise a metric is returned
    and [to_dict] of it is the dictionary itself. *)
Theorem X6_health_metric_from_dict :
  forall data,
    match first_missing data with
    | None => exists m, from_dict data = Return m /\ to_dict m = data
    | Some key => from_dict data = Raise (KeyError key)
    end.
Proof.
  intros data. unfold first_missing, field_keys, from_dict, getitem.
  rewrite !filter_cons, filter_nil.
  destruct (data !! "value") as [v|] eqn:Hv; [|by rewrite decide_True].
  rewrite decide_False by done.
  destruct (data !! "timestamp") as [t|] eqn:Ht; [|by rewrite decide_True].
  rewrite decide_False by done.
  destruct (data !! "type") as [ty|] eqn:Hty; [|by rewrite decide_True].
  rewrite decide_False by done.
  destruct (data !! "unit") as [u|] eqn:Hu; [|by rewrite decide_True].
  rewrite decide_False by done. cbn [head and_then].
  eexists. split; [reflexivity|].
  apply map_eq. intros key. rewrite to_dict_lookup. unfold HealthMetric_init.
  cbn [hm_additional_data hm_value hm_timestamp hm_type hm_unit from_option id].
  rewrite additional_data_lookup.
  destruct (decide (key ∈ field_keys)) as [Hin|Hout].
  - unfold field_keys in Hin. rewrite !elem_of_cons, elem_of_nil in Hin.
    destruct Hin as [->|[->|[->|[->|[]]]]]; by simplify_map_eq.
  - destruct (data !! key) eqn:Hkey; [done|].
    unfold field_keys in Hout. rewrite !not_elem_of_cons in Hout.
    destruct Hout as (? & ? & ? & ? & _). by repeat (case_decide; [done|]).
Qed.

End HealthMetricFacts.

Lemma X5_health_metric_round_trip_witness :
  exists m',
    from_dict (to_dict {| hm_value := 1; hm_timestamp := 2; hm_type := 3; hm_unit := 4;
                          hm_additional_data := {["value" := 5]} |}) = Return m' /\
    hm_value m' = 5 /\ hm_additional_data m' !! "value" = None.
Proof.
  apply (proj2 (X5_health_metric_round_trip
                  {| hm_value := 1; hm_timestamp := 2; hm_type := 3; hm_unit := 4;
                     hm_additional_data := {["value" := 5]} |})).
  reflexivity.
Defined.

(** ** Sorting by insertion: the order of the input does not matter *)

Section Insertion.

Context {A : Type} (le : A -> A -> bool).
Context (insert : A -> list A -> list A).
Hypothesis insert_nil : forall a, insert a [] = [a].
Hypothesis insert_cons :
  forall a x l, insert a (x :: l) = if le a x then a :: x :: l else x :: insert a l.
Hypothesis le_total : forall x y, le x y = true \/ le y x = true.
Hypothesis le_trans : forall x y z, le x y = true -> le y z = true -> le x z = true.

Lemma insert_permutation (a : A) (l : list A) : insert a l ≡ₚ a :: l.
Proof.
  induction l as [|x l IH]; [by rewrite insert_nil|].
  rewrite insert_cons. destruct (le a x); [done|].
  rewrite IH. apply Permutation_swap.
Qed.

Lemma insert_sorted (a : A) (l : list A) :
  StronglySorted (fun x y => le x y = true) l ->
  StronglySorted (fun x y => le x y = true) (insert a l).
Proof.
  induction 1 as [|x l Hl IH Hx]; [rewrite insert_nil; by repeat constructor|].
  rewrite insert_cons. destruct (le a x) eqn:Hax.
  - constructor; [by constructor|]. constructor; [done|].
    eapply Forall_impl; [exact Hx|]. cbn. intros y Hxy. by apply (le_trans a x y).
  - constructor; [done|]. rewrite insert_permutation. constructor; [|done].
    destruct (le_total a x); congruence.
Qed.

Lemma foldr_insert_permutation (l : list A) : foldr insert [] l ≡ₚ l.
Proof.
  induction l as [|a l IH]; [done|]. cbn. by rewrite insert_permutation, IH.
Qed.

Lemma foldr_insert_sorted (l : list A) :
  StronglySorted (fun x y => le x y = true) (foldr insert [] l).
Proof. induction l as [|a l IH]; [constructor|]. cbn. by apply insert_sorted. Qed.

(** The result depends on the elements only, as long as no two of them
    compare equal. *)
Lemma foldr_insert_unique (l1 l2 : list A) :
  l1 ≡ₚ l2 ->
  (forall x y, x ∈ l1 -> y ∈ l1 -> le x y = true -> le y x = true -> x = y) ->
  foldr insert [] l1 = foldr insert [] l2.
Proof.
  intros Hperm Hanti.
  apply (StronglySorted_unique_strong (fun x y => le x y = true));
    [|apply foldr_insert_sorted..|by rewrite !foldr_insert_permutation].
  intros x1 x2 Hx1 Hx2. rewrite foldr_insert_permutation in Hx1, Hx2.
  rewrite <- Hperm in Hx2. by apply Hanti.
Qed.

End Insertion.

Lemma sort_values_unique `{PyRuntime} (rows1 rows2 : list reading) :
  rows1 ≡ₚ rows2 ->
  NoDup ((fun r => instant (r_timestamp r)) <$> rows1) ->
  sort_values rows1 = sort_values rows2.
Proof.
  intros Hperm Hdistinct.
  apply chronological_unique; [| |apply sort_values_chronological..].
  - by rewrite !sort_values_permutation.
  - by rewrite sort_values_permutation.
Qed.

Lemma String_leb_trans (x y z : string) :
  String.leb x y = true -> String.leb y z = true -> String.leb x z = true.
Proof.
  unfold String.leb.
  destruct (String.compare x y) eqn:Hxy; [| |done]; intros _.
  - by apply String.compare_eq_iff in Hxy as ->.
  - destruct (String.compare y z) eqn:Hyz; [| |done]; intros _.
    + apply String.compare_eq_iff in Hyz as <-. by rewrite Hxy.
    + apply OrderedTypeEx.String_as_OT.cmp_lt in Hxy, Hyz.
      pose proof (OrderedTypeEx.String_as_OT.lt_trans _ _ _ Hxy Hyz) as Hxz.
      apply OrderedTypeEx.String_as_OT.cmp_lt in Hxz.
      unfold OrderedTypeEx.String_as_OT.cmp in Hxz. by rewrite Hxz.
Qed.

Lemma json_dumps_sorted_unique (data1 data2 : list (string * string)) :
  data1 ≡ₚ data2 -> NoDup data1.*1 ->
  json_dumps_sorted data1 = json_dumps_sorted data2.
Proof.
  intros Hperm Hdistinct. unfold json_dumps_sorted. do 4 f_equal.
  apply (foldr_insert_unique (fun a b => String.leb a.1 b.1)); try done.
  - intros x y. apply String.leb_total.
  - intros x y z. apply String_leb_trans.
  - intros x y Hx Hy Hxy Hyx.
    apply (NoDup_fmap_elem_of _ _ _ _ Hdistinct Hx Hy). by apply String.leb_antisym.
Qed.

(** ** [DataAnalyzer] *)

(** X7 — [analyze_blood_pressure_trend] sorts before it averages: two
    series with the same readings in any order, no two readings sharing a
    timestamp, get the same answer (the same trend, magnitude and text, or
    the same exception). *)
Theorem X7_bp_trend_is_order_independent :
  forall (rt : PyRuntime) (a b : pyseq),
    items a ≡ₚ items b ->
    NoDup ((fun r => instant (r_timestamp r)) <$> items a) ->
    analyze_blood_pressure_trend a = analyze_blood_pressure_trend b.
Proof.
  intros rt a b Hperm Hdistinct. unfold analyze_blood_pressure_trend.
  rewrite (sort_values_unique _ _ Hperm Hdistinct).
  apply Permutation_length in Hperm.
  by destruct (items a), (items b).
Qed.

Lemma X7_bp_trend_is_order_independent_witness :
  @analyze_blood_pressure_trend sample_runtime (PyList (rev six_pressures)) =
  @analyze_blood_pressure_trend sample_runtime (PyList six_pressures).
Proof.
  apply X7_bp_trend_is_order_independent.
  - cbn [items]. symmetry. apply Permutation_rev.
  - apply (bool_decide_unpack _). vm_compute. reflexivity.
Defined.

(** X8 — the trend that [analyze_blood_pressure_trend] returns is
    determined by the magnitude it reports.  The magnitude is never
    negative; with fewer than two readings the trend is 'neutral' and the
    magnitude 0; with two readings or more the trend is 'concerning'
    exactly when the magnitude exceeds 10, 'notable' exactly when it is
    above 5 and at most 10, and 'stable' exactly when it is at most 5. *)
Theorem X8_bp_trend_follows_magnitude :
  forall (rt : PyRuntime) (bp_data : pyseq) (t : HealthTrend),
    analyze_blood_pressure_trend bp_data = Return t ->
    (0 <= change_percentage t)%Q /\
    ((length (items bp_data) < 2)%nat ->
       trend t = "neutral" /\ change_percentage t = 0%Q) /\
    ((2 <= length (items bp_data))%nat ->
       (trend t = "concerning" <-> (10 < change_percentage t)%Q) /\
       (trend t = "notable" <->
          (5 < change_percentage t)%Q /\ (change_percentage t <= 10)%Q) /\
       (trend t = "stable" <-> (change_percentage t <= 5)%Q)).
Proof.
  intros rt bp_data t. unfold analyze_blood_pressure_trend.
  rewrite sort_values_length.
  destruct (items bp_data) as [|r [|r' rest]] eqn:Hitems.
  - intros [= <-]. cbn. repeat split; intros; first [done | lia | lra].
  - change (Z.of_nat (length [r]) <? 2) with true.
    intros [= <-]. cbn. repeat split; intros; first [done | lia | lra].
  - rewrite <- Hitems. replace (Z.of_nat (length (items bp_data)) <? 2) with false
      by (symmetry; apply Z.ltb_ge; rewrite Hitems; cbn [length]; lia).
    cbv iota.
    destruct (traverse systolic_of _) as [systolic_data|]; cbn [and_then]; [|done].
    destruct (traverse diastolic_of _) as [diastolic_data|]; cbn [and_then]; [|done].
    intros <-%Return_inj. cbn [trend change_percentage]. unfold bp_trend_of, py_max.
    set (d := Qabs _). set (s := Qabs _).
    assert (Hs : (0 <= s)%Q) by apply Qabs_nonneg.
    assert (Hd : (0 <= d)%Q) by apply Qabs_nonneg.
    clearbody s d.
    split; [destruct (Qgtb_spec d s); cbv iota; lra|].
    split; [rewrite Hitems; cbn [length]; lia|]. intros _.
    destruct (Qgtb_spec s 10), (Qgtb_spec d 10), (Qgtb_spec s 5), (Qgtb_spec d 5),
      (Qgtb_spec d s); cbn;
      repeat split; intros; repeat match goal with H : _ /\ _ |- _ => destruct H end;
      first [done | lra].
Qed.

Lemma X8_bp_trend_follows_magnitude_witness :
  exists t,
    @analyze_blood_pressure_trend sample_runtime (PyList six_pressures) = Return t /\
    (0 <= change_percentage t)%Q /\
    (trend t = "concerning" <-> (10 < change_percentage t)%Q).
Proof.
  eexists. split; [reflexivity|].
  destruct (X8_bp_trend_follows_magnitude sample_runtime (PyList six_pressures) _ eq_refl)
    as (Hpos & _ & Hlabel).
  split; [exact Hpos|]. apply Hlabel. cbn. lia.
Defined.

(** X9 — [analyze_weight_trend] never returns a computed trend.  Under
    [@lru_cache] a list is rejected and so is a tuple of records (its items
    are dictionaries): the only argument on which the call returns is the
    empty tuple, and the answer is then 'neutral', 'Insufficient data'. *)
Theorem X9_weight_trend_only_for_the_empty_tuple :
  forall (rt : PyRuntime) (weight_data : pyseq) (t : HealthTrend),
    analyze_weight_trend weight_data = Return t ->
    weight_data = PyTuple [] /\
    t = {| metric_type := "weight"; trend := "neutral"; change_percentage := 0;
           analysis := "Insufficient data" |}.
Proof.
  intros rt [series|[|r series]] t; unfold analyze_weight_trend, lru_cache; cbn; try done.
  by intros [= <-].
Qed.

Lemma X9_weight_trend_only_for_the_empty_tuple_witness :
  @analyze_weight_trend sample_runtime (PyTuple []) =
    Return {| metric_type := "weight"; trend := "neutral"; change_percentage := 0;
              analysis := "Insufficient data" |} /\
  PyTuple [] = PyTuple [].
Proof.
  split; [reflexivity|].
  apply (X9_weight_trend_only_for_the_empty_tuple sample_runtime (PyTuple []) _ eq_refl).
Defined.

(** ** [CacheManager] *)

(** X10 — [_generate_key] does not depend on the order in which the
    descriptor was filled: [json.dumps(..., sort_keys=True)] prints two
    descriptors with the same entries (distinct keys, any order) alike, so
    their keys are equal. *)
Theorem X10_cache_key_ignores_insertion_order :
  forall (rt : PyRuntime) (data1 data2 : list (string * string)),
    data1 ≡ₚ data2 -> NoDup data1.*1 ->
    _generate_key data1 = _generate_key data2.
Proof.
  intros rt data1 data2 Hperm Hdistinct. unfold _generate_key.
  by rewrite (json_dumps_sorted_unique data1 data2).
Qed.

Lemma X10_cache_key_ignores_insertion_order_witness :
  @_generate_key sample_runtime [("function", "omron_bp"); ("date", "2024-05-01")] =
  @_generate_key sample_runtime [("date", "2024-05-01"); ("function", "omron_bp")].
Proof.
  apply X10_cache_key_ignores_insertion_order.
  - apply Permutation_swap.
  - apply (bool_decide_unpack _). vm_compute. reflexivity.
Defined.

(** X11 — the local tier, without a Redis client.  [cache_data] returns
    normally; from then on [get_cached_data] for the same descriptor
    returns the value in every state that has the same local cache,
    whatever the time that has passed and whatever [expire_seconds] was
    (the local tier has no expiry); and the lookup of a descriptor with
    another key is answered as before the write. *)
Theorem X11_local_cache_round_trip :
  forall (rt : PyRuntime) (key_data : list (string * string)) (value : list reading)
         (expire_seconds : Z) (w : world),
    redis_client w = None ->
    exists w',
      cache_data key_data value expire_seconds w = (Return tt, w') /\
      (forall w'',
         redis_client w'' = None -> local_cache w'' = local_cache w' ->
         get_cached_data key_data w'' = (Return (Some value), w'')) /\
      (forall key_data',
         _generate_key key_data' <> _generate_key key_data ->
         (get_cached_data key_data' w').1 = (get_cached_data key_data' w).1).
Proof.
  intros rt key_data value expire_seconds w Hnone.
  destruct (cache_data_spec key_data value expire_seconds w) as (Hrun & _).
  eexists. split; [by apply Hrun|]. split.
  - intros w'' Hnone'' Hlocal.
    unfold get_cached_data, bind, gets, ret. rewrite Hnone'', Hlocal.
    destruct w. cbn. by rewrite lookup_insert_eq.
  - intros key_data' Hother.
    unfold get_cached_data, bind, gets, ret. destruct w. cbn in *. rewrite Hnone. cbn.
    by rewrite lookup_insert_ne.
Qed.

Lemma X11_local_cache_round_trip_witness :
  exists w',
    @cache_data sample_runtime (@cache_key sample_runtime "omron_hr" 0) two_heart_rates 3600
      fresh_process = (Return tt, w') /\
    @get_cached_data sample_runtime (@cache_key sample_runtime "omron_hr" 0)
      (set_clock (fun t => t + 7200 * second) w') =
      (Return (Some two_heart_rates), set_clock (fun t => t + 7200 * second) w').
Proof.
  destruct (X11_local_cache_round_trip sample_runtime (@cache_key sample_runtime "omron_hr" 0)
              two_heart_rates 3600 fresh_process eq_refl) as (w' & Hrun & Hget & _).
  exists w'. split; [exact Hrun|].
  apply Hget.
  - injection Hrun as <-. reflexivity.
  - by destruct w'.
Defined.

(** ** [HealthMetricsAggregator] and [NotificationManager] *)

Lemma py_min_cases (a b : Q) :
  (py_min a b = a \/ py_min a b = b) /\ (py_min a b <= a)%Q /\ (py_min a b <= b)%Q.
Proof. unfold py_min. destruct (Qltb_spec b a); repeat split; auto; lra. Qed.

Lemma py_max_bounds (a b : Q) :
  (py_max a b = a \/ py_max a b = b) /\ (a <= py_max a b)%Q /\ (b <= py_max a b)%Q.
Proof. unfold py_max. destruct (Qgtb_spec b a); repeat split; auto; lra. Qed.

Lemma py_list_min_spec (vs : list Q) (v : Q) :
  py_list_min v vs ∈ v :: vs /\ Forall (fun x => (py_list_min v vs <= x)%Q) (v :: vs).
Proof.
  unfold py_list_min. revert v. induction vs as [|x vs IH]; intros v.
  - cbn. split; [left|]. repeat constructor. lra.
  - cbn [foldl]. destruct (IH (py_min v x)) as [Hin Hall].
    destruct (py_min_cases v x) as ([Hm|Hm] & Hle1 & Hle2).
    + rewrite Hm in *. split; [revert Hin; rewrite !elem_of_cons; tauto|].
      apply Forall_cons_1 in Hall as [Hv Hall]. constructor; [done|].
      constructor; [|done]. lra.
    + rewrite Hm in *. split; [revert Hin; rewrite !elem_of_cons; tauto|].
      apply Forall_cons_1 in Hall as [Hx Hall]. constructor; [|by constructor].
      lra.
Qed.

Lemma py_list_max_spec (vs : list Q) (v : Q) :
  py_list_max v vs ∈ v :: vs /\ Forall (fun x => (x <= py_list_max v vs)%Q) (v :: vs).
Proof.
  unfold py_list_max. revert v. induction vs as [|x vs IH]; intros v.
  - cbn. split; [left|]. repeat constructor. lra.
  - cbn [foldl]. destruct (IH (py_max v x)) as [Hin Hall].
    destruct (py_max_bounds v x) as ([Hm|Hm] & Hle1 & Hle2).
    + rewrite Hm in *. split; [revert Hin; rewrite !elem_of_cons; tauto|].
      apply Forall_cons_1 in Hall as [Hv Hall]. constructor; [done|].
      constructor; [|done]. lra.
    + rewrite Hm in *. split; [revert Hin; rewrite !elem_of_cons; tauto|].
      apply Forall_cons_1 in Hall as [Hx Hall]. constructor; [|by constructor].
      lra.
Qed.

Lemma traverse_number_Return (values : list mvalue) (numbers : list Q) :
  traverse number values = Return numbers -> values = map Num numbers.
Proof.
  revert numbers. induction values as [|v values IH]; intros numbers; cbn.
  - by intros <-%Return_inj.
  - intros Hrun. apply and_then_Return in Hrun as (x & Hx & Hrun).
    apply and_then_Return in Hrun as (xs & Hxs & Hrun).
    apply Return_inj in Hrun as <-. cbn. rewrite <- (IH xs Hxs).
    destruct v; cbn in Hx; try done. by apply Return_inj in Hx as ->.
Qed.

(** What a returned summary holds under each key. *)
Lemma generate_health_summary_entries `{PyRuntime} now weight_data bp_data hr_data
    sleep_data (s : summary) :
  generate_health_summary now weight_data bp_data hr_data sleep_data = Return s ->
  exists weight_trend bp_trend,
    analyze_weight_trend weight_data = Return weight_trend /\
    analyze_blood_pressure_trend bp_data = Return bp_trend /\
    s_metrics s !! "blood_pressure" =
      Some (TrendEntry (trend bp_trend) (analysis bp_trend)
              (r_value <$> last (items bp_data))) /\
    match items hr_data with
    | [] => s_metrics s !! "heart_rate" = None
    | [r] =>
        s_metrics s !! "heart_rate" =
          Some (HeartRateEntry (r_value r) 0 (r_value r) (r_value r))
    | _ :: _ :: _ =>
        exists latest v vs,
          last (items hr_data) = Some latest /\
          traverse number (map r_value (items hr_data)) = Return (v :: vs) /\
          s_metrics s !! "heart_rate" =
            Some (HeartRateEntry (r_value latest) (np_std (v :: vs))
                    (Num (py_list_min v vs)) (Num (py_list_max v vs)))
    end /\
    match last (items sleep_data) with
    | None => s_metrics s !! "sleep" = None
    | Some latest =>
        exists durations,
          traverse sleep_duration (items sleep_data) = Return durations /\
          s_metrics s !! "sleep" =
            Some (SleepEntry (np_mean durations) (r_value latest) (np_std durations))
    end.
Proof.
  unfold generate_health_summary. intros Hrun.
  apply and_then_Return in Hrun as (weight_trend & Hweight & Hrun).
  apply and_then_Return in Hrun as (bp_trend & Hbp & Hrun).
  apply and_then_Return in Hrun as (m1 & Hhr & Hrun).
  apply and_then_Return in Hrun as (m2 & Hsleep & Hrun).
  apply Return_inj in Hrun as <-. cbn [s_metrics].
  exists weight_trend, bp_trend. split; [done|]. split; [done|].
  assert (Hm1 : m1 !! "blood_pressure" =
                  Some (TrendEntry (trend bp_trend) (analysis bp_trend)
                          (r_value <$> last (items bp_data))) /\
                m1 !! "sleep" = None /\
                match items hr_data with
                | [] => m1 !! "heart_rate" = None
                | [r] =>
                    m1 !! "heart_rate" =
                      Some (HeartRateEntry (r_value r) 0 (r_value r) (r_value r))
                | _ :: _ :: _ =>
                    exists latest v vs,
                      last (items hr_data) = Some latest /\
                      traverse number (map r_value (items hr_data)) = Return (v :: vs) /\
                      m1 !! "heart_rate" =
                        Some (HeartRateEntry (r_value latest) (np_std (v :: vs))
                                (Num (py_list_min v vs)) (Num (py_list_max v vs)))
                end).
  { destruct (items hr_data) as [|r [|r2 rs]] eqn:Hitems.
    - apply Return_inj in Hhr as <-. by simplify_map_eq.
    - cbn in Hhr. apply Return_inj in Hhr as <-. by simplify_map_eq.
    - destruct (last_is_Some (r :: r2 :: rs)) as [_ [latest Hlast]]; [done|].
      rewrite Hlast in Hhr. cbn [map] in Hhr.
      apply and_then_Return in Hhr as (numbers & Hnumbers & Hhr).
      destruct numbers as [|v vs].
      + exfalso. apply traverse_number_Return in Hnumbers. done.
      + apply Return_inj in Hhr as <-. split; [by simplify_map_eq|].
        split; [by simplify_map_eq|]. exists latest, v, vs.
        split; [done|]. split; [done|]. by simplify_map_eq. }
  destruct Hm1 as (Hbp1 & Hsleep1 & Hhr1).
  destruct (last (items sleep_data)) as [latest|] eqn:Hlast.
  - apply and_then_Return in Hsleep as (durations & Hdurations & Hsleep).
    apply Return_inj in Hsleep as <-.
    split; [by rewrite lookup_insert_ne|]. split.
    + destruct (items hr_data) as [|r [|r2 rs]].
      * by rewrite lookup_insert_ne.
      * by rewrite lookup_insert_ne.
      * destruct Hhr1 as (l & v & vs & ? & ? & ?). exists l, v, vs.
        by rewrite lookup_insert_ne.
    + exists durations. split; [done|]. by rewrite lookup_insert_eq.
  - apply Return_inj in Hsleep as <-. done.
Qed.

(** X12 — the heart-rate entry of a summary.  When the aggregator returns
    and the heart-rate series is not empty, the entry holds the value of
    the last record as 'latest', and 'min' and 'max' are values of the
    series.  With a single record, whatever its value, the variability is
    0 and 'min', 'max' and 'latest' are that one value.  With two records
    or more every value is a number (the standard deviation has been
    computed), and 'min' and 'max' bound every value of the series. *)
Theorem X12_heart_rate_entry_bounds :
  forall (rt : PyRuntime) (now : Z) (weight_data bp_data hr_data sleep_data : pyseq)
         (s : summary),
    generate_health_summary now weight_data bp_data hr_data sleep_data = Return s ->
    items hr_data <> [] ->
    exists latest variability lowest highest,
      last (items hr_data) = Some latest /\
      s_metrics s !! "heart_rate" =
        Some (HeartRateEntry (r_value latest) variability lowest highest) /\
      lowest ∈ map r_value (items hr_data) /\
      highest ∈ map r_value (items hr_data) /\
      (length (items hr_data) = 1%nat ->
         variability = 0%Q /\ lowest = r_value latest /\ highest = r_value latest) /\
      ((2 <= length (items hr_data))%nat ->
         exists values lo hi,
           map r_value (items hr_data) = map Num values /\
           variability = np_std values /\
           lowest = Num lo /\ highest = Num hi /\
           Forall (fun v => (lo <= v)%Q /\ (v <= hi)%Q) values).
Proof.
  intros rt now weight_data bp_data hr_data sleep_data s Hrun Hsome.
  destruct (generate_health_summary_entries _ _ _ _ _ _ Hrun)
    as (_ & _ & _ & _ & _ & Hhr & _).
  destruct (items hr_data) as [|r [|r2 rs]] eqn:Hitems; [done| |].
  - exists r, 0%Q, (r_value r), (r_value r). split; [done|]. split; [done|].
    split; [cbn; left|]. split; [cbn; left|]. split; [done|]. cbn. lia.
  - destruct Hhr as (latest & v & vs & Hlast & Hvalues & Hentry).
    destruct (py_list_min_spec vs v) as [Hmin_in Hmin].
    destruct (py_list_max_spec vs v) as [Hmax_in Hmax].
    pose proof (traverse_number_Return _ _ Hvalues) as Hnum.
    exists latest, (np_std (v :: vs)), (Num (py_list_min v vs)), (Num (py_list_max v vs)).
    split; [done|]. split; [done|].
    split; [rewrite Hnum; by apply list_elem_of_fmap_2|].
    split; [rewrite Hnum; by apply list_elem_of_fmap_2|].
    split; [cbn; lia|]. intros _.
    exists (v :: vs), (py_list_min v vs), (py_list_max v vs).
    split; [done|]. split; [done|]. split; [done|]. split; [done|].
    rewrite Forall_forall in *. intros x Hx. split; [by apply Hmin | by apply Hmax].
Qed.

Lemma X12_heart_rate_entry_bounds_witness :
  exists s latest variability lowest highest,
    @generate_health_summary sample_runtime 0 (PyTuple []) (PyList six_pressures)
      (PyList two_heart_rates) (PyList []) = Return s /\
    s_metrics s !! "heart_rate" =
      Some (HeartRateEntry (r_value latest) variability (Num lowest) (Num highest)) /\
    Forall (fun v => (lowest <= v)%Q /\ (v <= highest)%Q) [72; 75]%Q.
Proof.
  destruct (X12_heart_rate_entry_bounds sample_runtime 0 (PyTuple []) (PyList six_pressures)
              (PyList two_heart_rates) (PyList []) _ eq_refl)
    as (latest & variability & lowest & highest & _ & Hentry & _ & _ & _ & Hmany).
  - discriminate.
  - destruct Hmany as (values & lo & hi & Hvalues & _ & -> & -> & Hall); [cbn; lia|].
    eexists _, latest, variability, lo, hi.
    split; [reflexivity|]. split; [exact Hentry|].
    cbn in Hvalues. destruct values as [|v1 [|v2 [|]]]; try discriminate Hvalues.
    by injection Hvalues as <- <-.
Defined.

Lemma traverse_sleep_duration_raises (rows : list reading) :
  Exists (fun r => r_start r = None \/ r_end r = None) rows ->
  traverse sleep_duration rows = Raise (KeyError "start") \/
  traverse sleep_duration rows = Raise (KeyError "end").
Proof.
  induction rows as [|r rows IH]; [by intros ?%Exists_nil|].
  intros Hbad. cbn [traverse]. unfold sleep_duration at 1 3.
  destruct (r_start r) as [t0|] eqn:Hstart; cbn [field and_then]; [|by left].
  destruct (r_end r) as [t1|] eqn:Hend; cbn [field and_then]; [|by right].
  apply Exists_cons in Hbad as [[?|?]|Hbad]; [congruence..|].
  destruct (IH Hbad) as [-> | ->]; [by left | by right].
Qed.

(** X13 — a sleep record without its interval is not skipped.  When the
    two trend analyses return and the heart-rate values are numbers, a
    sleep series with a record that lacks 'start' or 'end' makes
    [generate_health_summary] raise [KeyError] for that key: no summary is
    returned. *)
Theorem X13_sleep_record_without_interval :
  forall (rt : PyRuntime) (now : Z) (weight_data bp_data hr_data sleep_data : pyseq)
         (weight_trend bp_trend : HealthTrend),
    analyze_weight_trend weight_data = Return weight_trend ->
    analyze_blood_pressure_trend bp_data = Return bp_trend ->
    Forall (fun r => exists q, r_value r = Num q) (items hr_data) ->
    Exists (fun r => r_start r = None \/ r_end r = None) (items sleep_data) ->
    generate_health_summary now weight_data bp_data hr_data sleep_data =
      Raise (KeyError "start") \/
    generate_health_summary now weight_data bp_data hr_data sleep_data =
      Raise (KeyError "end").
Proof.
  intros rt now weight_data bp_data hr_data sleep_data weight_trend bp_trend
         Hweight Hbp Hhr Hbad.
  unfold generate_health_summary. rewrite Hweight, Hbp. cbn [and_then].
  destruct (traverse_number_total _ Hhr) as (hr_values & Hvalues & Hlen).
  assert (Hlast : is_Some (last (items sleep_data))).
  { apply last_is_Some. intros Hnil. rewrite Hnil in Hbad. by apply Exists_nil in Hbad. }
  destruct Hlast as [latest ->].
  destruct (traverse_sleep_duration_raises _ Hbad) as [-> | ->];
    [left | right];
    (destruct (items hr_data) as [|h [|h2 hs]]; [done|done|];
     destruct (last (h :: h2 :: hs)); [|done];
     cbn [map] in *; rewrite Hvalues; by destruct hr_values).
Qed.

Lemma X13_sleep_record_without_interval_witness :
  @generate_health_summary sample_runtime 0 (PyTuple []) (PyList [])
    (PyList []) (PyList [hr_metric 1 72]) = Raise (KeyError "start").
Proof.
  destruct (X13_sleep_record_without_interval sample_runtime 0 (PyTuple []) (PyList [])
              (PyList []) (PyList [hr_metric 1 72])
              {| metric_type := "weight"; trend := "neutral"; change_percentage := 0;
                 analysis := "Insufficient data" |}
              {| metric_type := "blood_pressure"; trend := "neutral";
                 change_percentage := 0; analysis := "Insufficient data" |})
    as [Hrun | Hrun].
  - reflexivity.
  - reflexivity.
  - constructor.
  - left. by left.
  - exact Hrun.
  - exfalso. vm_compute in Hrun. discriminate Hrun.
Defined.

(** X14 — [check_health_metrics] on a summary that the aggregator
    returned.  When the heart-rate series is a single record whose value
    is not a number, the aggregator has stored that value as 'max' and the
    check raises [TypeError] at [hr['max'] > 100].  In every other case
    the check returns: the alerts start with the blood-pressure alert,
    present exactly when the blood-pressure trend is 'concerning' and
    carrying its analysis text; at most three alerts follow (one for the
    heart rate, two for sleep), and none when the heart-rate and sleep
    series are both empty. *)
Theorem X14_alerts_of_a_summary :
  forall (rt : PyRuntime) (now : Z) (weight_data bp_data hr_data sleep_data : pyseq)
         (s : summary),
    generate_health_summary now weight_data bp_data hr_data sleep_data = Return s ->
    (forall r, items hr_data = [r] -> (forall q, r_value r <> Num q) ->
       exists msg, check_health_metrics s = Raise (TypeError msg))
    /\
    ((forall r, items hr_data = [r] -> exists q, r_value r = Num q) ->
     exists bp_trend others,
       analyze_blood_pressure_trend bp_data = Return bp_trend /\
       check_health_metrics s =
         Return ((if decide (trend bp_trend = "concerning")
                  then ["⚠️ Concerning blood pressure trend: " +:+ analysis bp_trend]
                  else []) ++ others) /\
       (length others <= 3)%nat /\
       (items hr_data = [] -> items sleep_data = [] -> others = [])).
Proof.
  intros rt now weight_data bp_data hr_data sleep_data s Hrun.
  destruct (generate_health_summary_entries _ _ _ _ _ _ Hrun)
    as (weight_trend & bp_trend & _ & Hbp & Hbp_entry & Hhr & Hsleep).
  split.
  - intros r Hitems Hvalue. rewrite Hitems in Hhr.
    unfold check_health_metrics. rewrite Hhr. cbn [hr_alerts].
    destruct (r_value r) as [q| |]; [by destruct (Hvalue q)|by eexists..].
  - intros Hsingle.
    assert (Hhr_alerts : exists hr,
              hr_alerts (s_metrics s !! "heart_rate") = Return hr /\
              (length hr <= 1)%nat /\ (items hr_data = [] -> hr = [])).
    { destruct (items hr_data) as [|r [|r2 rs]] eqn:Hitems.
      - rewrite Hhr. exists []. split; [done|]. split; [cbn; lia | done].
      - destruct (Hsingle r eq_refl) as [q Hq]. rewrite Hhr, Hq. cbn [hr_alerts].
        destruct (Qgtb _ 100); [|destruct (Qgtb _ 20)];
          (eexists; split; [reflexivity|]; split; [cbn; lia | done]).
      - destruct Hhr as (latest & v & vs & _ & _ & ->). cbn [hr_alerts].
        destruct (Qgtb _ 100); [|destruct (Qgtb _ 20)];
          (eexists; split; [reflexivity|]; split; [cbn; lia | done]). }
    assert (Hsleep_alerts : exists sleep,
              sleep_alerts (s_metrics s !! "sleep") = Return sleep /\
              (length sleep <= 2)%nat /\ (items sleep_data = [] -> sleep = [])).
    { destruct (last (items sleep_data)) as [sleep_latest|] eqn:Hsleep_last.
      - destruct Hsleep as (durations & _ & ->). cbn [sleep_alerts].
        eexists. split; [reflexivity|]. split.
        + destruct (Qltb _ 6), (Qgtb _ 2); cbn; lia.
        + intros Hnil. by rewrite Hnil in Hsleep_last.
      - rewrite Hsleep. exists []. split; [done|]. split; [cbn; lia | done]. }
    destruct Hhr_alerts as (hr & Hhr_run & Hhr_len & Hhr_nil).
    destruct Hsleep_alerts as (sleep & Hsleep_run & Hsleep_len & Hsleep_nil).
    exists bp_trend, (hr ++ sleep). split; [done|].
    unfold check_health_metrics. rewrite Hbp_entry, Hhr_run, Hsleep_run.
    cbn [bp_alerts and_then]. split; [done|]. split.
    + rewrite length_app. lia.
    + intros Hno_hr Hno_sleep. by rewrite Hhr_nil, Hsleep_nil.
Qed.

Lemma X14_alerts_of_a_summary_witness :
  (exists s bp_trend,
     @generate_health_summary sample_runtime 0 (PyTuple []) (PyList six_pressures)
       (PyList []) (PyList []) = Return s /\
     @check_health_metrics sample_runtime s =
       Return ((if decide (trend bp_trend = "concerning")
                then ["⚠️ Concerning blood pressure trend: " +:+ analysis bp_trend]
                else []) ++ []))
  /\
  (exists s msg,
     @generate_health_summary sample_runtime 0 (PyTuple []) (PyList [])
       (PyList [unreadable_heart_rate]) (PyList []) = Return s /\
     @check_health_metrics sample_runtime s = Raise (TypeError msg)).
Proof.
  split.
  - destruct (proj2 (X14_alerts_of_a_summary sample_runtime 0 (PyTuple [])
                       (PyList six_pressures) (PyList []) (PyList []) _ eq_refl))
      as (bp_trend & others & _ & Hcheck & _ & Hnone).
    + intros r Hr. discriminate Hr.
    + rewrite (Hnone eq_refl eq_refl) in Hcheck.
      eexists _, bp_trend. split; [reflexivity | exact Hcheck].
  - destruct (proj1 (X14_alerts_of_a_summary sample_runtime 0 (PyTuple []) (PyList [])
                       (PyList [unreadable_heart_rate]) (PyList []) _ eq_refl)
                unreadable_heart_rate eq_refl) as [msg Hcheck].
    + intros q Hq. discriminate Hq.
    + eexists _, msg. split; [reflexivity | exact Hcheck].
Defined.

(** ** [_safe_sync]: what it touches, and two ways to an empty result *)

#[export] Instance only_source_touched_preorder s : PreOrder (only_source_touched s).
Proof.
  split.
  - by intros w.
  - intros w1 w2 w3 (R1 & L1 & S1 & M1 & C1 & A1 & D1 & E1) (R2 & L2 & S2 & M2 & C2 & A2 & D2 & E2).
    repeat split; try congruence.
    + intros s' Hs'. by rewrite R2, R1.
    + intros l Hl. by rewrite L2, L1.
    + intros key Hkey. by rewrite S2, S1.
Qed.

Lemma fetch_of_touches_its_source vendor (s : source) :
  preserves (only_source_touched s) (fetch_of vendor s).
Proof.
  assert (Hreq : preserves (only_source_touched s) (request vendor s)).
  { intros []. unfold request. cbn. repeat split; try done.
    intros s' Hs'. cbn. by rewrite fn_update_ne. }
  assert (Hlim : forall A (func : M world A),
            preserves (only_source_touched s) func ->
            preserves (only_source_touched s) (rate_limited (limiter_of s) func)).
  { intros A func Hfunc. unfold rate_limited. kept; try done.
    all: intros []; repeat split; try done.
    all: intros l Hl; cbn; by rewrite fn_update_ne. }
  destruct s; cbn [fetch_of];
    unfold get_weight_data, get_sleep_data, get_blood_pressure_data,
           get_heart_rate_data, _make_request; kept;
    by first [ apply (Hlim _ _ Hreq) ].
Qed.

Lemma _safe_sync_touches_its_source `{PyRuntime} vendor (s : source) :
  preserves (only_source_touched s) (_safe_sync (fetch_of vendor s) (data_type s)).
Proof.
  unfold _safe_sync, get_cached_data, cache_data. kept.
  all: try apply fetch_of_touches_its_source.
  all: intros []; repeat split; try done.
  all: intros key Hkey; cbn; by rewrite lookup_insert_ne.
Qed.

(** X15 — a [_safe_sync] of one source leaves the rest of the program
    alone: no request is sent to another source, no limiter but its own is
    touched, no status entry but its own is written, and the latest
    metrics, the cached summary, the active alerts, the messages delivered
    and the calendar are as they were, whether the fetch succeeds, fails or
    is skipped. *)
Theorem X15_safe_sync_touches_its_source_only :
  forall (rt : PyRuntime) vendor (s : source) (w : world),
    only_source_touched s w (_safe_sync (fetch_of vendor s) (data_type s) w).2.
Proof. intros rt vendor s w. apply _safe_sync_touches_its_source. Qed.

(** X16 — a cache lookup that raises.  The lookup is inside the [try] of
    [_safe_sync]: the exception is recorded as the error of the source,
    the call answers with the empty list, and the fetch function is not
    invoked (the state is the initial one but for the status entry). *)
Theorem X16_safe_sync_failed_lookup :
  forall (rt : PyRuntime) (fetch : M world (list reading)) (data_type : string)
         (w : world) (e : exn),
    (get_cached_data (cache_key data_type (clock w)) w).1 = Raise e ->
    _safe_sync fetch data_type w =
      (Return [],
       set_last_sync_status
         (insert data_type {| status := "error"; status_timestamp := clock w;
                              error := Some (exn_str e) |}) w).
Proof.
  intros rt fetch data_type w e Hlookup. unfold _safe_sync, try_except.
  rewrite bind_gets. cbv beta zeta. unfold bind at 1.
  fold (cache_key data_type (clock w)).
  pose proof (get_cached_data_state (cache_key data_type (clock w)) w) as Hstate.
  destruct (get_cached_data (cache_key data_type (clock w)) w) as [cached w0].
  cbn in Hlookup, Hstate. by subst.
Qed.

Lemma X16_safe_sync_failed_lookup_witness :
  (@_safe_sync sample_runtime (fetch_of weight_feed_down omron_hr) "omron_hr"
     (initial_world 0 (Some redis_down) true false)).1 = Return [] /\
  requests (@_safe_sync sample_runtime (fetch_of weight_feed_down omron_hr) "omron_hr"
              (initial_world 0 (Some redis_down) true false)).2 omron_hr = 0%nat.
Proof.
  rewrite (X16_safe_sync_failed_lookup sample_runtime (fetch_of weight_feed_down omron_hr)
             "omron_hr" (initial_world 0 (Some redis_down) true false)
             (ExternalError "Error connecting to redis")).
  - split; reflexivity.
  - reflexivity.
Defined.

(** X17 — with a Redis client, a fetch that succeeds is reported as failed
    when one of its records carries a [datetime] (the handlers build such
    records): [json.dumps] raises inside [cache_data], the status
    'success' just written is replaced by 'error' with the text of the
    [TypeError], the call answers with the empty list instead of the data,
    and nothing is written to the local cache. *)
Theorem X17_safe_sync_remote_tier_rejects_datetimes :
  forall (rt : PyRuntime) vendor (s : source) (w : world) (r : redis)
         (data : list reading),
    redis_client w = Some r ->
    (get_cached_data (cache_key (data_type s) (clock w)) w).1 = Return None \/
    (get_cached_data (cache_key (data_type s) (clock w)) w).1 = Return (Some []) ->
    (fetch_of vendor s w).1 = Return data ->
    forallb json_serializable data = false ->
    let wf := (fetch_of vendor s w).2 in
    _safe_sync (fetch_of vendor s) (data_type s) w =
      (Return [],
       set_last_sync_status
         (insert (data_type s)
            {| status := "error"; status_timestamp := clock wf;
               error := Some "Object of type datetime is not JSON serializable" |}) wf)
    /\ local_cache wf = local_cache w.
Proof.
  intros rt vendor s w r data Hredis Hmiss Hfetch Hdatetime wf.
  pose proof (fetch_of_keeps_cache vendor s w) as [Hlocal Hredis'].
  fold wf in Hlocal, Hredis'. split; [|done].
  unfold _safe_sync, try_except.
  rewrite bind_gets. cbv beta zeta. unfold bind at 1.
  fold (cache_key (data_type s) (clock w)).
  set (key_data := cache_key (data_type s) (clock w)) in *.
  pose proof (get_cached_data_state key_data w) as Hstate.
  destruct (get_cached_data key_data w) as [cached w0]. cbn in Hmiss, Hstate. subst w0.
  assert (Hrun : fetch_of vendor s w = (Return data, wf)).
  { subst wf. destruct (fetch_of vendor s w) as [res w1]. cbn in Hfetch. by subst res. }
  set (w1 := set_last_sync_status
               (insert (data_type s)
                  {| status := "success"; status_timestamp := clock wf; error := None |}) wf).
  assert (Hwrite : cache_data key_data data 3600 w1 =
                     (Raise (TypeError "Object of type datetime is not JSON serializable"),
                      w1)).
  { unfold cache_data, bind, gets, lift, json_dumps.
    replace (redis_client w1) with (Some r)
      by (subst w1; destruct wf; cbn in *; congruence).
    by rewrite Hdatetime. }
  assert (Hfinal : set_last_sync_status
                     (insert (data_type s)
                        {| status := "error"; status_timestamp := clock w1;
                           error := Some "Object of type datetime is not JSON serializable" |})
                     w1 =
                   set_last_sync_status
                     (insert (data_type s)
                        {| status := "error"; status_timestamp := clock wf;
                           error := Some "Object of type datetime is not JSON serializable" |})
                     wf).
  { subst w1. destruct wf. cbn. by rewrite insert_insert_eq. }
  destruct Hmiss as [-> | ->]; unfold bind, modify, ret; rewrite Hrun;
    fold w1; rewrite Hwrite; cbn [exn_str]; by rewrite Hfinal.
Qed.

Lemma X17_safe_sync_remote_tier_rejects_datetimes_witness :
  (@_safe_sync sample_runtime (fetch_of weight_feed_down omron_hr) (data_type omron_hr)
     (initial_world 0 (Some redis_up) true false)).1 = Return [].
Proof.
  rewrite (proj1 (X17_safe_sync_remote_tier_rejects_datetimes sample_runtime weight_feed_down
             omron_hr (initial_world 0 (Some redis_up) true false) redis_up two_heart_rates
             eq_refl (or_introl eq_refl) ltac:(vm_compute; reflexivity) eq_refl)).
  reflexivity.
Defined.

(** ** The handlers: requests to a source that is down *)

Section Down.

Context (vendor : source -> nat -> result (list reading)) (s : source).
Hypothesis down : forall n, exists e, vendor s n = Raise e.

Lemma spent_limits n d w w' : spent s n d w w' -> limits_positive w -> limits_positive w'.
Proof. intros (_ & _ & Hcpm & _) Hpos l. rewrite Hcpm. apply Hpos. Qed.

Lemma spent_sleep n d t w w' :
  0 <= t -> spent s n d w w' -> spent s n (d + t) w (time_sleep t w').
Proof.
  intros Ht (Hreq & Hother & Hcpm & Hclock). destruct w'; cbn in *.
  repeat split; try done. cbn. unfold second in *. lia.
Qed.

Lemma spent_trans n1 d1 n2 d2 w1 w2 w3 :
  spent s n1 d1 w1 w2 -> spent s n2 d2 w2 w3 -> spent s (n1 + n2) (d1 + d2) w1 w3.
Proof.
  intros (R1 & O1 & C1 & T1) (R2 & O2 & C2 & T2). repeat split.
  - lia.
  - intros s' Hs'. by rewrite O2, O1.
  - intros l. by rewrite C2, C1.
  - unfold second in *. lia.
Qed.

Lemma rate_limited_request_fails (l : limiter) :
  fails_after vendor s 1 0 (rate_limited l (request vendor s)).
Proof.
  intros w Hpos. specialize (Hpos l).
  unfold rate_limited, request, bind, gets, modify.
  destruct w as [now sl rq dl ce lim rc lc ls lm cs aa gh bt]; cbn in *.
  rewrite !fn_update_eq; cbn.
  remember (filter (fun t => now - t < minute) (calls (lim l))) as remaining eqn:Hrem.
  assert (Hlims : forall l' f g,
            calls_per_minute
              (fn_update l (fun self => {| calls_per_minute := calls_per_minute self;
                                           calls := f self |})
                 (fn_update l (fun self => {| calls_per_minute := calls_per_minute self;
                                              calls := g self |}) lim) l') =
            calls_per_minute (lim l')).
  { intros l' f g. unfold fn_update. by destruct (decide (l' = l)). }
  assert (Hreqs : forall s', s' <> s -> fn_update s S rq s' = rq s').
  { intros s' Hs'. by apply fn_update_ne. }
  replace (rq s + 1 - 1)%nat with (rq s) by lia.
  destruct (Z.leb_spec (calls_per_minute (lim l)) (Z.of_nat (length remaining))) as [Hfull|_].
  - destruct remaining as [|oldest rest]; [cbn in Hfull; lia|].
    destruct (Z.ltb_spec 0 (60 - td_seconds (now - oldest))) as [Hpos'|_].
    + eexists. split; [reflexivity|]. unfold spent. cbn. rewrite fn_update_eq.
      repeat split; try done; [lia | unfold second; lia].
    + eexists. split; [reflexivity|]. unfold spent. cbn. rewrite fn_update_eq.
      repeat split; try done; lia.
  - eexists. split; [reflexivity|]. unfold spent. cbn. rewrite fn_update_eq.
    repeat split; try done; lia.
Qed.

Lemma retry_fails (n : nat) (d : Z) (func : M world (list reading)) :
  (0 < n)%nat ->
  fails_after vendor s n d func ->
  fails_after vendor s (3 * n) (3 * d + 3) (retry_on_exception 3 1 func).
Proof.
  intros Hn Hfunc w Hpos. unfold retry_on_exception.
  change (range 3) with [0; 1; 2]. cbn [retry_loop]. unfold try_except.
  destruct (Hfunc w Hpos) as (w1 & -> & S1).
  destruct (down (requests w s + n - 1)) as [e1 ->].
  change (0 <? 3 - 1) with true. cbv iota. unfold bind at 1.
  rewrite sleep_nonneg by done.
  pose proof (spent_sleep _ _ (1 * 2 ^ 0) _ _ ltac:(lia) S1) as S1'.
  set (w1' := time_sleep (1 * 2 ^ 0) w1) in *.
  destruct (Hfunc w1' (spent_limits _ _ _ _ S1' Hpos)) as (w2 & -> & S2).
  destruct (down (requests w1' s + n - 1)) as [e2 ->].
  change (1 <? 3 - 1) with true. cbv iota. unfold bind at 1.
  rewrite sleep_nonneg by done.
  pose proof (spent_sleep _ _ (1 * 2 ^ 1) _ _ ltac:(lia) S2) as S2'.
  set (w2' := time_sleep (1 * 2 ^ 1) w2) in *.
  pose proof (spent_trans _ _ _ _ _ _ _ S1' S2') as S12.
  destruct (Hfunc w2' (spent_limits _ _ _ _ S12 Hpos)) as (w3 & -> & S3).
  destruct (down (requests w2' s + n - 1)) as [e3 He3]. rewrite He3.
  change (2 <? 3 - 1) with false. cbv iota. unfold bind, ret, raise.
  pose proof (spent_trans _ _ _ _ _ _ _ S12 S3) as S123.
  exists w3. split.
  - rewrite <- He3. do 2 f_equal. destruct S12 as (-> & _). lia.
  - destruct S123 as (R & O & C & T). repeat split; try done; [lia | unfold second in *; lia].
Qed.

End Down.

Lemma fetch_of_fails vendor (s : source) :
  (forall n, exists e, vendor s n = Raise e) ->
  fails_after vendor s (requests_when_down s) (backoff_when_down s) (fetch_of vendor s).
Proof.
  intros down.
  destruct s; cbn [fetch_of requests_when_down backoff_when_down];
    unfold get_weight_data, get_sleep_data, get_blood_pressure_data,
           get_heart_rate_data, _make_request.
  - apply (retry_fails _ _ down 1 0); [lia|]. by apply rate_limited_request_fails.
  - apply (retry_fails _ _ down 1 0); [lia|]. by apply rate_limited_request_fails.
  - apply (retry_fails _ _ down 3 3); [lia|]. apply (retry_fails _ _ down 1 0); [lia|].
    by apply rate_limited_request_fails.
  - apply (retry_fails _ _ down 3 3); [lia|]. apply (retry_fails _ _ down 1 0); [lia|].
    by apply rate_limited_request_fails.
Qed.

(** X18 — the requests of one fetch when the source is down (every
    request raises; positive limits).  A Withings getter sends three
    requests and sleeps at least 3 seconds.  An Omron getter sends nine,
    its own three attempts each running the three attempts of
    [_make_request], and sleeps at least 12 seconds.  The exception of the
    last request is raised, and no other source is requested. *)
Theorem X18_requests_of_a_source_that_is_down :
  forall vendor (s : source) (w : world),
    (forall n, exists e, vendor s n = Raise e) ->
    (forall l, 0 < calls_per_minute (limiters w l)) ->
    exists w',
      fetch_of vendor s w =
        (vendor s (requests w s + requests_when_down s - 1)%nat, w') /\
      requests w' s = (requests w s + requests_when_down s)%nat /\
      (forall s', s' <> s -> requests w' s' = requests w s') /\
      clock w + backoff_when_down s * second <= clock w'.
Proof.
  intros vendor s w Hdown Hpos.
  destruct (fetch_of_fails vendor s Hdown w Hpos) as (w' & Hrun & R & O & _ & T).
  by exists w'.
Qed.

Lemma X18_requests_of_a_source_that_is_down_witness :
  exists w',
    fetch_of (fun _ _ => Raise (ExternalError "503 Service Unavailable")) omron_bp
      fresh_process = (Raise (ExternalError "503 Service Unavailable"), w') /\
    requests w' omron_bp = 9%nat /\
    12 * second <= clock w'.
Proof.
  destruct (X18_requests_of_a_source_that_is_down
              (fun _ _ => Raise (ExternalError "503 Service Unavailable")) omron_bp
              fresh_process) as (w' & Hrun & Hreq & _ & Hclock).
  - intros n. by eexists.
  - intros l. cbn. lia.
  - exists w'. split; [exact Hrun|]. split; [exact Hreq | exact Hclock].
Defined.

(** ** The cycle and the service *)

(** The four synchronisations of a cycle and the state in which the
    aggregator is called. *)
Lemma sync_health_data_body_run `{PyRuntime} vendor calendar_insert (w : world) :
  exists weight_data sleep_data bp_data hr_data (w1 w2 w3 w4 : world),
    _safe_sync (get_weight_data vendor) "withings_weight" w = (Return weight_data, w1) /\
    _safe_sync (get_sleep_data vendor) "withings_sleep" w1 = (Return sleep_data, w2) /\
    _safe_sync (get_blood_pressure_data vendor) "omron_bp" w2 = (Return bp_data, w3) /\
    _safe_sync (get_heart_rate_data vendor) "omron_hr" w3 = (Return hr_data, w4) /\
    sync_health_data_body vendor calendar_insert w =
      (Raise (TypeError "unhashable type: 'list'"),
       record_latest "sleep" sleep_data
         (record_latest "heart_rate" hr_data
            (record_latest "blood_pressure" bp_data
               (record_latest "weight" weight_data w4)))).
Proof.
  unfold sync_health_data_body.
  destruct (_safe_sync_returns (get_weight_data vendor) "withings_weight" w)
    as (d1 & w1 & H1).
  destruct (_safe_sync_returns (get_sleep_data vendor) "withings_sleep" w1)
    as (d2 & w2 & H2).
  destruct (_safe_sync_returns (get_blood_pressure_data vendor) "omron_bp" w2)
    as (d3 & w3 & H3).
  destruct (_safe_sync_returns (get_heart_rate_data vendor) "omron_hr" w3)
    as (d4 & w4 & H4).
  exists d1, d2, d3, d4, w1, w2, w3, w4. repeat (split; [done|]).
  unfold bind at 1. rewrite H1. unfold bind at 1. rewrite H2.
  unfold bind at 1. rewrite H3. unfold bind at 1. rewrite H4.
  reflexivity.
Qed.

#[export] Instance outputs_kept_preorder : PreOrder outputs_kept.
Proof.
  split.
  - by intros w.
  - intros w1 w2 w3 (? & ? & ? & ?) (? & ? & ? & ?). repeat split; congruence.
Qed.

Lemma only_source_touched_outputs s w w' : only_source_touched s w w' -> outputs_kept w w'.
Proof. intros (_ & _ & _ & _ & ? & ? & ? & ?). by repeat split. Qed.

Lemma record_latest_outputs key data w : outputs_kept w (record_latest key data w).
Proof. unfold record_latest. destruct (last data); [|done]. by destruct w. Qed.

Lemma sync_health_data_body_outputs `{PyRuntime} vendor calendar_insert :
  preserves outputs_kept (sync_health_data_body vendor calendar_insert).
Proof.
  intros w.
  destruct (sync_health_data_body_run vendor calendar_insert w)
    as (d1 & d2 & d3 & d4 & w1 & w2 & w3 & w4 & H1 & H2 & H3 & H4 & ->). cbn [snd].
  pose proof (_safe_sync_touches_its_source vendor withings_weight w) as K1.
  pose proof (_safe_sync_touches_its_source vendor withings_sleep w1) as K2.
  pose proof (_safe_sync_touches_its_source vendor omron_bp w2) as K3.
  pose proof (_safe_sync_touches_its_source vendor omron_hr w3) as K4.
  cbn [fetch_of data_type] in K1, K2, K3, K4. rewrite H1 in K1. rewrite H2 in K2.
  rewrite H3 in K3. rewrite H4 in K4. cbn [snd] in *.
  apply only_source_touched_outputs in K1, K2, K3, K4.
  repeat (etrans; [|apply record_latest_outputs]).
  by repeat (etrans; [eassumption|]).
Qed.

(** X19 — what [sync_health_data] never does.  Whatever the state and
    whatever the vendors answer, after the call (its three attempts
    included) no calendar event has been created, no message has been
    delivered, the active alerts are unchanged and no summary has been
    cached: each attempt stops in the aggregator, before the alert and
    calendar steps. *)
Theorem X19_cycle_reaches_no_output :
  forall (rt : PyRuntime) vendor calendar_insert (w : world),
    let w' := (sync_health_data vendor calendar_insert w).2 in
    calendar_events w' = calendar_events w /\
    delivered w' = delivered w /\
    active_alerts w' = active_alerts w /\
    cached_summary w' = cached_summary w.
Proof.
  intros rt vendor calendar_insert w.
  apply (preserves_retry_on_exception outputs_kept); [by intros ? []|].
  apply sync_health_data_body_outputs.
Qed.

Lemma latest_metrics_record_latest (key : string) (data : list reading) (w : world)
    (k : string) :
  latest_metrics (record_latest key data w) !! k =
    if decide (k = key)
    then match last data with
         | Some latest => Some latest
         | None => latest_metrics w !! k
         end
    else latest_metrics w !! k.
Proof.
  unfold record_latest. destruct (last data) as [latest|]; [|by case_decide].
  destruct w; cbn. case_decide as Hk; [subst; apply lookup_insert_eq|].
  by apply lookup_insert_ne.
Qed.

(** X20 — what an attempt of [sync_health_data] does record.  With the
    four series returned by its [_safe_sync] calls, the latest metrics
    after the attempt hold, for each family, the last record of its series
    when the series is not empty, and what they held before otherwise. *)
Theorem X20_cycle_records_latest_metrics :
  forall (rt : PyRuntime) vendor calendar_insert (w : world),
    exists weight_data sleep_data bp_data hr_data (w1 w2 w3 w4 : world),
      _safe_sync (get_weight_data vendor) "withings_weight" w = (Return weight_data, w1) /\
      _safe_sync (get_sleep_data vendor) "withings_sleep" w1 = (Return sleep_data, w2) /\
      _safe_sync (get_blood_pressure_data vendor) "omron_bp" w2 = (Return bp_data, w3) /\
      _safe_sync (get_heart_rate_data vendor) "omron_hr" w3 = (Return hr_data, w4) /\
      forall key data,
        (key, data) ∈ [("weight", weight_data); ("blood_pressure", bp_data);
                       ("heart_rate", hr_data); ("sleep", sleep_data)] ->
        latest_metrics (sync_health_data_body vendor calendar_insert w).2 !! key =
          match last data with
          | Some latest => Some latest
          | None => latest_metrics w !! key
          end.
Proof.
  intros rt vendor calendar_insert w.
  destruct (sync_health_data_body_run vendor calendar_insert w)
    as (d1 & d2 & d3 & d4 & w1 & w2 & w3 & w4 & H1 & H2 & H3 & H4 & Hrun).
  exists d1, d2, d3, d4, w1, w2, w3, w4. repeat (split; [done|]).
  rewrite Hrun. cbn [snd].
  pose proof (_safe_sync_touches_its_source vendor withings_weight w) as K1.
  pose proof (_safe_sync_touches_its_source vendor withings_sleep w1) as K2.
  pose proof (_safe_sync_touches_its_source vendor omron_bp w2) as K3.
  pose proof (_safe_sync_touches_its_source vendor omron_hr w3) as K4.
  cbn [fetch_of data_type] in K1, K2, K3, K4. rewrite H1 in K1. rewrite H2 in K2.
  rewrite H3 in K3. rewrite H4 in K4. cbn [snd] in *.
  destruct K1 as (_ & _ & _ & M1 & _), K2 as (_ & _ & _ & M2 & _),
           K3 as (_ & _ & _ & M3 & _), K4 as (_ & _ & _ & M4 & _).
  assert (Hw4 : latest_metrics w4 = latest_metrics w) by congruence.
  intros key data Hin. rewrite !elem_of_cons, elem_of_nil in Hin.
  rewrite !latest_metrics_record_latest, Hw4.
  destruct Hin as [[= -> ->]|[[= -> ->]|[[= -> ->]|[[= -> ->]|[]]]]];
    repeat (case_decide; try done).
Qed.

Lemma X20_cycle_records_latest_metrics_witness :
  exists hr_data,
    latest_metrics (@sync_health_data_body sample_runtime weight_feed_down (fun _ => true)
                      fresh_process).2 !! "heart_rate" =
      match last hr_data with
      | Some latest => Some latest
      | None => latest_metrics fresh_process !! "heart_rate"
      end.
Proof.
  destruct (X20_cycle_records_latest_metrics sample_runtime weight_feed_down (fun _ => true)
              fresh_process)
    as (weight_data & sleep_data & bp_data & hr_data & w1 & w2 & w3 & w4 & _ & _ & _ & _
        & Hlatest).
  exists hr_data. apply Hlatest. do 2 right. left.
Defined.

Lemma sync_health_data_raises `{PyRuntime} vendor calendar_insert (w : world) :
  (sync_health_data vendor calendar_insert w).1 = Raise (TypeError "unhashable type: 'list'").
Proof.
  unfold sync_health_data, retry_on_exception.
  apply retry_loop_always_raises; [lia| |by right].
  intros st. apply sync_health_data_body_raises.
Qed.

(** X21 — [run] does not get past its first cycle.  The initial
    [self.sync_health_data()] raises [TypeError] after its three attempts,
    [run] logs and re-raises it, and the scheduler loop is never entered,
    whatever it would do; the script then exits with status 1. *)
Theorem X21_service_stops_in_its_first_cycle :
  forall (rt : PyRuntime) vendor calendar_insert (serve_forever : M world unit) (w : world),
    run vendor calendar_insert serve_forever w =
      (Raise (TypeError "unhashable type: 'list'"),
       (sync_health_data vendor calendar_insert w).2) /\
    exit_status vendor calendar_insert serve_forever w = 1.
Proof.
  intros rt vendor calendar_insert serve_forever w.
  assert (Hrun : run vendor calendar_insert serve_forever w =
                   (Raise (TypeError "unhashable type: 'list'"),
                    (sync_health_data vendor calendar_insert w).2)).
  { unfold run, try_except, bind.
    pose proof (sync_health_data_raises vendor calendar_insert w) as Hraise.
    destruct (sync_health_data vendor calendar_insert w) as [r w']. cbn in *. by subst r. }
  split; [done|]. unfold exit_status. by rewrite Hrun.
Qed.

(** ** Alerts: the Telegram bot, and the wording for Google Home *)

(** X22 — a change of alerts with the Telegram bot enabled.  When the new
    list differs from the active one and is not empty, the alert step
    stores it, makes the Google Home announcements, and then raises
    [RuntimeError] at [asyncio.create_task] (no event loop runs in the
    thread of the cycle): nothing is handed to Telegram.  As the new list
    is stored, the same alerts are no change for the next step, which
    returns without sending anything. *)
Theorem X22_alerts_with_the_bot_enabled :
  forall (rt : PyRuntime) (summary : summary) (new_alerts : list string) (w : world),
    check_health_metrics summary = Return new_alerts ->
    new_alerts <> active_alerts w ->
    new_alerts <> [] ->
    has_bot w = true ->
    exists w',
      check_and_notify summary w = (Raise (RuntimeError "no running event loop"), w') /\
      active_alerts w' = new_alerts /\
      delivered w' =
        delivered w ++ (if has_google_home w then map announce new_alerts else []) /\
      check_and_notify summary w' = (Return tt, w').
Proof.
  intros rt summary new_alerts w Hcheck Hchanged Hsome Hbot.
  rewrite (check_and_notify_run summary new_alerts w Hcheck).
  destruct (decide (new_alerts ≠ active_alerts w)); [|done].
  rewrite _send_alert_notifications_run.
  destruct w as [? ? ? sent ? ? ? ? ? ? ? alerts google bot]. cbn in *. subst bot.
  destruct new_alerts as [|alert new_alerts]; [done|].
  eexists. split; [reflexivity|].
  split; [by destruct google|].
  split; [destruct google; cbn; by rewrite ?app_nil_r|].
  unfold check_and_notify, bind, lift, gets. rewrite Hcheck.
  destruct google; cbn; (destruct (decide _) as [Hne|]; [by destruct Hne | done]).
Qed.

Lemma X22_alerts_with_the_bot_enabled_witness :
  (@check_and_notify sample_runtime racing_summary
     (initial_world 0 None true true)).1 = Raise (RuntimeError "no running event loop").
Proof.
  destruct (X22_alerts_with_the_bot_enabled sample_runtime racing_summary [racing_alert]
              (initial_world 0 None true true) eq_refl) as (w' & -> & _).
  - discriminate.
  - discriminate.
  - reflexivity.
  - reflexivity.
Defined.

Lemma lower_app (a b : string) : lower (a +:+ b) = lower a +:+ lower b.
Proof.
  induction a as [|c a IH]; [done|].
  change (String c a +:+ b) with (String c (a +:+ b)). cbn [lower]. by rewrite IH.
Qed.

Lemma lower_no_letters (t : string) : no_letters t = true -> lower t = t.
Proof.
  induction t as [|c t IH]; [done|]. cbn [no_letters lower]. intros [Hc Ht]%andb_prop.
  rewrite (IH Ht). f_equal. unfold lower_ascii.
  apply Nat.ltb_lt in Hc.
  destruct (Nat.leb_spec 65 (nat_of_ascii c)); [lia|done].
Qed.

Lemma prefix_app_l (needle a b : string) :
  String.prefix needle a = true -> String.prefix needle (a +:+ b) = true.
Proof.
  revert needle. induction a as [|c' a IH]; intros needle.
  - destruct needle; [|discriminate]. intros _. by destruct b.
  - change (String c' a +:+ b) with (String c' (a +:+ b)).
    destruct needle as [|c needle]; [reflexivity|]. cbn [String.prefix].
    destruct (ascii_dec c c'); [apply IH|done].
Qed.

Lemma contains_app_l (needle a b : string) :
  contains needle a = true -> contains needle (a +:+ b) = true.
Proof.
  induction a as [|c a IH].
  - cbn [contains]. rewrite orb_false_r. intros Hp.
    destruct needle; [|discriminate]. by destruct b.
  - cbn [contains]. intros [Hp | Hc]%orb_prop.
    + change (String c a +:+ b) with (String c (a +:+ b)). cbn [contains].
      replace (String.prefix needle (String c (a +:+ b))) with true; [done|].
      symmetry. apply (prefix_app_l needle (String c a) b Hp).
    + change (String c a +:+ b) with (String c (a +:+ b)). cbn [contains].
      rewrite (IH Hc). apply orb_true_r.
Qed.

(** A word that starts with a letter does not start inside a text without
    letters. *)
Lemma contains_skip_no_letters (c : ascii) (needle t rest : string) :
  (65 <= nat_of_ascii c)%nat ->
  no_letters t = true ->
  contains (String c needle) (t +:+ rest) = contains (String c needle) rest.
Proof.
  intros Hc. induction t as [|c' t IH]; [done|]. cbn [no_letters].
  intros [Hc' Ht]%andb_prop. apply Nat.ltb_lt in Hc'.
  change (String c' t +:+ rest) with (String c' (t +:+ rest)). cbn [contains String.prefix].
  destruct (ascii_dec c c') as [->|_]; [lia|]. cbn. by apply IH.
Qed.

Lemma contains_no_letters (c : ascii) (needle t : string) :
  (65 <= nat_of_ascii c)%nat ->
  no_letters t = true ->
  contains (String c needle) t = false.
Proof.
  intros Hc. induction t as [|c' t IH]; [done|]. cbn [no_letters].
  intros [Hc' Ht]%andb_prop. apply Nat.ltb_lt in Hc'. cbn [contains String.prefix].
  destruct (ascii_dec c c') as [->|_]; [lia|]. cbn. by apply IH.
Qed.

Ltac conses :=
  repeat match goal with
         | |- context [String ?c ?a +:+ ?b] =>
             change (String c a +:+ b) with (String c (a +:+ b))
         | |- context [EmptyString +:+ ?b] => change (EmptyString +:+ b) with b
         end.

Ltac lowered :=
  repeat match goal with
         | |- context [lower ?s] =>
             let t := eval vm_compute in (lower s) in change (lower s) with t
         end.

(** [absent needle]: the needle does not occur in the text of the goal,
    whose open part has no letters; [present needle]: it occurs in the
    fixed beginning of the text. *)
Ltac absent needle :=
  match goal with
  | |- context [contains needle ?text] =>
      replace (contains needle text) with false
        by (symmetry; conses; cbn;
            rewrite ?contains_skip_no_letters by (done || by apply Nat.leb_le);
            rewrite ?contains_no_letters by (done || by apply Nat.leb_le);
            reflexivity)
  end.

Ltac present needle :=
  match goal with
  | |- context [contains needle (?a +:+ ?b)] =>
      replace (contains needle (a +:+ b)) with true
        by (symmetry; apply contains_app_l; vm_compute; reflexivity)
  end.

Lemma announce_by_type (alert ty : string) :
  (_parse_alert alert).2 = ty -> announce alert = format_health_alert (alert, ty).
Proof. by intros <-. Qed.

Lemma blood_pressure_alert_type (analysis : string) :
  (_parse_alert ("⚠️ Concerning blood pressure trend: " +:+ analysis)).2 = "blood_pressure".
Proof.
  unfold _parse_alert. cbn [snd]. rewrite lower_app. lowered.
  by present "blood pressure".
Qed.

Lemma high_heart_rate_alert_type (n : string) :
  no_letters n = true ->
  (_parse_alert ("⚠️ High heart rate detected: " +:+ n +:+ " bpm")).2 = "heart_rate".
Proof.
  intros Hn. unfold _parse_alert. cbn [snd].
  rewrite !lower_app, (lower_no_letters n Hn). lowered.
  absent "blood pressure". by present "heart rate".
Qed.

Lemma heart_rate_variability_alert_type (n : string) :
  no_letters n = true ->
  (_parse_alert ("ℹ️ High heart rate variability: " +:+ n)).2 = "heart_rate".
Proof.
  intros Hn. unfold _parse_alert. cbn [snd].
  rewrite !lower_app, (lower_no_letters n Hn). lowered.
  absent "blood pressure". by present "heart rate".
Qed.

Lemma low_sleep_alert_type (n : string) :
  no_letters n = true ->
  (_parse_alert ("⚠️ Low sleep duration: " +:+ n +:+ " hours")).2 = "sleep".
Proof.
  intros Hn. unfold _parse_alert. cbn [snd].
  rewrite !lower_app, (lower_no_letters n Hn). lowered.
  absent "blood pressure". absent "heart rate". absent "weight". by present "sleep".
Qed.

(** X23 — every alert that [check_health_metrics] can produce is announced
    with the wording of its own family.  [_parse_alert] finds the family
    from the words of the alert: a blood-pressure alert is announced as
    "Health Alert: Your blood pressure reading is ...", whatever the
    analysis text says; the two heart-rate alerts as "Health Alert: Your
    heart rate is ..."; the two sleep alerts as "Health Alert: ...".  For
    the alerts that print a number, the printed number has no letters. *)
Theorem X23_alerts_are_announced_for_their_family :
  forall (rt : PyRuntime),
    (forall entry,
       Forall (fun a => announce a = "Health Alert: Your blood pressure reading is " +:+ a)
         (bp_alerts entry))
    /\
    (forall latest variability lowest highest alerts,
       hr_alerts (Some (HeartRateEntry latest variability lowest highest)) = Return alerts ->
       (forall q, highest = Num q -> no_letters (format_float EmptyString q) = true) ->
       no_letters (format_float ".1f" variability) = true ->
       Forall (fun a => announce a = "Health Alert: Your heart rate is " +:+ a) alerts)
    /\
    (forall average_duration quality consistency alerts,
       sleep_alerts (Some (SleepEntry average_duration quality consistency)) =
         Return alerts ->
       no_letters (format_float ".1f" average_duration) = true ->
       Forall (fun a => announce a = "Health Alert: " +:+ a) alerts).
Proof.
  intros rt. split; [|split].
  - intros [[trend analysis latest| |]|]; cbn [bp_alerts]; try constructor.
    destruct (decide (trend = "concerning")); constructor; [|constructor].
    by rewrite (announce_by_type _ _ (blood_pressure_alert_type analysis)).
  - intros latest variability lowest highest alerts Hrun Hmax Hvar.
    cbn [hr_alerts] in Hrun. destruct highest as [highest| |]; [|done..].
    specialize (Hmax highest eq_refl).
    destruct (Qgtb highest 100); [|destruct (Qgtb variability 20)];
      apply Return_inj in Hrun as <-; constructor; try constructor.
    + by rewrite (announce_by_type _ _ (high_heart_rate_alert_type _ Hmax)).
    + by rewrite (announce_by_type _ _ (heart_rate_variability_alert_type _ Hvar)).
  - intros average_duration quality consistency alerts Hrun Havg.
    cbn [sleep_alerts] in Hrun. apply Return_inj in Hrun as <-.
    apply Forall_app. split.
    + destruct (Qltb average_duration 6); constructor; [|constructor].
      by rewrite (announce_by_type _ _ (low_sleep_alert_type _ Havg)).
    + destruct (Qgtb consistency 2); constructor; [|constructor].
      reflexivity.
Qed.

Lemma X23_alerts_are_announced_for_their_family_witness :
  announce racing_alert = "Health Alert: Your heart rate is " +:+ racing_alert.
Proof.
  pose proof (proj1 (proj2 (X23_alerts_are_announced_for_their_family sample_runtime))
                (Num 105) 0%Q (Num 105) (Num 105) [racing_alert] eq_refl
                ltac:(by intros q [= <-]) eq_refl) as Hall.
  by apply Forall_cons_1 in Hall as [Hannounce _].
Defined.

(** ** Calendar events *)

Lemma create_health_event_run (calendar_insert : reading -> bool) (data : reading)
    (w : world) :
  let accepted :=
    (bool_decide (r_type data = "weight") || bool_decide (r_type data = "heart_rate"))
    && negb (is_str (r_timestamp data)) && calendar_insert data in
  create_health_event calendar_insert data w =
    (Return accepted,
     if accepted then set_calendar_events (fun events => events ++ [data]) w else w).
Proof. cbv zeta. unfold create_health_event. by destruct (_ && _ && _). Qed.

(** X24 — the calendar events of a series.  The loop over
    [create_health_event] never raises; it appends to the calendar, in the
    order of the series, exactly the records of type 'weight' or
    'heart_rate' whose timestamp is a [datetime] and whose insertion the
    Calendar API accepts.  Blood-pressure and sleep records never produce
    an event. *)
Theorem X24_calendar_events_of_a_series :
  forall (calendar_insert : reading -> bool) (series : list reading) (w : world),
    exists created,
      for_each series (fun data => _ <- create_health_event calendar_insert data ;; ret tt) w
        = (Return tt, set_calendar_events (fun events => events ++ created) w) /\
      created `sublist_of` series /\
      (forall data,
         data ∈ created <->
         data ∈ series /\
         (r_type data = "weight" \/ r_type data = "heart_rate") /\
         is_str (r_timestamp data) = false /\
         calendar_insert data = true).
Proof.
  intros calendar_insert series.
  induction series as [|data series IH]; intros w.
  - exists []. split; [|split].
    + destruct w. cbn. by rewrite app_nil_r.
    + done.
    + intros data. rewrite !elem_of_nil. tauto.
  - cbn [for_each]. unfold bind at 1 2. rewrite create_health_event_run.
    unfold ret at 1.
    destruct ((bool_decide (r_type data = "weight") || bool_decide (r_type data = "heart_rate"))
              && negb (is_str (r_timestamp data)) && calendar_insert data) eqn:Hok.
    + destruct (IH (set_calendar_events (fun events => events ++ [data]) w))
        as (created & Hrun & Hsub & Hin).
      exists (data :: created). split; [|split].
      * rewrite Hrun. destruct w. cbn. by rewrite <- app_assoc.
      * by apply sublist_skip.
      * intros data'. rewrite !elem_of_cons, Hin.
        apply andb_prop in Hok as [[Htype%orb_prop Hts]%andb_prop Hins].
        apply negb_true_iff in Hts.
        split; [intros [->|?]; [|tauto]|intros [[->|?] ?]; tauto].
        split; [by left|]. split; [|done].
        destruct Htype as [?%bool_decide_eq_true | ?%bool_decide_eq_true]; tauto.
    + destruct (IH w) as (created & Hrun & Hsub & Hin).
      exists created. split; [|split].
      * exact Hrun.
      * by apply sublist_cons.
      * intros data'. rewrite !elem_of_cons, Hin.
        split; [tauto|]. intros [[->|?] (Htype & Hts & Hins)]; [|tauto].
        exfalso. rewrite Hts, Hins in Hok.
        destruct Htype as [Ht | Ht]; rewrite Ht in Hok; cbn in Hok;
          by rewrite ?orb_true_r in Hok.
Qed.

Lemma X24_calendar_events_of_a_series_witness :
  exists created,
    for_each [weight_metric 1 70; bp_metric 2 120 80]
      (fun data => _ <- create_health_event (fun _ => true) data ;; ret tt) fresh_process
      = (Return tt, set_calendar_events (fun events => events ++ created) fresh_process) /\
    weight_metric 1 70 ∈ created /\
    bp_metric 2 120 80 ∉ created.
Proof.
  destruct (X24_calendar_events_of_a_series (fun _ => true)
              [weight_metric 1 70; bp_metric 2 120 80] fresh_process)
    as (created & Hrun & _ & Hin).
  exists created. split; [exact Hrun|]. split.
  - apply Hin. split; [left|]. split; [by left|]. by split.
  - intros (_ & [Htype | Htype] & _)%Hin; discriminate Htype.
Defined.

(** ** Configuration *)

(** X25 — [Config.validate].  It returns [True] only, and only when each
    of the six required settings is a text that is not empty; otherwise it
    raises [ValueError], and the names listed in its message, in the order
    of [required_vars], are exactly those of the settings that are absent
    or empty. *)
Theorem X25_config_validate :
  forall (self : Config),
    match validate self with
    | Return answer =>
        answer = true /\
        Forall (fun var => exists c text, var.2 = Some (String c text)) (required_vars self)
    | Raise e =>
        exists missing,
          e = ValueError ("Missing required configuration: " +:+
                          String.concat ", " missing) /\
          missing <> [] /\
          missing `sublist_of` (required_vars self).*1 /\
          forall name,
            name ∈ missing <->
            exists value, (name, value) ∈ required_vars self /\
                          (value = None \/ value = Some EmptyString)
    end.
Proof.
  intros self. unfold validate.
  generalize (required_vars self). intros vars.
  assert (Hunset : forall value, unset value = true <->
                                 value = None \/ value = Some EmptyString).
  { intros [[|c text]|]; cbn.
    - split; [by right | done].
    - split; [done | by intros [?|?]].
    - split; [by left | done]. }
  destruct (filter (fun var => unset var.2 = true) vars) as [|var rest] eqn:Hfilter.
  - cbn. split; [done|]. apply Forall_forall. intros [name value] Hin. cbn.
    destruct value as [[|c text]|]; [| by eauto |].
    + exfalso. by apply (filter_nil_not_elem_of _ _ (name, Some EmptyString) Hfilter).
    + exfalso. by apply (filter_nil_not_elem_of _ _ (name, None) Hfilter).
  - cbn. exists ((var :: rest).*1). split; [done|]. split; [done|]. rewrite <- Hfilter.
    split; [apply fmap_sublist, sublist_filter|].
    intros name. rewrite list_elem_of_fmap. split.
    + intros ([name' value] & -> & [Hmissing Hin]%list_elem_of_filter). cbn in *.
      exists value. split; [done|]. by apply Hunset.
    + intros (value & Hin & Hvalue). exists (name, value). split; [done|].
      apply list_elem_of_filter. split; [|done]. by apply Hunset.
Qed.

Lemma X25_config_validate_witness :
  validate {| withings_client_id := Some "id"; withings_client_secret := Some EmptyString;
              withings_callback_uri := Some "uri"; omron_client_id := Some "id";
              omron_client_secret := Some "secret"; google_calendar_id := None |} =
    Raise (ValueError
             "Missing required configuration: withings_client_secret, google_calendar_id").
Proof.
  pose proof (X25_config_validate
                {| withings_client_id := Some "id"; withings_client_secret := Some EmptyString;
                   withings_callback_uri := Some "uri"; omron_client_id := Some "id";
                   omron_client_secret := Some "secret"; google_calendar_id := None |})
    as Hvalidate.
  reflexivity.
Defined.
